(** * jmhplot: the aggregation pipeline of the JMH result plotter

    A shallow embedding of [jmhplot.py]: the parameter extractor and
    splitter, the two row filters, the grouping engine and the pipeline
    driver, with the properties the design document states about them.

    Python values are modelled as follows.
    - [str] is [string]; a character is a code point below 256.
    - [int] is [Z].
    - [dict] is an association list in insertion order with unique keys
      (module [Dict]); the order is observable through [items()].  Keys
      are compared as values of the same type; the theorems that depend on
      the comparison of keys assume keys on which this is what [==] does
      ([plain_keys], [plain_cells]).
    - a raised exception is the [Raise] case of [Result].
    - a [float] is a value of an abstract type [Float]: the program copies
      scores and errors and never computes with them.
    - a path is the text that [pathlib.Path] makes of the argument
      ([pathlib.Path]). *)

From Stdlib Require Import ZArith List String Ascii Bool Lia.
Import ListNotations.

Local Open Scope string_scope.
Local Open Scope list_scope.

(** ** Python strings *)

Module PyStr.

(** [str.split(sep)] for a one-character separator: the pieces between
    the occurrences of [sep]; never an empty list. *)
Fixpoint split (sep : ascii) (s : string) : list string :=
  match s with
  | EmptyString => [EmptyString]
  | String c s' =>
      if Ascii.eqb c sep then EmptyString :: split sep s'
      else match split sep s' with
           | [] => [String c EmptyString]
           | piece :: pieces => String c piece :: pieces
           end
  end.

(** [sep.join(pieces)]. *)
Fixpoint join (sep : string) (pieces : list string) : string :=
  match pieces with
  | [] => EmptyString
  | [p] => p
  | p :: ps => (p ++ sep ++ join sep ps)%string
  end.

(** Number of occurrences of a character. *)
Fixpoint count (c : ascii) (s : string) : nat :=
  match s with
  | EmptyString => 0
  | String d s' => (if Ascii.eqb d c then 1 else 0) + count c s'
  end.

(** [str.isspace] on one code point below 256: TAB..CR, FS..US, space,
    NEL and NBSP.  The same class is [\s] in a pattern and the class that
    [str.strip()] removes. *)
Definition is_space (c : ascii) : bool :=
  let n := nat_of_ascii c in
  (((9 <=? n) && (n <=? 13)) || ((28 <=? n) && (n <=? 32))
  || (n =? 133) || (n =? 160))%nat.

Fixpoint lstrip (s : string) : string :=
  match s with
  | EmptyString => EmptyString
  | String c s' => if is_space c then lstrip s' else s
  end.

Fixpoint rstrip (s : string) : string :=
  match s with
  | EmptyString => EmptyString
  | String c s' =>
      match rstrip s' with
      | EmptyString => if is_space c then EmptyString else String c EmptyString
      | r => String c r
      end
  end.

(** [str.strip()]. *)
Definition strip (s : string) : string := rstrip (lstrip s).

(** [s.split('.')[-1]]: the piece after the last separator. *)
Definition last_piece (sep : ascii) (s : string) : string :=
  last (split sep s) EmptyString.

(** [s] occurs in [x] as a contiguous piece. *)
Definition infix (s x : string) : Prop :=
  exists pre post, x = (pre ++ s ++ post)%string.

Fixpoint all_chars (p : ascii -> bool) (s : string) : bool :=
  match s with
  | EmptyString => true
  | String c s' => p c && all_chars p s'
  end.

(** *** [int(str)] in base ten

    Surrounding white space is skipped; then an optional sign; then
    decimal digits, where one underscore may stand between two digits.
    The white space of [int] is narrower than that of [str.strip()]: the
    separators FS..US (codes 28 to 31) are no white space here, and
    [int] raises [ValueError] on them.  The interpreter's configurable
    limit on the number of digits is not part of the model. *)

(** The characters [int()] skips around a number: TAB..CR, space, NEL and
    NBSP. *)
Definition is_int_space (c : ascii) : bool :=
  let n := nat_of_ascii c in
  (((9 <=? n) && (n <=? 13)) || (n =? 32) || (n =? 133) || (n =? 160))%nat.

Fixpoint int_lstrip (s : string) : string :=
  match s with
  | EmptyString => EmptyString
  | String c s' => if is_int_space c then int_lstrip s' else s
  end.

Fixpoint int_rstrip (s : string) : string :=
  match s with
  | EmptyString => EmptyString
  | String c s' =>
      match int_rstrip s' with
      | EmptyString =>
          if is_int_space c then EmptyString else String c EmptyString
      | r => String c r
      end
  end.

Definition digit_of (c : ascii) : option Z :=
  let n := nat_of_ascii c in
  if ((48 <=? n) && (n <=? 57))%nat then Some (Z.of_nat (n - 48)) else None.

(** Rest of a digit string; [after_underscore] tells that the character
    just read was an underscore. *)
Fixpoint digits_value (acc : Z) (after_underscore : bool) (s : string)
  : option Z :=
  match s with
  | EmptyString => if after_underscore then None else Some acc
  | String c s' =>
      if Ascii.eqb c "_"
      then if after_underscore then None else digits_value acc true s'
      else match digit_of c with
           | Some d => digits_value (10 * acc + d)%Z false s'
           | None => None
           end
  end.

Definition unsigned_value (s : string) : option Z :=
  match s with
  | EmptyString => None
  | String c s' =>
      match digit_of c with
      | Some d => digits_value d false s'
      | None => None
      end
  end.

Definition int_of_str (s : string) : option Z :=
  match int_rstrip (int_lstrip s) with
  | String "+" r => unsigned_value r
  | String "-" r => option_map Z.opp (unsigned_value r)
  | t => unsigned_value t
  end.

End PyStr.

(** ** Paths *)

Module pathlib.

(** A component that [pathlib] keeps: neither empty nor a single dot. *)
Definition kept_part (part : string) : bool :=
  negb (String.eqb part "" || String.eqb part ".").

(** The root of a POSIX path: exactly two leading slashes are kept, one or
    more than two are one. *)
Definition root (s : string) : string :=
  match s with
  | String "/" (String "/" (String "/" _)) => "/"
  | String "/" (String "/" _) => "//"
  | String "/" _ => "/"
  | _ => ""
  end.

(** [str(pathlib.Path(s))] on a POSIX system, which is what an f-string
    shows of the path and what the file system is asked about: repeated
    and trailing slashes and the components [.] are dropped, [..] is
    kept, and the empty path is [.]. *)
Definition Path (s : string) : string :=
  match (root s ++ PyStr.join "/" (filter kept_part (PyStr.split "/" s)))%string
  with
  | EmptyString => "."
  | path => path
  end.

End pathlib.

(** ** Python dictionaries

    Keys are compared with the decidable equality [eqb]; an entry keeps
    the position of its first insertion, as [dict] does. *)

Module Dict.
Section WithKey.
Context {K V : Type}.
Variable eqb : K -> K -> bool.

(** [d.get(k)]: [None] stands for a missing key. *)
Fixpoint get (k : K) (d : list (K * V)) : option V :=
  match d with
  | [] => None
  | (k', v) :: d' => if eqb k k' then Some v else get k d'
  end.

(** [k in d.keys()]. *)
Definition mem (k : K) (d : list (K * V)) : bool :=
  match get k d with Some _ => true | None => false end.

(** [d[k] = v]: replaces the value in place, or appends a new entry. *)
Fixpoint set (k : K) (v : V) (d : list (K * V)) : list (K * V) :=
  match d with
  | [] => [(k, v)]
  | (k', v') :: d' =>
      if eqb k k' then (k', v) :: d' else (k', v') :: set k v d'
  end.

(** [del d[k]]: no entry is left under [k]. *)
Fixpoint del (k : K) (d : list (K * V)) : list (K * V) :=
  match d with
  | [] => []
  | (k', v') :: d' => if eqb k k' then del k d' else (k', v') :: del k d'
  end.

Definition keys (d : list (K * V)) : list K := map fst d.
Definition values (d : list (K * V)) : list V := map snd d.
End WithKey.
End Dict.

(** ** Exceptions *)

(** The text of a [BenchmarkError]: one constructor for each message the
    program formats, with the values it interpolates. *)
Inductive Message : Type :=
| PathDoesNotExist (path : string)
    (* 'The file path {path} does not exist' *)
| NoInputFiles (path : string)
    (* 'No csv file(s) found at {path}' *)
| EmptyAfterLoad (stringpath : string)
    (* '0 results were read from the file(s) at {stringpath}' *)
| EmptyAfterBenchmarks (report_benchmarks : option string)
    (* '0 results after filtering benchmarks {report_benchmarks}' *)
| EmptyAfterRange (select_range : string)
    (* '0 results after filtering range {select_range}' *)
| MissingPrimaryParameter (name : string) (params : list (string * string))
    (* 'Missing {primary_param_name} in params {params}' *)
| InvalidBenchmarkPattern (report_bm : string)
    (* 'The benchmark pattern {report_bm} has non-alphanumeric characters' *)
| InvalidRange (from_to : list string).
    (* 'The range {from_to} is not valid' *)

(** The three messages that report an empty batch. *)
Definition is_empty_result (m : Message) : bool :=
  match m with
  | EmptyAfterLoad _ | EmptyAfterBenchmarks _ | EmptyAfterRange _ => true
  | _ => false
  end.

Inductive Exn : Type :=
| BenchmarkError (message : Message)
| KeyError (label : string)
| ValueError
    (* also the OverflowError of int(inf) *)
| TypeError
| AttributeError
| PatternNotModelled
    (* a search pattern with operators of the pattern language in it *)
| LibraryError.
    (* raised inside pandas, pathlib or matplotlib *)

Inductive Result (A : Type) : Type :=
| Ok (a : A)
| Raise (e : Exn).
Arguments Ok {A} a.
Arguments Raise {A} e.

Definition bind {A B} (r : Result A) (f : A -> Result B) : Result B :=
  match r with
  | Ok a => f a
  | Raise e => Raise e
  end.

Notation "x <- c1 ;; c2" := (bind c1 (fun x => c2))
  (at level 61, c1 at next level, right associativity).
Notation "' pat <- c1 ;; c2" :=
  (bind c1 (fun x => match x with pat => c2 end))
  (at level 61, pat pattern, c1 at next level, right associativity).

(** A call into a library: [None] is an exception raised there. *)
Definition library {A} (o : option A) : Result A :=
  match o with
  | Some a => Ok a
  | None => Raise LibraryError
  end.

(** Runs [f] over a list, left to right, stopping at the first exception. *)
Fixpoint mapM {A B} (f : A -> Result B) (l : list A) : Result (list B) :=
  match l with
  | [] => Ok []
  | a :: l' => b <- f a ;; bs <- mapM f l' ;; Ok (b :: bs)
  end.

(** A [for] loop with an accumulator. *)
Fixpoint foldM {A S} (f : S -> A -> Result S) (l : list A) (s : S)
  : Result S :=
  match l with
  | [] => Ok s
  | a :: l' => s' <- f s a ;; foldM f l' s'
  end.

Definition is_benchmark_error {A} (r : Result A) : bool :=
  match r with
  | Raise (BenchmarkError _) => true
  | _ => false
  end.

(** The result is a [BenchmarkError] that reports an empty batch. *)
Definition raises_empty_result {A} (r : Result A) : bool :=
  match r with
  | Raise (BenchmarkError m) => is_empty_result m
  | _ => false
  end.

(** ** Search patterns

    The two patterns of the program use a character class, the greedy
    repetition of a class, a group of alternatives and concatenation.
    [re_match] is [pattern.match(s) is not None]: the pattern has to match
    at the start of [s] and may stop anywhere.  The matcher tries the
    longest repetition first and backtracks into the continuation [k]. *)

Inductive regex : Type :=
| Class (p : ascii -> bool)
| StarClass (p : ascii -> bool)
| LitAlt (alternatives : list string)
| Seq (r1 r2 : regex).

Fixpoint strip_prefix (p s : string) : option string :=
  match p, s with
  | EmptyString, _ => Some s
  | String a p', String b s' => if Ascii.eqb a b then strip_prefix p' s' else None
  | String _ _, EmptyString => None
  end.

Fixpoint star_class (p : ascii -> bool) (k : string -> bool) (s : string)
  : bool :=
  match s with
  | EmptyString => k EmptyString
  | String c s' => (p c && star_class p k s') || k s
  end.

Fixpoint re_run (r : regex) (s : string) (k : string -> bool) : bool :=
  match r with
  | Class p =>
      match s with
      | EmptyString => false
      | String c s' => p c && k s'
      end
  | StarClass p => star_class p k s
  | LitAlt alternatives =>
      existsb (fun a => match strip_prefix a s with
                        | Some rest => k rest
                        | None => false
                        end) alternatives
  | Seq r1 r2 => re_run r1 s (fun rest => re_run r2 rest k)
  end.

Definition re_match (r : regex) (s : string) : bool :=
  re_run r s (fun _ => true).

Definition in_range (lo hi : nat) (c : ascii) : bool :=
  let n := nat_of_ascii c in ((lo <=? n) && (n <=? hi))%nat.

(** The class [[A-Za-z0-9_\-+]]. *)
Definition allowed_char (c : ascii) : bool :=
  in_range 65 90 c || in_range 97 122 c || in_range 48 57 c
  || Ascii.eqb c "_" || Ascii.eqb c "-" || Ascii.eqb c "+".

(** The class [\S]. *)
Definition non_space (c : ascii) : bool := negb (PyStr.is_space c).

(** The characters that are operators of the pattern language, the
    backslash (code 92) among them; every other character stands for
    itself. *)
Definition special_char (c : ascii) : bool :=
  existsb (Ascii.eqb c)
    ["."; "["; "{"; "("; ")"; "*"; "+"; "?"; "^"; "$"; "|"]%char
  || Nat.eqb (nat_of_ascii c) 92.

Definition literal_text (s : string) : bool :=
  PyStr.all_chars (fun c => negb (special_char c)) s.

(** [re.compile(f'\S*({report_bms_translated})\S*')] where
    [report_bms_translated = '|'.join(report_bms)].  The alternatives are
    read as literal text; a list with an operator character in it is
    outside the model. *)
Definition compile_search (report_bms : list string) : Result regex :=
  if forallb literal_text report_bms
  then Ok (Seq (StarClass non_space)
             (Seq (LitAlt report_bms) (StarClass non_space)))
  else Raise PatternNotModelled.

(** [sys.maxsize] of a 64-bit interpreter. *)
Definition maxsize : Z := 2 ^ 63 - 1.

(** ** The program *)

(** Floating-point cells.  [float_to_int] is [int(f)]: truncation, with
    [None] for a value that has no integer part (nan, inf).  [float_eq] is
    [f == g], which is false when one of the two is nan, and
    [float_eq_int] is [f == n] for an integer [n]. *)
Class FloatOps (Float : Type) : Type := {
  Float_eq_dec : forall x y : Float, {x = y} + {x <> y};
  float_to_int : Float -> option Z;
  float_eq : Float -> Float -> bool;
  float_eq_int : Float -> Z -> bool
}.

(** A value in a table, by the type pandas gave its column. *)
Inductive Cell (Float : Type) : Type :=
| CInt (z : Z)
| CFloat (f : Float)
| CStr (s : string)
| CBool (b : bool).
Arguments CInt {Float} z.
Arguments CFloat {Float} f.
Arguments CStr {Float} s.
Arguments CBool {Float} b.

(** A row as [iterrows()] yields it: the values under their column labels.
    The table has a string column, so each value keeps its own type. *)
Definition Row (Float : Type) : Type := list (string * Cell Float).

Record DataFrame (Float : Type) : Type := {
  columns : list string;
  rows : list (Row Float)
}.
Arguments columns {Float} d.
Arguments rows {Float} d.
Arguments Build_DataFrame {Float} columns rows.

Definition Params : Type := list (string * string).

Record BMParams : Type := {
  primary : Params;
  secondary : Params
}.

Record BMResult (Float : Type) : Type := {
  value : Cell Float;
  score : Cell Float;
  error : Cell Float
}.
Arguments value {Float} b.
Arguments score {Float} b.
Arguments error {Float} b.
Arguments Build_BMResult {Float} value score error.

Definition ResultSet (Float : Type) : Type :=
  list (Cell Float * list (BMResult Float)).
Definition ResultSets (Float : Type) : Type :=
  list (list (Cell Float) * ResultSet Float).

(** Outside the program: the file system, [pandas.read_csv],
    [pandas.merge] and the renderer, which draws with matplotlib and
    returns nothing.  [None] is an exception raised there. *)
Class Outside (Float : Type) : Type := {
  path_exists : string -> bool;
  is_dir : string -> bool;
  sorted_rglob_csv : string -> list string;
  read_csv : string -> option (DataFrame Float);
  pd_merge : DataFrame Float -> DataFrame Float -> option (DataFrame Float);
  plot_all_results :
    BMParams -> ResultSets Float -> string -> option string -> option unit
}.

Section Model.

Context {Float : Type} {float_ops : FloatOps Float} {outside : Outside Float}.

Definition Cell_eq_dec (a b : Cell Float) : {a = b} + {a <> b}.
Proof.
  decide equality;
    first [apply Z.eq_dec | apply Float_eq_dec | apply string_dec
          | apply bool_dec].
Defined.

(** The comparison of dictionary keys in the model: the same value of the
    same type.  A [dict] finds a key that is the same object as the one
    asked for, or equal to it by [==]; the two comparisons agree where
    the keys are plain ([plain_cells] below): no key is nan, and no two
    keys of different types are equal as numbers. *)
Definition cell_eqb (a b : Cell Float) : bool :=
  if Cell_eq_dec a b then true else false.

(** Equality of tuples of cells. *)
Definition key_eqb (k1 k2 : list (Cell Float)) : bool :=
  if list_eq_dec Cell_eq_dec k1 k2 then true else false.

(** [a == b] on the values of two cells: numbers are compared by value
    whatever their types ([True == 1 == 1.0]), nan is unequal to
    everything, and a string is equal to the same string only. *)
Definition py_eq (a b : Cell Float) : bool :=
  match a, b with
  | CStr s, CStr t => String.eqb s t
  | CStr _, _ | _, CStr _ => false
  | CFloat f, CFloat g => float_eq f g
  | CFloat f, CInt n | CInt n, CFloat f => float_eq_int f n
  | CFloat f, CBool c | CBool c, CFloat f => float_eq_int f (Z.b2z c)
  | CInt m, CInt n => Z.eqb m n
  | CInt m, CBool c | CBool c, CInt m => Z.eqb m (Z.b2z c)
  | CBool c, CBool d => Bool.eqb c d
  end.


(** On these cells [==] is the comparison of the model. *)
Definition plain_cells (cells : list (Cell Float)) : bool :=
  forallb (fun a =>
             forallb (fun b => Bool.eqb (py_eq a b) (cell_eqb a b)) cells)
    cells.

(** [int(x)] on a cell. *)
Definition cell_int (x : Cell Float) : Result Z :=
  match x with
  | CInt z => Ok z
  | CBool b => Ok (if b then 1 else 0)%Z
  | CFloat f =>
      match float_to_int f with
      | Some z => Ok z
      | None => Raise ValueError
      end
  | CStr s =>
      match PyStr.int_of_str s with
      | Some z => Ok z
      | None => Raise ValueError
      end
  end.

(** [len(dataframe)]. *)
Definition len (dataframe : DataFrame Float) : nat :=
  List.length (rows dataframe).

(** [row[label]]. *)
Definition row_get (label : string) (row : Row Float) : Result (Cell Float) :=
  match Dict.get String.eqb label row with
  | Some c => Ok c
  | None => Raise (KeyError label)
  end.

(** [dataframe[label]]: the values of one column, top to bottom. *)
Definition column (dataframe : DataFrame Float) (label : string)
  : Result (list (Cell Float)) :=
  if existsb (String.eqb label) (columns dataframe)
  then mapM (row_get label) (rows dataframe)
  else Raise (KeyError label).

(** Rows selected by a boolean mask of the same length. *)
Fixpoint select {A} (mask : list bool) (l : list A) : list A :=
  match mask, l with
  | b :: mask', a :: l' => if b then a :: select mask' l' else select mask' l'
  | _, _ => []
  end.

(** [dataframe[mask]] for a mask of booleans: the rows at the places of
    [True], under the same columns. *)
Definition take_rows (dataframe : DataFrame Float) (mask : list bool)
  : DataFrame Float :=
  {| columns := columns dataframe;
     rows := select mask (rows dataframe) |}.

(** [dataframe[dataframe[label].apply(f)]].  On a column without values
    [apply] calls [f] for nothing and returns a column that is not of the
    boolean type; pandas then takes it for a list of column labels, an
    empty one, and the result is a table without columns. *)
Definition where_apply (dataframe : DataFrame Float) (label : string)
    (f : Cell Float -> Result bool) : Result (DataFrame Float) :=
  col <- column dataframe label ;;
  mask <- mapM f col ;;
  match mask with
  | [] => Ok {| columns := []; rows := [] |}
  | _ :: _ => Ok (take_rows dataframe mask)
  end.

(** [dataframe[dataframe[label] == value]]: the comparison gives a mask
    of booleans, also for a column without values. *)
Definition where_eq (dataframe : DataFrame Float) (label : string)
    (value : Cell Float) : Result (DataFrame Float) :=
  col <- column dataframe label ;;
  Ok (take_rows dataframe (map (fun x => py_eq x value) col)).

(** [dataframe.iloc[::step, :]]: the rows at positions 0, step, 2*step, ...
    [countdown] is the number of rows to drop before the next one kept. *)
Fixpoint stride {A} (step countdown : nat) (l : list A) : list A :=
  match l with
  | [] => []
  | a :: l' =>
      match countdown with
      | O => a :: stride step (step - 1) l'
      | S c => stride step c l'
      end
  end.

Definition iloc_step (step : nat) (dataframe : DataFrame Float)
  : DataFrame Float :=
  {| columns := columns dataframe;
     rows := stride step 0 (rows dataframe) |}.

(** *** Parameters *)

(** One step of the loop of [extract_params]. *)
Definition extract_param (params : Params) (column : string) : Params :=
  match PyStr.split ":" column with
  | [field0; field1] =>
      if String.eqb field0 "Param"
      then Dict.set String.eqb (PyStr.strip field1) column params
      else params
  | _ => params
  end.

Definition extract_params (dataframe : DataFrame Float) : Params :=
  fold_left extract_param (columns dataframe) [].

(** [split_params] deletes the primary entry from the dictionary it is
    given and returns that same dictionary as [secondary].  The second
    component of the result is the caller's dictionary after the call. *)
Definition split_params (params : Params) (primary_param_name : string)
  : Result (BMParams * Params) :=
  match Dict.get String.eqb primary_param_name params with
  | None =>
      Raise (BenchmarkError
               (MissingPrimaryParameter primary_param_name params))
  | Some label =>
      let primary_params := [(primary_param_name, label)] in
      let params := Dict.del String.eqb primary_param_name params in
      let secondary_params := params in
      Ok ({| primary := primary_params; secondary := secondary_params |},
          params)
  end.

(** *** Grouping *)

Definition tuple_of_secondary_values (params : BMParams) (row : Row Float)
  : Result (list (Cell Float)) :=
  mapM (fun entry => row_get (snd entry) row) (secondary params).

Definition tuple_of_secondary_keys (params : BMParams) : list string :=
  map fst (secondary params).

(** [d[k]] for a key known to be present. *)
Definition item {K V} (eqb : K -> K -> bool) (k : K) (d : list (K * list V))
  : list V :=
  match Dict.get eqb k d with
  | Some v => v
  | None => []
  end.

(** [BMResult(value=row[column], score=row['Score'],
    error=row['Score Error (99.9%)'])]. *)
Definition result_of_row (column : string) (row : Row Float)
  : Result (BMResult Float) :=
  v <- row_get column row ;;
  s <- row_get "Score" row ;;
  e <- row_get "Score Error (99.9%)" row ;;
  Ok {| value := v; score := s; error := e |}.

(** The inner loop over [params.primary.items()]: one point per entry,
    appended to the bucket of the row's benchmark. *)
Definition append_points (params : BMParams) (row : Row Float)
    (benchmark : Cell Float) (resultSet : ResultSet Float)
  : Result (ResultSet Float) :=
  foldM (fun resultSet entry =>
           entry <- result_of_row (snd entry) row ;;
           Ok (Dict.set cell_eqb benchmark
                 (item cell_eqb benchmark resultSet ++ [entry]) resultSet))
        (primary params) resultSet.

(** The body of the loop over the rows. *)
Definition add_row (params : BMParams) (resultSets : ResultSets Float)
    (row : Row Float) : Result (ResultSets Float) :=
  secondaryTuple <- tuple_of_secondary_values params row ;;
  let resultSets :=
    if Dict.mem key_eqb secondaryTuple resultSets then resultSets
    else Dict.set key_eqb secondaryTuple [] resultSets in
  benchmark <- row_get "Benchmark" row ;;
  let resultSet := item key_eqb secondaryTuple resultSets in
  let resultSet :=
    if Dict.mem cell_eqb benchmark resultSet then resultSet
    else Dict.set cell_eqb benchmark [] resultSet in
  resultSet <- append_points params row benchmark resultSet ;;
  Ok (Dict.set key_eqb secondaryTuple resultSet resultSets).

Definition extract_results_per_param (dataframe : DataFrame Float)
    (params : BMParams) : Result (ResultSets Float) :=
  foldM (add_row params) (rows dataframe) [].

(** *** Row filters *)

Definition check_pattern (report_bm : string) : Result unit :=
  if re_match (Class allowed_char) report_bm then Ok tt
  else Raise (BenchmarkError (InvalidBenchmarkPattern report_bm)).

Definition filter_for_benchmarks (dataframe : DataFrame Float)
    (report_benchmarks : option string) : Result (DataFrame Float) :=
  match report_benchmarks with
  | None => Ok dataframe
  | Some EmptyString => Ok dataframe
  | Some report_benchmarks =>
      let report_bms := PyStr.split "," report_benchmarks in
      _ <- mapM check_pattern report_bms ;;
      pattern <- compile_search report_bms ;;
      where_apply dataframe "Benchmark"
        (fun x => match x with
                  | CStr name => Ok (re_match pattern name)
                  | _ => Raise TypeError
                  end)
  end.

(** The [try] block of [filter_for_range]: [None] when [int] raises. *)
Definition range_bounds (from : string) (to : string) : option (Z * Z) :=
  match (if (0 <? String.length from)%nat
         then PyStr.int_of_str from else Some (- maxsize)%Z) with
  | None => None
  | Some low =>
      match (if (0 <? String.length to)%nat
             then PyStr.int_of_str to else Some maxsize) with
      | None => None
      | Some high => Some (low, high)
      end
  end.

Definition filter_for_range (dataframe : DataFrame Float)
    (primary_param_name : string) (select_range : string)
  : Result (DataFrame Float) :=
  match PyStr.split "<" select_range with
  | [from; to] =>
      let from_to := [from; to] in
      match range_bounds from to with
      | None => Raise (BenchmarkError (InvalidRange from_to))
      | Some (low, high) =>
          if negb (low <=? high)%Z
          then Raise (BenchmarkError (InvalidRange from_to))
          else
            where_apply dataframe ("Param: " ++ primary_param_name)%string
              (fun x =>
                 v <- cell_int x ;;
                 Ok ((low <=? v)%Z && (v <=? high)%Z))
      end
  | _ => Ok dataframe
  end.

(** *** Loading and the driver *)

(** [df["Benchmark"] = df["Benchmark"].apply(lambda x: x.split('.')[-1])]. *)
Definition shorten_benchmark (row : Row Float) : Result (Row Float) :=
  x <- row_get "Benchmark" row ;;
  match x with
  | CStr name =>
      Ok (Dict.set String.eqb "Benchmark"
            (CStr (PyStr.last_piece "." name)) row)
  | _ => Raise AttributeError
  end.

Definition shorten_benchmarks (df : DataFrame Float)
  : Result (DataFrame Float) :=
  if existsb (String.eqb "Benchmark") (columns df)
  then rs <- mapM shorten_benchmark (rows df) ;;
       Ok {| columns := columns df; rows := rs |}
  else Raise (KeyError "Benchmark").

(** The body of the loop over the files. *)
Definition load_file (normalized : option (DataFrame Float)) (file : string)
  : Result (option (DataFrame Float)) :=
  df <- library (read_csv file) ;;
  let df := iloc_step 9 df in
  df <- shorten_benchmarks df ;;
  match normalized with
  | None => Ok (Some df)
  | Some normalized =>
      merged <- library (pd_merge normalized df) ;; Ok (Some merged)
  end.

Definition normalize_data_frame_from_path (path : string)
  : Result (DataFrame Float) :=
  let files := if is_dir path then sorted_rglob_csv path else [path] in
  normalized <- foldM load_file files None ;;
  match normalized with
  | None => Raise (BenchmarkError (NoInputFiles path))
  | Some normalized => Ok normalized
  end.

Definition process_benchmarks (stringpath primary_param_name : string)
    (report_benchmarks : option string) (select_range : string)
  : Result unit :=
  let path := pathlib.Path stringpath in
  if negb (path_exists path)
  then Raise (BenchmarkError (PathDoesNotExist path))
  else
    dataframe <- normalize_data_frame_from_path path ;;
    if (len dataframe =? 0)%nat
    then Raise (BenchmarkError (EmptyAfterLoad stringpath))
    else
      dataframe <- filter_for_benchmarks dataframe report_benchmarks ;;
      if (len dataframe =? 0)%nat
      then Raise (BenchmarkError (EmptyAfterBenchmarks report_benchmarks))
      else
        dataframe <- filter_for_range dataframe primary_param_name
                       select_range ;;
        if (len dataframe =? 0)%nat
        then Raise (BenchmarkError (EmptyAfterRange select_range))
        else
          split <- split_params (extract_params dataframe)
                     primary_param_name ;;
          let params := fst split in
          resultSets <- extract_results_per_param dataframe params ;;
          library (plot_all_results params resultSets path
                     report_benchmarks).

(** The stages of the driver, one by one: a stage takes the batch of the
    stage before it and is followed by the check of [len]. *)
Definition checked (message : Message) (r : Result (DataFrame Float))
  : Result (DataFrame Float) :=
  dataframe <- r ;;
  if (len dataframe =? 0)%nat then Raise (BenchmarkError message)
  else Ok dataframe.

Definition load_stage (stringpath : string) : Result (DataFrame Float) :=
  let path := pathlib.Path stringpath in
  if negb (path_exists path)
  then Raise (BenchmarkError (PathDoesNotExist path))
  else checked (EmptyAfterLoad stringpath)
         (normalize_data_frame_from_path path).

Definition benchmarks_stage (report_benchmarks : option string)
    (dataframe : DataFrame Float) : Result (DataFrame Float) :=
  checked (EmptyAfterBenchmarks report_benchmarks)
    (filter_for_benchmarks dataframe report_benchmarks).

Definition range_stage (primary_param_name select_range : string)
    (dataframe : DataFrame Float) : Result (DataFrame Float) :=
  checked (EmptyAfterRange select_range)
    (filter_for_range dataframe primary_param_name select_range).

Definition grouping_stage (path primary_param_name : string)
    (report_benchmarks : option string) (dataframe : DataFrame Float)
  : Result unit :=
  split <- split_params (extract_params dataframe) primary_param_name ;;
  let params := fst split in
  resultSets <- extract_results_per_param dataframe params ;;
  library (plot_all_results params resultSets path report_benchmarks).

End Model.

(** ** Notions used to state the properties *)

Section Notions.

Context {Float : Type} {float_ops : FloatOps Float}.

(** Number of points in one group and in a whole grouping. *)
Definition points_in (resultSet : ResultSet Float) : nat :=
  list_sum (map (fun bucket => List.length (snd bucket)) resultSet).

Definition total_points (resultSets : ResultSets Float) : nat :=
  list_sum (map (fun group => points_in (snd group)) resultSets).

(** The bucket of benchmark [b] in the group of key [k]; empty when there
    is none. *)
Definition bucket (k : list (Cell Float)) (b : Cell Float)
    (resultSets : ResultSets Float) : list (BMResult Float) :=
  item cell_eqb b (item key_eqb k resultSets).

(** The row has secondary values [k] and benchmark [b]. *)
Definition row_in_bucket (params : BMParams) (k : list (Cell Float))
    (b : Cell Float) (row : Row Float) : bool :=
  match tuple_of_secondary_values params row, row_get "Benchmark" row with
  | Ok k', Ok b' => key_eqb k' k && cell_eqb b' b
  | _, _ => false
  end.

(** The points a row contributes: one for each primary parameter. *)
Definition points_of_row (params : BMParams) (row : Row Float)
  : list (BMResult Float) :=
  match mapM (fun entry => result_of_row (snd entry) row) (primary params)
  with
  | Ok points => points
  | Raise _ => []
  end.

(** What one row does to the grouping: the points of the row go to the
    end of the bucket of its benchmark in the group of its key. *)
Definition with_points (k : list (Cell Float)) (b : Cell Float)
    (points : list (BMResult Float)) (rs : ResultSets Float)
  : ResultSets Float :=
  let g := item key_eqb k rs in
  Dict.set key_eqb k (Dict.set cell_eqb b (item cell_eqb b g ++ points) g) rs.

(** What a filter by [apply] leaves of a batch: the rows that pass the
    test, in their order, under the columns of the batch; of a batch
    without rows it leaves a table without columns. *)
Definition kept_rows (df : DataFrame Float) (keep : Row Float -> bool)
  : DataFrame Float :=
  match rows df with
  | [] => {| columns := []; rows := [] |}
  | _ :: _ => {| columns := columns df; rows := filter keep (rows df) |}
  end.

(** The values that rows have under a label. *)
Definition column_cells (label : string) (l : list (Row Float))
  : list (Cell Float) :=
  flat_map (fun row => match Dict.get String.eqb label row with
                       | Some c => [c]
                       | None => []
                       end) l.







(** The row has a value under each of the labels. *)
Definition has_columns (labels : list string) (row : Row Float) : bool :=
  forallb (fun label => Dict.mem String.eqb label row) labels.

(** The columns the grouping reads. *)
Definition grouping_columns (params : BMParams) : list string :=
  ["Benchmark"; "Score"; "Score Error (99.9%)"]
    ++ map snd (primary params) ++ map snd (secondary params).

(** The benchmark name of a row, when it is a string. *)
Definition benchmark_name (row : Row Float) : option string :=
  match row_get "Benchmark" row with
  | Ok (CStr name) => Some name
  | _ => None
  end.

(** The primary value of a row as an integer, when [int] accepts it. *)
Definition primary_int (primary_param_name : string) (row : Row Float)
  : option Z :=
  match row_get ("Param: " ++ primary_param_name)%string row with
  | Ok x => match cell_int x with Ok v => Some v | Raise _ => None end
  | Raise _ => None
  end.

End Notions.

(** The parameter name a column label gives, when the extractor takes the
    label for a parameter. *)
Definition param_name (column : string) : option string :=
  match PyStr.split ":" column with
  | [field0; field1] =>
      if String.eqb field0 "Param" then Some (PyStr.strip field1) else None
  | _ => None
  end.

(** [s] occurs in [x] with nothing but non-space characters before it. *)
Definition occurs_after_non_space (s x : string) : Prop :=
  exists pre post,
    x = (pre ++ s ++ post)%string /\ PyStr.all_chars non_space pre = true.


(** *** The wording of the design document, where it differs *)

(** A parameter label as the document describes it: two non-empty parts
    around one colon, the first of which is, once trimmed, [Param]. *)
Definition documented_param_label (label : string) : bool :=
  match PyStr.split ":" label with
  | [part0; part1] =>
      negb (String.eqb part0 "") && negb (String.eqb part1 "")
      && String.eqb (PyStr.strip part0) "Param"
  | _ => false
  end.







(** A substring the document rejects: its first character is outside the
    allowed class. *)
Definition documented_bad_pattern (report_bm : string) : bool :=
  match report_bm with
  | EmptyString => false
  | String c _ => negb (allowed_char c)
  end.

(** ** Sample data

    Floats written in tenths ([1205] is 120.5), a table with the header of
    the end-to-end scenario, and a file system that holds one file. *)

Module Sample.

Local Open Scope Z_scope.

Definition Tenths : Type := Z.

#[global] Instance tenths_ops : FloatOps Tenths := {|
  Float_eq_dec := Z.eq_dec;
  float_to_int := fun f => Some (Z.quot f 10);
  float_eq := Z.eqb;
  float_eq_int := fun f n => Z.eqb f (10 * n)
|}.

Definition header : list string :=
  ["Benchmark"; "Score"; "Score Error (99.9%)"; "Param: valueSize";
   "Param: checksum"].

Definition row (benchmark : string) (score error : Tenths) (valueSize : Z)
    (checksum : bool) : Row Tenths :=
  [("Benchmark", CStr benchmark); ("Score", CFloat score);
   ("Score Error (99.9%)", CFloat error); ("Param: valueSize", CInt valueSize);
   ("Param: checksum", CBool checksum)].

Definition frame (rows : list (Row Tenths)) : DataFrame Tenths :=
  {| columns := header; rows := rows |}.

Definition direct64 : Row Tenths :=
  row "com.example.BenchGetDirect" 1205 32 64 true.

(** The file of the end-to-end scenario: nine report lines of one sample. *)
Definition scenario_file : DataFrame Tenths := frame (repeat direct64 9%nat).

(** What the loader makes of that file. *)
Definition scenario_batch : DataFrame Tenths :=
  frame [row "BenchGetDirect" 1205 32 64 true].

(** Four rows: two benchmarks under one checksum, values not in order. *)
Definition four_rows : DataFrame Tenths :=
  frame [row "BenchGetDirect" 1205 32 64 true;
         row "BenchGetArray" 990 21 64 true;
         row "BenchGetDirect" 804 15 8 true;
         row "BenchGetDirect" 3000 90 4096 false].

Definition value_params : BMParams :=
  {| primary := [("valueSize", "Param: valueSize")];
     secondary := [("checksum", "Param: checksum")] |}.

(** The same primary parameter and no secondary one. *)
Definition value_only_params : BMParams :=
  {| primary := [("valueSize", "Param: valueSize")]; secondary := [] |}.

(** A benchmark name with a space in it. *)
Definition spaced_name : DataFrame Tenths :=
  frame [row "Bench GetDirect" 1205 32 64 true].


#[global] Instance one_file : Outside Tenths := {|
  path_exists := String.eqb "run/results.csv";
  is_dir := fun _ => false;
  sorted_rglob_csv := fun _ => [];
  read_csv := fun file =>
    if String.eqb file "run/results.csv" then Some scenario_file else None;
  pd_merge := fun _ _ => None;
  plot_all_results := fun _ _ _ _ => Some tt
|}.

End Sample.

(** ** Further notions *)

(** The distinct elements of a list in the order of their first
    appearance; this is also [Series.unique()]. *)
Fixpoint first_seen {A} (eqb : A -> A -> bool) (l : list A) : list A :=
  match l with
  | [] => []
  | a :: l' => a :: filter (fun x => negb (eqb x a)) (first_seen eqb l')
  end.

(** The parameter names that the column labels give, label by label. *)
Definition param_names (columns : list string) : list string :=
  flat_map (fun column =>
              match param_name column with
              | Some name => [name]
              | None => []
              end) columns.

Section MoreNotions.

Context {Float : Type} {float_ops : FloatOps Float}.



(** The row passes the benchmark filter with the substrings
    [report_bms]. *)
Definition kept_by_benchmarks (report_bms : list string) (row : Row Float)
  : bool :=
  match benchmark_name row with
  | Some name =>
      re_match (Seq (StarClass non_space)
                  (Seq (LitAlt report_bms) (StarClass non_space))) name
  | None => false
  end.

(** The row passes the range filter with the bounds [low] and [high]. *)
Definition kept_by_range (primary_param_name : string) (low high : Z)
    (row : Row Float) : bool :=
  match primary_int primary_param_name row with
  | Some v => (low <=? v)%Z && (v <=? high)%Z
  | None => false
  end.

(** The substrings of the pattern list are literal text: no character of
    them is an operator of the pattern language. *)
Definition literal_patterns (report_benchmarks : option string) : bool :=
  match report_benchmarks with
  | None => true
  | Some report_benchmarks =>
      forallb literal_text (PyStr.split "," report_benchmarks)
  end.

(** The rows the benchmark filter keeps, by its argument. *)
Definition benchmark_keep (report_benchmarks : option string)
  : Row Float -> bool :=
  match report_benchmarks with
  | None => fun _ => true
  | Some EmptyString => fun _ => true
  | Some report_benchmarks =>
      kept_by_benchmarks (PyStr.split "," report_benchmarks)
  end.

(** The rows the range filter keeps, by its arguments. *)
Definition range_keep (primary_param_name select_range : string)
  : Row Float -> bool :=
  match PyStr.split "<" select_range with
  | [from; to] =>
      match range_bounds from to with
      | Some (low, high) => kept_by_range primary_param_name low high
      | None => fun _ => true
      end
  | _ => fun _ => true
  end.

End MoreNotions.

(** ** The older program: [process_byte_array_benchmarks_results.py]

    It groups the scores of the files of one directory by the value of a
    parameter column and then by benchmark. *)

(** [s.endswith(suffix)]. *)
Fixpoint endswith (suffix s : string) : bool :=
  String.eqb s suffix
  || match s with
     | EmptyString => false
     | String _ s' => endswith suffix s'
     end.

(** [os.path.join(a, b)] of [posixpath]. *)
Definition os_path_join (a b : string) : string :=
  if String.prefix "/" b then b
  else if String.eqb a "" || endswith "/" a then (a ++ b)%string
  else (a ++ "/" ++ b)%string.

(** [results_dict]: parameter value, then benchmark, then the scores. *)
Definition ValueResults (Float : Type) : Type :=
  list (Cell Float * list (Cell Float * list (Cell Float))).

(** Outside the older program, besides [pandas.read_csv]: the directory
    listing, in the order the system gives it, and the function that
    draws. *)
Class OutsideValues (Float : Type) : Type := {
  listdir : string -> option (list string);
  plot_byte_array_from_native_performance_comparisons :
    ValueResults Float -> string -> option unit
}.

Section ValueModel.

Context {Float : Type} {float_ops : FloatOps Float} {outside : Outside Float}
  {outside_values : OutsideValues Float}.

(** The body of the loop over the rows of one parameter value. *)
Definition add_sample (sz : Cell Float) (results_dict : ValueResults Float)
    (row : Row Float) : Result (ValueResults Float) :=
  benchmark <- row_get "Benchmark" row ;;
  let for_sz := item cell_eqb sz results_dict in
  let for_sz :=
    if Dict.mem cell_eqb benchmark for_sz then for_sz
    else Dict.set cell_eqb benchmark [] for_sz in
  score <- row_get "Score" row ;;
  Ok (Dict.set cell_eqb sz
        (Dict.set cell_eqb benchmark
           (item cell_eqb benchmark for_sz ++ [score]) for_sz)
        results_dict).

(** The body of the loop over the parameter values of one file. *)
Definition add_size (df : DataFrame Float) (param_name : string)
    (results_dict : ValueResults Float) (sz : Cell Float)
  : Result (ValueResults Float) :=
  let results_dict :=
    if Dict.mem cell_eqb sz results_dict then results_dict
    else Dict.set cell_eqb sz [] results_dict in
  df_for_sz <- where_eq df param_name sz ;;
  foldM (add_sample sz) (rows df_for_sz) results_dict.

(** One file that ends in [.csv], after [print(fp)]. *)
Definition add_csv (fp param_name : string)
    (results_dict : ValueResults Float) : Result (ValueResults Float) :=
  df <- library (read_csv fp) ;;
  let df := iloc_step 9 df in
  df <- shorten_benchmarks df ;;
  sizes <- column df param_name ;;
  let unique_sizes := first_seen cell_eqb sizes in
  foldM (add_size df param_name) unique_sizes results_dict.

(** The loop over the directory listing.  The first component is what
    [print] has written, also when the loop ends in an exception. *)
Fixpoint for_files (path param_name : string) (files : list string)
    (results_dict : ValueResults Float)
  : list string * Result (ValueResults Float) :=
  match files with
  | [] => ([], Ok results_dict)
  | file :: files' =>
      if endswith ".csv" file
      then
        let fp := os_path_join path file in
        match add_csv fp param_name results_dict with
        | Ok results_dict =>
            let (printed, r) := for_files path param_name files' results_dict
            in (fp :: printed, r)
        | Raise e => ([fp], Raise e)
        end
      else for_files path param_name files' results_dict
  end.

Definition process_value_results (path param_name : string)
    (chart_title_template : string) : list string * Result unit :=
  match listdir path with
  | None => ([], Raise LibraryError)
  | Some files =>
      let (printed, r) := for_files path param_name files [] in
      (printed,
       results_dict <- r ;;
       library (plot_byte_array_from_native_performance_comparisons
                  results_dict chart_title_template))
  end.

(** The rows the older program reads from one entry of the listing:
    none for an entry that is no [.csv] file. *)
Definition rows_of_entry (path : string) (file : string) : list (Row Float) :=
  if endswith ".csv" file
  then match (df <- library (read_csv (os_path_join path file)) ;;
              shorten_benchmarks (iloc_step 9 df)) with
       | Ok df => rows df
       | Raise _ => []
       end
  else [].

(** The score of a row, when the row has the parameter value [sz] and the
    benchmark [b]. *)
Definition sample_of_row (param_name : string) (sz b : Cell Float)
    (row : Row Float) : list (Cell Float) :=
  match row_get param_name row, row_get "Benchmark" row, row_get "Score" row
  with
  | Ok v, Ok b', Ok score =>
      if cell_eqb v sz && cell_eqb b' b then [score] else []
  | _, _, _ => []
  end.

(** The row has the value [sz] in the parameter column. *)
Definition row_has_value (param_name : string) (sz : Cell Float)
    (row : Row Float) : bool :=
  match row_get param_name row with
  | Ok v => cell_eqb v sz
  | Raise _ => false
  end.

(** What rows do to the dictionary: their scores go to the end of the
    list of benchmark [b] under the value [sz]. *)
Definition with_samples (sz b : Cell Float) (scores : list (Cell Float))
    (results_dict : ValueResults Float) : ValueResults Float :=
  let for_sz := item cell_eqb sz results_dict in
  Dict.set cell_eqb sz
    (Dict.set cell_eqb b (item cell_eqb b for_sz ++ scores) for_sz)
    results_dict.

(** Number of scores in the dictionary. *)
Definition total_samples (results_dict : ValueResults Float) : nat :=
  list_sum
    (map (fun for_sz =>
            list_sum (map (fun samples => List.length (snd samples))
                        (snd for_sz)))
       results_dict).

End ValueModel.

(** ** More sample data *)

Module SampleValues.

Local Open Scope Z_scope.

(** Parts of [Sample.four_rows]. *)
Definition first_row : Row Sample.Tenths :=
  Sample.row "BenchGetDirect" 1205 32 64 true.

Definition array_row : Row Sample.Tenths :=
  Sample.row "BenchGetArray" 990 21 64 true.

Definition array_rows : DataFrame Sample.Tenths :=
  Sample.frame [array_row].

Definition small_rows : DataFrame Sample.Tenths :=
  Sample.frame [Sample.row "BenchGetDirect" 804 15 8 true].

Definition direct_rows : DataFrame Sample.Tenths :=
  Sample.frame [Sample.row "BenchGetDirect" 1205 32 64 true;
                Sample.row "BenchGetDirect" 804 15 8 true;
                Sample.row "BenchGetDirect" 3000 90 4096 false].

Definition large_rows : DataFrame Sample.Tenths :=
  Sample.frame [Sample.row "BenchGetDirect" 1205 32 64 true;
                Sample.row "BenchGetArray" 990 21 64 true;
                Sample.row "BenchGetDirect" 3000 90 4096 false].

Definition large_direct_rows : DataFrame Sample.Tenths :=
  Sample.frame [Sample.row "BenchGetDirect" 1205 32 64 true;
                Sample.row "BenchGetDirect" 3000 90 4096 false].

(** The grouping of [Sample.four_rows] by checksum. *)
Definition four_rows_grouping : ResultSets Sample.Tenths :=
  [([CBool true],
    [(CStr "BenchGetDirect",
      [Build_BMResult (CInt 64) (CFloat 1205) (CFloat 32);
       Build_BMResult (CInt 8) (CFloat 804) (CFloat 15)]);
     (CStr "BenchGetArray",
      [Build_BMResult (CInt 64) (CFloat 990) (CFloat 21)])]);
   ([CBool false],
    [(CStr "BenchGetDirect",
      [Build_BMResult (CInt 4096) (CFloat 3000) (CFloat 90)])])].

(** A directory with one result file and one other entry. *)
#[global] Instance run_directory : OutsideValues Sample.Tenths := {|
  listdir := fun path =>
    if String.eqb path "run" then Some ["notes.txt"; "results.csv"]
    else None;
  plot_byte_array_from_native_performance_comparisons := fun _ _ => Some tt
|}.

(** A file system whose only path is a directory without files. *)
Definition empty_directory : Outside Sample.Tenths := {|
  path_exists := String.eqb "empty";
  is_dir := String.eqb "empty";
  sorted_rglob_csv := fun _ => [];
  read_csv := fun _ => None;
  pd_merge := fun _ _ => None;
  plot_all_results := fun _ _ _ _ => Some tt
|}.

(** Two rows with the same labels and values. *)
Fixpoint same_row (r1 r2 : Row Sample.Tenths) : bool :=
  match r1, r2 with
  | [], [] => true
  | (l1, c1) :: r1', (l2, c2) :: r2' =>
      String.eqb l1 l2 && cell_eqb c1 c2 && same_row r1' r2'
  | _, _ => false
  end.

(** A file of eighteen report lines: nine of one benchmark and nine of
    another. *)
Definition two_benchmarks_file : DataFrame Sample.Tenths :=
  Sample.frame
    (repeat Sample.direct64 9%nat
       ++ repeat (Sample.row "com.example.BenchGetArray" 990 21 64 true)
            9%nat).

(** A directory with two files.  Of two tables with the same columns the
    merge keeps the rows of the left one that the right one has too. *)
Definition two_files : Outside Sample.Tenths := {|
  path_exists := String.eqb "runs";
  is_dir := String.eqb "runs";
  sorted_rglob_csv := fun _ => ["runs/a.csv"; "runs/b.csv"];
  read_csv := fun file =>
    if String.eqb file "runs/a.csv" then Some two_benchmarks_file
    else if String.eqb file "runs/b.csv" then Some Sample.scenario_file
    else None;
  pd_merge := fun left right =>
    Some {| columns := columns left;
            rows := filter (fun r => existsb (same_row r) (rows right))
                      (rows left) |};
  plot_all_results := fun _ _ _ _ => Some tt
|}.

(** A table without scores. *)
Definition no_score : DataFrame Sample.Tenths :=
  {| columns := ["Benchmark"; "Param: valueSize"];
     rows := [[("Benchmark", CStr "BenchGetDirect");
               ("Param: valueSize", CInt 64)]] |}.

End SampleValues.

(** * Properties *)

(** ** Dictionaries *)

Section DictFacts.

Context {K V : Type} (eqb : K -> K -> bool).
Hypothesis eqb_eq : forall a b, eqb a b = true <-> a = b.

Lemma eqb_refl_of (a : K) : eqb a a = true.
Proof. now apply eqb_eq. Qed.

Lemma eqb_neq_of (a b : K) : a <> b -> eqb a b = false.
Proof.
  intros Hab. destruct (eqb a b) eqn:E; [|reflexivity].
  apply eqb_eq in E. contradiction.
Qed.

Lemma get_set (k k' : K) (v : V) (d : list (K * V)) :
  Dict.get eqb k (Dict.set eqb k' v d)
  = if eqb k k' then Some v else Dict.get eqb k d.
Proof.
  induction d as [|[k0 v0] d IH]; simpl.
  - reflexivity.
  - destruct (eqb k' k0) eqn:E0; simpl.
    + apply eqb_eq in E0. subst k0.
      destruct (eqb k k'); reflexivity.
    + destruct (eqb k k0) eqn:E1.
      * apply eqb_eq in E1. subst k0.
        destruct (eqb k k') eqn:E2; [|reflexivity].
        apply eqb_eq in E2. subst k'. rewrite eqb_refl_of in E0. discriminate.
      * exact IH.
Qed.

Lemma get_del (k k' : K) (d : list (K * V)) :
  Dict.get eqb k (Dict.del eqb k' d)
  = if eqb k k' then None else Dict.get eqb k d.
Proof.
  induction d as [|[k0 v0] d IH]; simpl.
  - destruct (eqb k k'); reflexivity.
  - destruct (eqb k' k0) eqn:E0; simpl.
    + apply eqb_eq in E0. subst k0. rewrite IH.
      destruct (eqb k k'); reflexivity.
    + destruct (eqb k k0) eqn:E1; [|exact IH].
      apply eqb_eq in E1. subst k0.
      destruct (eqb k k') eqn:E2; [|reflexivity].
      apply eqb_eq in E2. subst k'. rewrite eqb_refl_of in E0. discriminate.
Qed.

Lemma get_some_in (k : K) (v : V) (d : list (K * V)) :
  Dict.get eqb k d = Some v -> In (k, v) d.
Proof.
  induction d as [|[k0 v0] d IH]; simpl; [discriminate|].
  destruct (eqb k k0) eqn:E.
  - apply eqb_eq in E. subst k0. intros [= ->]. now left.
  - intros H. right. now apply IH.
Qed.

Lemma get_none_keys (k : K) (d : list (K * V)) :
  Dict.get eqb k d = None <-> ~ In k (Dict.keys d).
Proof.
  induction d as [|[k0 v0] d IH]; simpl.
  - tauto.
  - destruct (eqb k k0) eqn:E.
    + apply eqb_eq in E. subst k0. split; [discriminate|].
      intros H. exfalso. apply H. now left.
    + rewrite IH. split.
      * intros H [H0|H0]; [|tauto]. subst k0.
        rewrite eqb_refl_of in E. discriminate.
      * tauto.
Qed.

Lemma mem_keys (k : K) (d : list (K * V)) :
  Dict.mem eqb k d = true <-> In k (Dict.keys d).
Proof.
  unfold Dict.mem. destruct (Dict.get eqb k d) eqn:E.
  - split; [intros _|reflexivity].
    apply get_some_in in E. unfold Dict.keys.
    change k with (fst (k, v)). now apply in_map.
  - apply get_none_keys in E. split; [discriminate|contradiction].
Qed.

Lemma keys_set (k : K) (v : V) (d : list (K * V)) :
  Dict.keys (Dict.set eqb k v d)
  = if Dict.mem eqb k d then Dict.keys d else Dict.keys d ++ [k].
Proof.
  unfold Dict.mem.
  induction d as [|[k0 v0] d IH]; simpl; [reflexivity|].
  destruct (eqb k k0) eqn:E; simpl; [reflexivity|].
  rewrite IH. destruct (Dict.get eqb k d); reflexivity.
Qed.

Lemma keys_set_NoDup (k : K) (v : V) (d : list (K * V)) :
  NoDup (Dict.keys d) -> NoDup (Dict.keys (Dict.set eqb k v d)).
Proof.
  intros Hd. rewrite keys_set.
  destruct (Dict.mem eqb k d) eqn:E; [exact Hd|].
  assert (Hk : ~ In k (Dict.keys d)).
  { intros Hin. apply mem_keys in Hin. congruence. }
  clear E. induction (Dict.keys d) as [|a l IH]; simpl.
  - constructor; [intros []|constructor].
  - inversion Hd; subst. constructor.
    + rewrite in_app_iff. simpl. intros [H|[H|[]]]; [tauto|].
      subst a. apply Hk. now left.
    + apply IH; [assumption|]. intros H. apply Hk. now right.
Qed.

Lemma set_set (k : K) (v v' : V) (d : list (K * V)) :
  Dict.set eqb k v (Dict.set eqb k v' d) = Dict.set eqb k v d.
Proof.
  induction d as [|[k0 v0] d IH]; simpl.
  - now rewrite eqb_refl_of.
  - destruct (eqb k k0) eqn:E; simpl; rewrite E; [reflexivity|].
    now rewrite IH.
Qed.

Lemma set_get_same (k : K) (v : V) (d : list (K * V)) :
  Dict.get eqb k d = Some v -> Dict.set eqb k v d = d.
Proof.
  induction d as [|[k0 v0] d IH]; simpl; [discriminate|].
  destruct (eqb k k0) eqn:E.
  - now intros [= ->].
  - intros H. now rewrite IH.
Qed.

Lemma set_mem_none (k : K) (v v' : V) (d : list (K * V)) :
  Dict.set eqb k v (if Dict.mem eqb k d then d else Dict.set eqb k v' d)
  = Dict.set eqb k v d.
Proof.
  destruct (Dict.mem eqb k d); [reflexivity|apply set_set].
Qed.

End DictFacts.

(** Dictionaries of lists: [item] and the sizes of the lists. *)

Section ItemFacts.

Context {K X : Type} (eqb : K -> K -> bool).
Hypothesis eqb_eq : forall a b, eqb a b = true <-> a = b.

Lemma item_set (k k' : K) (v : list X) (d : list (K * list X)) :
  item eqb k (Dict.set eqb k' v d) = if eqb k k' then v else item eqb k d.
Proof.
  unfold item. rewrite (get_set eqb eqb_eq).
  destruct (eqb k k'); reflexivity.
Qed.

Lemma item_mem_none (k k' : K) (d : list (K * list X)) :
  item eqb k (if Dict.mem eqb k' d then d else Dict.set eqb k' [] d)
  = item eqb k d.
Proof.
  destruct (Dict.mem eqb k' d) eqn:E; [reflexivity|].
  rewrite item_set. destruct (eqb k k') eqn:Ek; [|reflexivity].
  apply eqb_eq in Ek. subst k'. unfold item, Dict.mem in *.
  now destruct (Dict.get eqb k d).
Qed.

Lemma get_mem_none (k : K) (d : list (K * list X)) :
  Dict.get eqb k (if Dict.mem eqb k d then d else Dict.set eqb k [] d)
  = Some (item eqb k d).
Proof.
  unfold item, Dict.mem. destruct (Dict.get eqb k d) eqn:E.
  - exact E.
  - rewrite (get_set eqb eqb_eq). now rewrite (eqb_refl_of eqb eqb_eq).
Qed.

(** Replacing the list under a key changes the sum of a measure of the
    lists by the difference of the two lists' measures. *)
Lemma sum_set {Y} (mu : Y -> nat) (old : Y) (k : K) (v : Y)
    (d : list (K * Y)) :
  mu old = 0 ->
  list_sum (map (fun e => mu (snd e)) (Dict.set eqb k v d))
  + mu (match Dict.get eqb k d with Some v0 => v0 | None => old end)
  = list_sum (map (fun e => mu (snd e)) d) + mu v.
Proof.
  intros Hold. induction d as [|[k0 v0] d IH]; simpl.
  - lia.
  - destruct (eqb k k0); simpl; lia.
Qed.

End ItemFacts.

(** ** Lists and strings *)

Lemma snoc_split {A} (before after l : list A) (x c : A) :
  before ++ x :: after = l ++ [c] ->
  (after = [] /\ before = l /\ x = c)
  \/ (exists after', after = after' ++ [c] /\ l = before ++ x :: after').
Proof.
  intros H. destruct (exists_last (l := x :: after)) as [m [z Hz]];
    [discriminate|].
  rewrite Hz in H. rewrite app_assoc in H.
  apply app_inj_tail in H. destruct H as [H1 H2]. subst z.
  destruct m as [|y m]; simpl in Hz.
  - injection Hz as -> ->. left. rewrite app_nil_r in H1. auto.
  - injection Hz as -> ->. right. exists m. auto.
Qed.

Lemma split_length (sep : ascii) (s : string) :
  List.length (PyStr.split sep s) = S (PyStr.count sep s).
Proof.
  induction s as [|c s IH]; simpl; [reflexivity|].
  destruct (Ascii.eqb c sep); simpl.
  - now rewrite IH.
  - destruct (PyStr.split sep s); simpl in *; [discriminate|exact IH].
Qed.

Lemma split_two_iff (sep : ascii) (s : string) :
  PyStr.count sep s = 1 <-> exists a b, PyStr.split sep s = [a; b].
Proof.
  pose proof (split_length sep s) as H. split.
  - intros Hc. rewrite Hc in H.
    destruct (PyStr.split sep s) as [|a [|b [|c l]]]; try discriminate.
    now exists a, b.
  - intros [a [b Hab]]. rewrite Hab in H. simpl in H. lia.
Qed.

Lemma stride_nth {A} (step : nat) (l : list A) :
  1 <= step ->
  forall countdown i,
    nth_error (stride step countdown l) i
    = nth_error l (countdown + i * step).
Proof.
  intros Hstep. induction l as [|a l IH]; intros countdown i; simpl.
  - now destruct i, (countdown + _).
  - destruct countdown as [|c]; simpl.
    + destruct i as [|i]; simpl; [reflexivity|].
      rewrite IH. replace (step + i * step) with (S (step - 1 + i * step))
        by lia. reflexivity.
    + apply IH.
Qed.

Lemma stride_length {A} (step : nat) (l : list A) :
  1 <= step ->
  forall countdown,
    List.length (stride step countdown l)
    = (List.length l + step - 1 - countdown) / step.
Proof.
  intros Hstep. induction l as [|a l IH]; intros countdown.
  - simpl. symmetry. apply Nat.div_small. lia.
  - destruct countdown as [|c]; cbn [stride List.length].
    + rewrite IH.
      replace (List.length l + step - 1 - (step - 1)) with (List.length l)
        by lia.
      replace (S (List.length l) + step - 1 - 0)
        with (List.length l + 1 * step) by lia.
      rewrite Nat.div_add by lia. lia.
    + rewrite IH. f_equal. lia.
Qed.

Lemma mapM_length {A B} (f : A -> Result B) (l : list A) (bs : list B) :
  mapM f l = Ok bs -> List.length bs = List.length l.
Proof.
  revert bs. induction l as [|a l IH]; intros bs; simpl.
  - now intros [= <-].
  - destruct (f a) as [b|]; [|discriminate]. simpl.
    destruct (mapM f l) as [bs'|]; [|discriminate]. simpl.
    intros [= <-]. simpl. now rewrite (IH bs').
Qed.

(** ** The program *)

Lemma mapM_ok_inv {A B} (f : A -> Result B) (l : list A) (bs : list B) :
  mapM f l = Ok bs -> Forall2 (fun a b => f a = Ok b) l bs.
Proof.
  revert bs. induction l as [|a l IH]; intros bs; simpl.
  - intros [= <-]. constructor.
  - destruct (f a) as [b|] eqn:E; [|discriminate]. simpl.
    destruct (mapM f l) as [bs'|]; [|discriminate]. simpl.
    intros [= <-]. constructor; auto.
Qed.

Lemma Forall2_nth_error {A B} (R : A -> B -> Prop) (l : list A)
    (l' : list B) :
  Forall2 R l l' ->
  forall i y, nth_error l' i = Some y ->
              exists x, nth_error l i = Some x /\ R x y.
Proof.
  induction 1 as [|x y l l' Hxy _ IH]; intros i z Hi.
  - now destruct i.
  - destruct i as [|i]; simpl in *.
    + injection Hi as <-. now exists x.
    + now apply IH.
Qed.

Section Facts.

Context {Float : Type} {float_ops : FloatOps Float} {outside : Outside Float}.

Lemma cell_eqb_eq (a b : Cell Float) : cell_eqb a b = true <-> a = b.
Proof.
  unfold cell_eqb. destruct (Cell_eq_dec a b); split; congruence.
Qed.

Lemma key_eqb_eq (a b : list (Cell Float)) : key_eqb a b = true <-> a = b.
Proof.
  unfold key_eqb. destruct (list_eq_dec Cell_eq_dec a b); split; congruence.
Qed.

(** *** Plain keys *)

Lemma plain_cells_spec (cells : list (Cell Float)) :
  plain_cells cells = true
  <-> forall a b, In a cells -> In b cells -> py_eq a b = cell_eqb a b.
Proof.
  unfold plain_cells. rewrite forallb_forall. split.
  - intros H a b Ha Hb. specialize (H a Ha). rewrite forallb_forall in H.
    specialize (H b Hb). now apply Bool.eqb_prop in H.
  - intros H a Ha. apply forallb_forall. intros b Hb.
    rewrite (H a b Ha Hb). apply Bool.eqb_reflx.
Qed.

Lemma column_cells_In (label : string) (l : list (Row Float))
    (c : Cell Float) :
  In c (column_cells label l)
  <-> exists row, In row l /\ row_get label row = Ok c.
Proof.
  unfold column_cells, row_get. rewrite in_flat_map.
  split; intros [row [Hin H]]; exists row; (split; [exact Hin|]);
    destruct (Dict.get String.eqb label row) as [c'|];
    try contradiction; try discriminate.
  - destruct H as [->|[]]. reflexivity.
  - injection H as ->. now left.
Qed.

Lemma column_cells_app (label : string) (l1 l2 : list (Row Float)) :
  column_cells label (l1 ++ l2)
  = column_cells label l1 ++ column_cells label l2.
Proof.
  unfold column_cells. apply flat_map_app.
Qed.

Lemma plain_cells_app (l1 l2 : list (Cell Float)) :
  plain_cells (l1 ++ l2) = true ->
  plain_cells l1 = true /\ plain_cells l2 = true.
Proof.
  rewrite !plain_cells_spec. intros H.
  split; intros a b Ha Hb; apply H; apply in_or_app; auto.
Qed.










(** *** Decimation *)

Lemma shorten_benchmarks_len (df d : DataFrame Float) :
  shorten_benchmarks df = Ok d -> len d = len df.
Proof.
  unfold shorten_benchmarks, len.
  destruct (existsb _ _); [|discriminate].
  destruct (mapM shorten_benchmark (rows df)) as [rs|] eqn:E;
    [|discriminate].
  simpl. intros [= <-]. simpl. exact (mapM_length _ _ _ E).
Qed.

(** A file after decimation and the shortening of the names: row [i] is
    row [9 * i] of the file with its name shortened. *)
Lemma shorten_decimated (df d : DataFrame Float) :
  shorten_benchmarks (iloc_step 9 df) = Ok d ->
  columns d = columns df
  /\ len d = (len df + 8) / 9
  /\ forall i row,
       nth_error (rows d) i = Some row ->
       exists src,
         nth_error (rows df) (9 * i) = Some src
         /\ shorten_benchmark src = Ok row.
Proof.
  intros H.
  assert (Hlen : len d = (len df + 8) / 9).
  { apply shorten_benchmarks_len in H. rewrite H.
    unfold len, iloc_step. cbn [rows].
    rewrite stride_length by lia. f_equal. lia. }
  unfold shorten_benchmarks in H.
  destruct (existsb _ _); [|discriminate].
  destruct (mapM shorten_benchmark (rows (iloc_step 9 df))) as [rs|] eqn:E;
    [|discriminate].
  simpl in H. injection H as <-. cbn [columns rows] in *.
  split; [reflexivity|]. split; [exact Hlen|].
  intros i row Hi. apply mapM_ok_inv in E.
  destruct (Forall2_nth_error _ _ _ E i row Hi) as [src [Hsrc Hshort]].
  exists src. split; [|exact Hshort].
  rewrite <- Hsrc. unfold iloc_step. cbn [rows].
  rewrite stride_nth by lia. f_equal. lia.
Qed.

(** The loop of the loader after its first file: every further file is
    read, decimated and shortened, and merged into the table so far. *)
Lemma foldM_load_file_merged (files : list string) :
  forall (normalized : DataFrame Float) result,
    foldM load_file files (Some normalized) = Ok result ->
    exists dfs ds merged,
      result = Some merged
      /\ Forall2 (fun file df => read_csv file = Some df) files dfs
      /\ Forall2 (fun df d => shorten_benchmarks (iloc_step 9 df) = Ok d)
           dfs ds
      /\ foldM (fun normalized d => library (pd_merge normalized d)) ds
           normalized = Ok merged.
Proof.
  induction files as [|file files IH]; intros normalized result H;
    simpl in H.
  - injection H as <-. exists [], [], normalized.
    repeat split; constructor.
  - unfold load_file at 1 in H.
    destruct (read_csv file) as [df|] eqn:Eread; [|discriminate].
    simpl in H.
    destruct (shorten_benchmarks (iloc_step 9 df)) as [d|] eqn:Ed;
      [|discriminate].
    simpl in H.
    destruct (pd_merge normalized d) as [m|] eqn:Em; [|discriminate].
    simpl in H.
    destruct (IH m result H) as [dfs [ds [merged [Hr [Hread [Hshort Hm]]]]]].
    exists (df :: dfs), (d :: ds), merged.
    split; [exact Hr|]. split; [now constructor|]. split; [now constructor|].
    simpl. rewrite Em. exact Hm.
Qed.

(** C7.  Decimation keeps exactly the rows at the original positions
    0, 9, 18, ...: row [i] of the result is row [9 * i] of the file, and
    [n] rows leave [(n + 8) / 9]; so 18 rows leave 2 (positions 0 and 9),
    9 rows leave 1 and 8 rows leave 1 (position 0).  The loader does this
    to each file it reads: when it returns, every file of the run, the
    first and the later ones, has been read, decimated and had its
    benchmark names shortened, which keeps the rows and their number, and
    the result is the merge, from left to right, of the tables so
    obtained. *)
Theorem decimation_keeps_every_ninth (df : DataFrame Float) :
  (forall i, nth_error (rows (iloc_step 9 df)) i = nth_error (rows df) (9 * i))
  /\ len (iloc_step 9 df) = (len df + 8) / 9
  /\ (len df = 18 -> len (iloc_step 9 df) = 2)
  /\ (len df = 9 -> len (iloc_step 9 df) = 1)
  /\ (len df = 8 -> len (iloc_step 9 df) = 1)
  /\ (forall path result,
        normalize_data_frame_from_path path = Ok result ->
        exists dfs d ds,
          Forall2 (fun file df => read_csv file = Some df)
            (if is_dir path then sorted_rglob_csv path else [path]) dfs
          /\ Forall2
               (fun df d =>
                  shorten_benchmarks (iloc_step 9 df) = Ok d
                  /\ len d = (len df + 8) / 9
                  /\ forall i row,
                       nth_error (rows d) i = Some row ->
                       exists src,
                         nth_error (rows df) (9 * i) = Some src
                         /\ shorten_benchmark src = Ok row)
               dfs (d :: ds)
          /\ foldM (fun normalized d => library (pd_merge normalized d)) ds d
             = Ok result).
Proof.
  assert (Hlen : len (iloc_step 9 df) = (len df + 8) / 9).
  { unfold len, iloc_step. simpl rows.
    rewrite stride_length by lia. f_equal. lia. }
  split; [|split; [exact Hlen|]].
  - intros i. unfold iloc_step. simpl rows.
    rewrite stride_nth by lia. f_equal. lia.
  - rewrite Hlen. repeat split; try (intros ->; reflexivity).
    intros path result. unfold normalize_data_frame_from_path.
    destruct (if is_dir path then sorted_rglob_csv path else [path])
      as [|file files]; [discriminate|].
    cbn [foldM].
    destruct (load_file None file) as [n|] eqn:E0; [|discriminate].
    unfold load_file in E0.
    destruct (read_csv file) as [df0|] eqn:Eread; [|discriminate].
    cbn [library bind] in E0.
    destruct (shorten_benchmarks (iloc_step 9 df0)) as [d0|] eqn:Ed;
      [|discriminate].
    cbn [bind] in E0. injection E0 as <-. cbn [bind].
    destruct (foldM load_file files (Some d0)) as [r|] eqn:E;
      [|discriminate].
    destruct (foldM_load_file_merged files d0 r E)
      as [dfs [ds [merged [-> [Hread [Hshort Hm]]]]]].
    cbn [bind]. intros [= <-]. exists (df0 :: dfs), d0, ds.
    split; [now constructor|]. split; [|exact Hm].
    constructor.
    + split; [exact Ed|]. apply shorten_decimated in Ed. tauto.
    + eapply Forall2_impl; [|exact Hshort].
      intros a b Hab. split; [exact Hab|].
      apply shorten_decimated in Hab. tauto.
Qed.

(** *** The parameter splitter *)

(** C4.  [split_params] fails, with the message for a missing primary
    parameter, exactly when the name is not a key of the map.  Otherwise
    the primary part is the one entry of that name, the secondary part is
    the caller's own map after the call, that map no longer has the name,
    the two parts have no key in common, and together they map every key
    as the map did before the call. *)
Theorem split_params_spec (params : Params) (name : string) :
  (split_params params name
   = Raise (BenchmarkError (MissingPrimaryParameter name params))
   <-> ~ In name (Dict.keys params))
  /\ (is_benchmark_error (split_params params name) = true
      <-> ~ In name (Dict.keys params))
  /\ (In name (Dict.keys params) ->
      exists label after,
        Dict.get String.eqb name params = Some label
        /\ split_params params name
           = Ok ({| primary := [(name, label)]; secondary := after |}, after)
        /\ ~ In name (Dict.keys after)
        /\ (forall k, In k (Dict.keys [(name, label)]) ->
                      ~ In k (Dict.keys after))
        /\ (forall k, Dict.get String.eqb k ([(name, label)] ++ after)
                      = Dict.get String.eqb k params)).
Proof.
  unfold split_params.
  destruct (Dict.get String.eqb name params) as [label|] eqn:E.
  - assert (Hin : In name (Dict.keys params)).
    { apply (mem_keys String.eqb String.eqb_eq).
      unfold Dict.mem. now rewrite E. }
    assert (Hout : ~ In name (Dict.keys (Dict.del String.eqb name params))).
    { apply (get_none_keys String.eqb String.eqb_eq).
      rewrite (get_del String.eqb String.eqb_eq).
      now rewrite String.eqb_refl. }
    repeat split; try discriminate; try tauto.
    intros _. exists label, (Dict.del String.eqb name params).
    repeat split.
    + exact Hout.
    + simpl. intros k [<-|[]]. exact Hout.
    + intros k. simpl. rewrite (get_del String.eqb String.eqb_eq).
      destruct (String.eqb k name) eqn:Ek; [|reflexivity].
      apply String.eqb_eq in Ek. now subst k.
  - apply (get_none_keys String.eqb String.eqb_eq) in E.
    repeat split; auto; try contradiction.
Qed.

(** *** The parameter extractor *)

Lemma param_name_some (column name : string) :
  param_name column = Some name
  <-> exists field1,
        PyStr.split ":" column = ["Param"; field1]
        /\ PyStr.strip field1 = name.
Proof.
  unfold param_name.
  destruct (PyStr.split ":" column) as [|f0 [|f1 [|f2 l]]];
    try (split; [discriminate|intros [x [H _]]; discriminate]).
  destruct (String.eqb f0 "Param") eqn:E.
  - apply String.eqb_eq in E. subst f0. split.
    + intros [= <-]. now exists f1.
    + intros [x [[= <-] <-]]. reflexivity.
  - split; [discriminate|]. intros [x [[= -> _] _]].
    rewrite String.eqb_refl in E. discriminate.
Qed.

Lemma extract_param_eq (params : Params) (column : string) :
  extract_param params column
  = match param_name column with
    | Some name => Dict.set String.eqb name column params
    | None => params
    end.
Proof.
  unfold extract_param, param_name.
  destruct (PyStr.split ":" column) as [|f0 [|f1 [|f2 l]]]; try reflexivity.
  destruct (String.eqb f0 "Param"); reflexivity.
Qed.

Lemma extract_param_keys_NoDup (cols : list string) (params : Params) :
  NoDup (Dict.keys params) ->
  NoDup (Dict.keys (fold_left extract_param cols params)).
Proof.
  revert params. induction cols as [|c cols IH]; intros params Hd; simpl.
  - exact Hd.
  - apply IH. rewrite extract_param_eq.
    destruct (param_name c); [|exact Hd].
    now apply (keys_set_NoDup String.eqb String.eqb_eq).
Qed.

Lemma extract_params_lookup (cols : list string) (name label : string) :
  Dict.get String.eqb name (fold_left extract_param cols []) = Some label
  <-> exists before after,
        cols = before ++ label :: after
        /\ param_name label = Some name
        /\ forall c, In c after -> param_name c <> Some name.
Proof.
  induction cols as [|c cols IH] using rev_ind.
  - simpl. split; [discriminate|].
    intros [before [after [H _]]]. now destruct before.
  - rewrite fold_left_app. simpl. rewrite extract_param_eq.
    assert (Hdec : param_name c = Some name \/ param_name c <> Some name).
    { destruct (param_name c) as [n|]; [|right; discriminate].
      destruct (string_dec n name) as [->|Hn]; [now left|].
      right. intros [= ->]. contradiction. }
    destruct Hdec as [Hc|Hc].
    + (* the last column is a parameter of that name *)
      rewrite Hc, (get_set String.eqb String.eqb_eq), String.eqb_refl.
      split.
      * intros [= <-]. exists cols, []. repeat split; auto.
      * intros [before [after [Heq [_ Hafter]]]].
        symmetry in Heq. apply snoc_split in Heq. destruct Heq as [[_ [_ ->]]|[a' [-> _]]].
        -- reflexivity.
        -- exfalso. apply (Hafter c); [|exact Hc].
           apply in_or_app. right. now left.
    + (* it is not: the lookup is the one before it *)
      assert (Hget :
        Dict.get String.eqb name
          (extract_param (fold_left extract_param cols []) c)
        = Dict.get String.eqb name (fold_left extract_param cols [])).
      { rewrite extract_param_eq.
        destruct (param_name c) as [n|]; [|reflexivity].
        rewrite (get_set String.eqb String.eqb_eq).
        destruct (String.eqb name n) eqn:E; [|reflexivity].
        apply String.eqb_eq in E. subst n. contradiction. }
      rewrite <- extract_param_eq.
      rewrite Hget, IH. split.
      * intros [before [after [-> [Hl Hafter]]]].
        exists before, (after ++ [c]). repeat split.
        -- now rewrite <- app_assoc.
        -- exact Hl.
        -- intros c' Hin. apply in_app_or in Hin.
           destruct Hin as [Hin|[<-|[]]]; auto.
      * intros [before [after [Heq [Hl Hafter]]]].
        symmetry in Heq. apply snoc_split in Heq. destruct Heq as [[_ [_ ->]]|[a' [-> ->]]].
        -- contradiction.
        -- exists before, a'. repeat split; auto.
           intros c' Hin. apply Hafter. apply in_or_app. now left.
Qed.

(** C5, as the program has it.  The entries of the extracted map come
    from exactly the column labels that split on the colon into two parts
    with the first part equal to [Param] as it stands, untrimmed; the
    second part may be empty.  A label is entered under its trimmed second
    part with the label itself as value, and of two labels with one name
    the later one stays.  The keys are distinct, and a table without such
    a label gives the empty map. *)
Theorem extract_params_spec (df : DataFrame Float) :
  (forall name label,
     Dict.get String.eqb name (extract_params df) = Some label
     <-> exists before after field1,
           columns df = before ++ label :: after
           /\ PyStr.split ":" label = ["Param"; field1]
           /\ PyStr.strip field1 = name
           /\ forall c f, In c after ->
                PyStr.split ":" c = ["Param"; f] -> PyStr.strip f <> name)
  /\ NoDup (Dict.keys (extract_params df))
  /\ ((forall c f, In c (columns df) -> PyStr.split ":" c <> ["Param"; f])
      -> extract_params df = []).
Proof.
  unfold extract_params. repeat split.
  - intros H. apply extract_params_lookup in H.
    destruct H as [before [after [Hc [Hl Hafter]]]].
    apply param_name_some in Hl. destruct Hl as [field1 [Hs Hn]].
    exists before, after, field1. repeat split; auto.
    intros c f Hin Hsplit Hstrip. apply (Hafter c Hin).
    apply param_name_some. now exists f.
  - intros [before [after [field1 [Hc [Hs [Hn Hafter]]]]]].
    apply extract_params_lookup. exists before, after. repeat split; auto.
    + apply param_name_some. now exists field1.
    + intros c Hin Hp. apply param_name_some in Hp.
      destruct Hp as [f [Hf1 Hf2]]. exact (Hafter c f Hin Hf1 Hf2).
  - apply extract_param_keys_NoDup. constructor.
  - intros Hnone.
    destruct (fold_left extract_param (columns df) []) as [|[k v] d] eqn:E;
      [reflexivity|].
    assert (Hget : Dict.get String.eqb k
                     (fold_left extract_param (columns df) []) = Some v).
    { rewrite E. simpl. now rewrite String.eqb_refl. }
    apply extract_params_lookup in Hget.
    destruct Hget as [before [after [Hc [Hl _]]]].
    apply param_name_some in Hl. destruct Hl as [f [Hf _]].
    exfalso. apply (Hnone v f); [|exact Hf].
    rewrite Hc. apply in_or_app. right. now left.
Qed.

(** *** The grouping engine *)

Lemma append_points_eq (params : BMParams) (row : Row Float)
    (b : Cell Float) (g : ResultSet Float) :
  append_points params row b g
  = (points <- mapM (fun entry => result_of_row (snd entry) row)
                 (primary params) ;;
     Ok (fold_left
           (fun g e => Dict.set cell_eqb b (item cell_eqb b g ++ [e]) g)
           points g)).
Proof.
  unfold append_points. revert g.
  induction (primary params) as [|entry l IH]; intros g; simpl.
  - reflexivity.
  - destruct (result_of_row (snd entry) row) as [e|x]; simpl; [|reflexivity].
    rewrite IH.
    destruct (mapM (fun entry0 => result_of_row (snd entry0) row) l);
      reflexivity.
Qed.

Lemma fold_points (b : Cell Float) (points v : list (BMResult Float))
    (g : ResultSet Float) :
  Dict.get cell_eqb b g = Some v ->
  fold_left (fun g e => Dict.set cell_eqb b (item cell_eqb b g ++ [e]) g)
    points g
  = Dict.set cell_eqb b (v ++ points) g.
Proof.
  revert v g. induction points as [|e points IH]; intros v g Hget; simpl.
  - rewrite app_nil_r. symmetry.
    now apply (set_get_same cell_eqb).
  - rewrite (IH (v ++ [e])).
    + rewrite (set_set cell_eqb cell_eqb_eq), <- app_assoc. reflexivity.
    + rewrite (get_set cell_eqb cell_eqb_eq).
      rewrite (eqb_refl_of cell_eqb cell_eqb_eq).
      unfold item. now rewrite Hget.
Qed.

Lemma add_row_closed (params : BMParams) (rs : ResultSets Float)
    (row : Row Float) k b points :
  tuple_of_secondary_values params row = Ok k ->
  row_get "Benchmark" row = Ok b ->
  mapM (fun entry => result_of_row (snd entry) row) (primary params)
  = Ok points ->
  add_row params rs row = Ok (with_points k b points rs).
Proof.
  intros Hk Hb Hp. unfold add_row, with_points.
  rewrite Hk. simpl. rewrite Hb. simpl.
  rewrite append_points_eq, Hp. simpl.
  pose proof (item_mem_none (X := Cell Float * list (BMResult Float))
                key_eqb key_eqb_eq k k rs) as Hitem.
  unfold ResultSets, ResultSet in *. rewrite Hitem.
  rewrite (fold_points b points (item cell_eqb b (item key_eqb k rs)))
    by apply (get_mem_none cell_eqb cell_eqb_eq).
  f_equal.
  etransitivity; [apply (set_mem_none key_eqb key_eqb_eq)|].
  f_equal. apply (set_mem_none cell_eqb cell_eqb_eq).
Qed.

Lemma add_row_inv (params : BMParams) (rs rs' : ResultSets Float)
    (row : Row Float) :
  add_row params rs row = Ok rs' ->
  exists k b points,
    tuple_of_secondary_values params row = Ok k
    /\ row_get "Benchmark" row = Ok b
    /\ mapM (fun entry => result_of_row (snd entry) row) (primary params)
       = Ok points
    /\ rs' = with_points k b points rs.
Proof.
  intros H.
  destruct (tuple_of_secondary_values params row) as [k|] eqn:Hk;
    [|unfold add_row in H; rewrite Hk in H; discriminate].
  destruct (row_get "Benchmark" row) as [b|] eqn:Hb;
    [|unfold add_row in H; rewrite Hk in H; simpl in H; rewrite Hb in H;
      discriminate].
  destruct (mapM (fun entry => result_of_row (snd entry) row)
              (primary params)) as [points|] eqn:Hp.
  - rewrite (add_row_closed params rs row k b points Hk Hb Hp) in H.
    injection H as <-. now exists k, b, points.
  - unfold add_row in H. rewrite Hk in H. simpl in H. rewrite Hb in H.
    simpl in H. rewrite append_points_eq, Hp in H. discriminate.
Qed.

Lemma bucket_with_points k b points (rs : ResultSets Float) k' b' :
  bucket k' b' (with_points k b points rs)
  = bucket k' b' rs
      ++ (if key_eqb k k' && cell_eqb b b' then points else []).
Proof.
  unfold bucket, with_points. cbv zeta.
  rewrite (item_set key_eqb key_eqb_eq).
  destruct (key_eqb k' k) eqn:Ek.
  - apply key_eqb_eq in Ek. subst k'.
    rewrite (eqb_refl_of key_eqb key_eqb_eq). simpl.
    rewrite (item_set cell_eqb cell_eqb_eq).
    destruct (cell_eqb b' b) eqn:Eb.
    + apply cell_eqb_eq in Eb. subst b'.
      now rewrite (eqb_refl_of cell_eqb cell_eqb_eq).
    + destruct (cell_eqb b b') eqn:Eb'; [|now rewrite app_nil_r].
      apply cell_eqb_eq in Eb'. subst b'.
      rewrite (eqb_refl_of cell_eqb cell_eqb_eq) in Eb. discriminate.
  - destruct (key_eqb k k') eqn:Ek'; [|now rewrite app_nil_r].
    apply key_eqb_eq in Ek'. subst k'.
    rewrite (eqb_refl_of key_eqb key_eqb_eq) in Ek. discriminate.
Qed.

Lemma row_in_bucket_view (params : BMParams) (row : Row Float) k b k' b' :
  tuple_of_secondary_values params row = Ok k ->
  row_get "Benchmark" row = Ok b ->
  row_in_bucket params k' b' row = key_eqb k k' && cell_eqb b b'.
Proof.
  intros Hk Hb. unfold row_in_bucket. now rewrite Hk, Hb.
Qed.

Lemma points_of_row_view (params : BMParams) (row : Row Float) points :
  mapM (fun entry => result_of_row (snd entry) row) (primary params)
  = Ok points ->
  points_of_row params row = points.
Proof.
  intros Hp. unfold points_of_row. now rewrite Hp.
Qed.

(** The buckets after a run of the loop from any grouping [rs0]. *)
Lemma foldM_add_row_bucket (params : BMParams) (l : list (Row Float)) :
  forall rs0 rs,
    foldM (add_row params) l rs0 = Ok rs ->
    forall k b,
      bucket k b rs
      = bucket k b rs0
          ++ flat_map (points_of_row params)
               (filter (row_in_bucket params k b) l).
Proof.
  induction l as [|row l IH]; intros rs0 rs H k b; simpl in *.
  - injection H as <-. now rewrite app_nil_r.
  - destruct (add_row params rs0 row) as [rs1|] eqn:E1; [|discriminate].
    simpl in H. rewrite (IH rs1 rs H k b).
    apply add_row_inv in E1.
    destruct E1 as [k1 [b1 [points [Hk [Hb [Hp ->]]]]]].
    rewrite bucket_with_points, <- app_assoc. f_equal.
    rewrite (row_in_bucket_view params row k1 b1 k b Hk Hb).
    destruct (key_eqb k1 k && cell_eqb b1 b); simpl; [|reflexivity].
    now rewrite (points_of_row_view params row points Hp).
Qed.

Lemma keys_with_points k b points (rs : ResultSets Float) k' :
  In k' (Dict.keys (with_points k b points rs))
  <-> k' = k \/ In k' (Dict.keys rs).
Proof.
  unfold with_points. cbv zeta. rewrite keys_set.
  destruct (Dict.mem key_eqb k rs) eqn:E.
  - apply (mem_keys key_eqb key_eqb_eq) in E. split; [tauto|].
    intros [->|H]; assumption.
  - rewrite in_app_iff. simpl. split; [intros [H|[H|[]]]|intros [H|H]];
      auto.
Qed.

Lemma benchmarks_with_points k b points (rs : ResultSets Float) k' b' :
  In b' (Dict.keys (item key_eqb k' (with_points k b points rs)))
  <-> In b' (Dict.keys (item key_eqb k' rs)) \/ (k' = k /\ b' = b).
Proof.
  unfold with_points. cbv zeta. rewrite (item_set key_eqb key_eqb_eq).
  destruct (key_eqb k' k) eqn:Ek.
  - apply key_eqb_eq in Ek. subst k'. rewrite keys_set.
    destruct (Dict.mem cell_eqb b (item key_eqb k rs)) eqn:E.
    + apply (mem_keys cell_eqb cell_eqb_eq) in E. split; [tauto|].
      intros [H|[_ ->]]; assumption.
    + rewrite in_app_iff. simpl.
      split; [intros [H|[H|[]]]|intros [H|[_ H]]]; auto.
  - split; [tauto|]. intros [H|[-> _]]; [assumption|].
    rewrite (eqb_refl_of key_eqb key_eqb_eq) in Ek. discriminate.
Qed.

Lemma NoDup_with_points k b points (rs : ResultSets Float) :
  NoDup (Dict.keys rs) ->
  (forall k', NoDup (Dict.keys (item key_eqb k' rs))) ->
  NoDup (Dict.keys (with_points k b points rs))
  /\ forall k', NoDup (Dict.keys (item key_eqb k' (with_points k b points rs))).
Proof.
  intros Hrs Hgroups. unfold with_points. cbv zeta. split.
  - now apply (keys_set_NoDup key_eqb key_eqb_eq).
  - intros k'. rewrite (item_set key_eqb key_eqb_eq).
    destruct (key_eqb k' k); [|apply Hgroups].
    apply (keys_set_NoDup cell_eqb cell_eqb_eq), Hgroups.
Qed.

Lemma total_with_points k b points (rs : ResultSets Float) :
  total_points (with_points k b points rs)
  = total_points rs + List.length points.
Proof.
  unfold with_points. cbv zeta.
  set (g := item key_eqb k rs).
  set (g' := Dict.set cell_eqb b (item cell_eqb b g ++ points) g).
  assert (Hout : total_points (Dict.set key_eqb k g' rs) + points_in g
                 = total_points rs + points_in g').
  { exact (sum_set key_eqb points_in [] k g' rs eq_refl). }
  assert (Hin : points_in g' + List.length (item cell_eqb b g)
                = points_in g
                  + List.length (item cell_eqb b g ++ points)).
  { exact (sum_set cell_eqb (@List.length (BMResult Float)) [] b
             (item cell_eqb b g ++ points) g eq_refl). }
  rewrite length_app in Hin. lia.
Qed.

(** The whole loop, from any grouping [rs0]. *)
Lemma foldM_add_row_shape (params : BMParams) (l : list (Row Float)) :
  forall rs0 rs,
    foldM (add_row params) l rs0 = Ok rs ->
    (forall k, In k (Dict.keys rs)
               <-> In k (Dict.keys rs0)
                   \/ exists row, In row l
                        /\ tuple_of_secondary_values params row = Ok k)
    /\ (forall k b, In b (Dict.keys (item key_eqb k rs))
                    <-> In b (Dict.keys (item key_eqb k rs0))
                        \/ exists row, In row l
                             /\ tuple_of_secondary_values params row = Ok k
                             /\ row_get "Benchmark" row = Ok b)
    /\ (NoDup (Dict.keys rs0) ->
        (forall k, NoDup (Dict.keys (item key_eqb k rs0))) ->
        NoDup (Dict.keys rs)
        /\ forall k, NoDup (Dict.keys (item key_eqb k rs)))
    /\ total_points rs
       = total_points rs0
         + list_sum (map (fun row => List.length (points_of_row params row)) l).
Proof.
  induction l as [|row l IH]; intros rs0 rs H; simpl in *.
  - injection H as <-. repeat split; try tauto.
    + intros [H|[row [[] _]]]. exact H.
    + intros [H|[row [[] _]]]. exact H.
    + lia.
  - destruct (add_row params rs0 row) as [rs1|] eqn:E1; [|discriminate].
    simpl in H. destruct (IH rs1 rs H) as [IHk [IHb [IHn IHt]]].
    apply add_row_inv in E1.
    destruct E1 as [k1 [b1 [points [Hk [Hb [Hp ->]]]]]].
    repeat split.
    + intros Hin. apply IHk in Hin. destruct Hin as [Hin|[r [Hr Hrk]]].
      * apply keys_with_points in Hin. destruct Hin as [->|Hin]; [|tauto].
        right. exists row. auto.
      * right. exists r. auto.
    + intros [Hin|[r [[<-|Hr] Hrk]]]; apply IHk.
      * left. apply keys_with_points. tauto.
      * left. apply keys_with_points. left. congruence.
      * right. exists r. auto.
    + intros Hin. apply IHb in Hin.
      destruct Hin as [Hin|[r [Hr [Hrk Hrb]]]].
      * apply benchmarks_with_points in Hin.
        destruct Hin as [Hin|[-> ->]]; [tauto|].
        right. exists row. auto.
      * right. exists r. auto.
    + intros [Hin|[r [[<-|Hr] [Hrk Hrb]]]]; apply IHb.
      * left. apply benchmarks_with_points. tauto.
      * left. apply benchmarks_with_points. right. split; congruence.
      * right. exists r. auto.
    + apply IHn; now apply NoDup_with_points.
    + intros k. apply IHn; now apply NoDup_with_points.
    + rewrite IHt, total_with_points.
      rewrite (points_of_row_view params row points Hp). lia.
Qed.

Lemma row_get_mem (label : string) (row : Row Float) :
  Dict.mem String.eqb label row = true ->
  exists c, row_get label row = Ok c.
Proof.
  unfold Dict.mem, row_get.
  destruct (Dict.get String.eqb label row) as [c|]; [|discriminate].
  intros _. now exists c.
Qed.

Lemma mapM_total {A B} (f : A -> Result B) (l : list A) :
  (forall a, In a l -> exists b, f a = Ok b) ->
  exists bs, mapM f l = Ok bs.
Proof.
  induction l as [|a l IH]; intros H; simpl.
  - now exists [].
  - destruct (H a (or_introl eq_refl)) as [b ->].
    destruct IH as [bs ->]; [intros x Hx; apply H; now right|].
    now exists (b :: bs).
Qed.

Lemma has_columns_get (labels : list string) (row : Row Float) label :
  has_columns labels row = true -> In label labels ->
  exists c, row_get label row = Ok c.
Proof.
  unfold has_columns. rewrite forallb_forall. intros H Hin.
  apply row_get_mem. now apply H.
Qed.

(** A row with the columns the grouping reads is read without error. *)
Lemma row_views (params : BMParams) (row : Row Float) :
  has_columns (grouping_columns params) row = true ->
  exists k b points,
    tuple_of_secondary_values params row = Ok k
    /\ row_get "Benchmark" row = Ok b
    /\ mapM (fun entry => result_of_row (snd entry) row) (primary params)
       = Ok points
    /\ List.length points = List.length (primary params).
Proof.
  intros H. unfold grouping_columns in H.
  assert (Hget : forall label,
             In label (["Benchmark"; "Score"; "Score Error (99.9%)"]
                         ++ map snd (primary params)
                         ++ map snd (secondary params)) ->
             exists c, row_get label row = Ok c).
  { intros label. now apply has_columns_get. }
  destruct (mapM_total (fun entry => row_get (snd entry) row)
              (secondary params)) as [k Hk].
  { intros e He. apply Hget. apply in_or_app. right. apply in_or_app. right.
    now apply in_map. }
  destruct (Hget "Benchmark") as [b Hb]; [simpl; auto|].
  destruct (Hget "Score") as [s Hs]; [simpl; auto|].
  destruct (Hget "Score Error (99.9%)") as [e He]; [simpl; auto|].
  destruct (mapM_total (fun entry => result_of_row (snd entry) row)
              (primary params)) as [points Hp].
  { intros x Hx. destruct (Hget (snd x)) as [v Hv].
    - apply in_or_app. right. apply in_or_app. left. now apply in_map.
    - unfold result_of_row. rewrite Hv, Hs, He. simpl. eauto. }
  exists k, b, points. repeat split; auto.
  now apply mapM_length in Hp.
Qed.

Lemma foldM_add_row_total (params : BMParams) (l : list (Row Float)) :
  Forall (fun row => has_columns (grouping_columns params) row = true) l ->
  forall rs0, exists rs, foldM (add_row params) l rs0 = Ok rs.
Proof.
  induction 1 as [|row l Hrow _ IH]; intros rs0; simpl.
  - now exists rs0.
  - destruct (row_views params row Hrow) as [k [b [points [Hk [Hb [Hp _]]]]]].
    rewrite (add_row_closed params rs0 row k b points Hk Hb Hp). simpl.
    apply IH.
Qed.





Lemma list_sum_ones {A} (f : A -> nat) (l : list A) :
  (forall a, In a l -> f a = 1) -> list_sum (map f l) = List.length l.
Proof.
  induction l as [|a l IH]; intros H; simpl; [reflexivity|].
  rewrite (H a (or_introl eq_refl)), IH; [reflexivity|].
  intros x Hx. apply H. now right.
Qed.

(** C9.  The primary part of a split made by [split_params] has exactly
    one entry, so on a batch whose rows have the columns the grouping
    reads every record gives exactly one point, and the number of points
    in all buckets of all groups is the number of rows of the batch. *)
Theorem one_point_per_record (params0 : Params) (name : string)
    (split : BMParams) (after : Params) (df : DataFrame Float) :
  split_params params0 name = Ok (split, after) ->
  Forall (fun row => has_columns (grouping_columns split) row = true)
    (rows df) ->
  List.length (primary split) = 1
  /\ (forall row, In row (rows df) ->
                  List.length (points_of_row split row) = 1)
  /\ exists rs,
       extract_results_per_param df split = Ok rs
       /\ total_points rs = len df.
Proof.
  intros Hsplit Hcols.
  assert (Hone : List.length (primary split) = 1).
  { unfold split_params in Hsplit.
    destruct (Dict.get String.eqb name params0); [|discriminate].
    now injection Hsplit as <- _. }
  assert (Hrow : forall row, In row (rows df) ->
                   List.length (points_of_row split row) = 1).
  { intros row Hin. rewrite Forall_forall in Hcols.
    destruct (row_views split row (Hcols row Hin))
      as [k [b [points [_ [_ [Hp Hlen]]]]]].
    rewrite (points_of_row_view split row points Hp). congruence. }
  repeat split; [exact Hone|exact Hrow|].
  unfold extract_results_per_param.
  destruct (foldM_add_row_total split (rows df) Hcols []) as [rs Hrs].
  exists rs. split; [exact Hrs|].
  destruct (foldM_add_row_shape split (rows df) [] rs Hrs)
    as [_ [_ [_ Htotal]]].
  rewrite Htotal. simpl. now apply list_sum_ones.
Qed.

Lemma single_key {K V} (k : K) (d : list (K * V)) :
  NoDup (Dict.keys d) -> In k (Dict.keys d) ->
  (forall k', In k' (Dict.keys d) -> k' = k) ->
  exists v, d = [(k, v)].
Proof.
  destruct d as [|[k0 v0] [|[k1 v1] d]]; simpl; intros Hnd Hin Hall.
  - contradiction.
  - exists v0. now rewrite (Hall k0 (or_introl eq_refl)).
  - exfalso. inversion Hnd as [|x l Hnot _]; subst. apply Hnot.
    left. rewrite (Hall k0), (Hall k1); auto.
Qed.

(** C10.  Without secondary parameters the key of every record is the
    empty tuple, and the grouping of a batch that has a row and whose rows
    have the columns the grouping reads is one group under the empty
    tuple; its buckets are those of all the benchmarks of the batch and
    hold the points of all the records. *)
Theorem no_secondary_one_group (df : DataFrame Float) (params : BMParams) :
  secondary params = [] ->
  rows df <> [] ->
  Forall (fun row => has_columns (grouping_columns params) row = true)
    (rows df) ->
  (forall row : Row Float, tuple_of_secondary_values params row = Ok [])
  /\ exists g,
       extract_results_per_param df params = Ok [([], g)]
       /\ (forall b, In b (Dict.keys g)
                     <-> exists row, In row (rows df)
                           /\ row_get "Benchmark" row = Ok b)
       /\ (forall b, item cell_eqb b g
                     = flat_map (points_of_row params)
                         (filter (fun row =>
                                    match row_get "Benchmark" row with
                                    | Ok b' => cell_eqb b' b
                                    | Raise _ => false
                                    end) (rows df))).
Proof.
  intros Hsec Hne Hcols.
  assert (Hkey : forall row : Row Float,
             tuple_of_secondary_values params row = Ok []).
  { intros row. unfold tuple_of_secondary_values. now rewrite Hsec. }
  split; [exact Hkey|].
  unfold extract_results_per_param.
  destruct (foldM_add_row_total params (rows df) Hcols []) as [rs Hrs].
  pose proof (foldM_add_row_bucket params (rows df) [] rs Hrs) as Hbucket.
  destruct (foldM_add_row_shape params (rows df) [] rs Hrs)
    as [Hkeys [Hbench [Hnodup _]]].
  destruct Hnodup as [Hnodup _]; [constructor|intros; constructor|].
  destruct (single_key [] rs Hnodup) as [g Hg].
  - apply Hkeys. right. destruct (rows df) as [|row l]; [contradiction|].
    exists row. split; [now left|apply Hkey].
  - intros k' Hk'. apply Hkeys in Hk'. destruct Hk' as [[]|[row [_ Hrow]]].
    rewrite Hkey in Hrow. now injection Hrow.
  - subst rs. exists g. split; [exact Hrs|].
    assert (Hitem : item key_eqb [] [([], g)] = g) by reflexivity.
    split.
    + intros b. specialize (Hbench [] b). rewrite Hitem in Hbench.
      rewrite Hbench. simpl. split.
      * intros [[]|[row [Hin [_ Hb]]]]. now exists row.
      * intros [row [Hin Hb]]. right. exists row. auto.
    + intros b. specialize (Hbucket [] b). unfold bucket in Hbucket.
      rewrite Hitem in Hbucket. rewrite Hbucket. simpl. f_equal.
      apply filter_ext. intros row. unfold row_in_bucket.
      rewrite Hkey. now destruct (row_get "Benchmark" row).
Qed.

(** *** Selecting rows *)

Lemma select_map {A} (keep : A -> bool) (l : list A) :
  select (map keep l) l = filter keep l.
Proof.
  induction l as [|a l IH]; simpl; [reflexivity|].
  rewrite IH. reflexivity.
Qed.

Lemma existsb_eqb_In (label : string) (labels : list string) :
  existsb (String.eqb label) labels = true <-> In label labels.
Proof.
  rewrite existsb_exists. split.
  - intros [x [Hx E]]. apply String.eqb_eq in E. now subst x.
  - intros H. exists label. split; [exact H|apply String.eqb_refl].
Qed.

Lemma where_apply_filter (df : DataFrame Float) (label : string)
    (f : Cell Float -> Result bool) (keep : Row Float -> bool) :
  In label (columns df) ->
  (forall row, In row (rows df) ->
     exists c, row_get label row = Ok c /\ f c = Ok (keep row)) ->
  where_apply df label f = Ok (kept_rows df keep).
Proof.
  intros Hlabel Hrows. unfold where_apply, kept_rows, take_rows, column.
  apply existsb_eqb_In in Hlabel. rewrite Hlabel.
  assert (H : exists cs,
             mapM (row_get label) (rows df) = Ok cs
             /\ mapM f cs = Ok (map keep (rows df))).
  { induction (rows df) as [|row l IH]; simpl.
    - now exists [].
    - destruct (Hrows row (or_introl eq_refl)) as [c [Hc Hf]].
      destruct IH as [cs [Hcs Hmask]];
        [intros r Hr; apply Hrows; now right|].
      exists (c :: cs). rewrite Hc, Hcs. simpl. now rewrite Hf, Hmask. }
  destruct H as [cs [-> Hmask]]. simpl. rewrite Hmask.
  destruct (rows df) as [|row l]; simpl; [reflexivity|].
  now rewrite select_map.
Qed.

Lemma mapM_no_benchmark_error {A B} (f : A -> Result B) (l : list A) :
  (forall a, is_benchmark_error (f a) = false) ->
  is_benchmark_error (mapM f l) = false.
Proof.
  intros Hf. induction l as [|a l IH]; simpl; [reflexivity|].
  specialize (Hf a). destruct (f a) as [b|e]; simpl; [|exact Hf].
  destruct (mapM f l); simpl; [reflexivity|exact IH].
Qed.

Lemma row_get_no_benchmark_error (label : string) (row : Row Float) :
  is_benchmark_error (row_get label row) = false.
Proof.
  unfold row_get. now destruct (Dict.get String.eqb label row).
Qed.

Lemma where_apply_no_benchmark_error (df : DataFrame Float) (label : string)
    (f : Cell Float -> Result bool) :
  (forall c, is_benchmark_error (f c) = false) ->
  is_benchmark_error (where_apply df label f) = false.
Proof.
  intros Hf. unfold where_apply, column.
  destruct (existsb (String.eqb label) (columns df)); [|reflexivity].
  pose proof (mapM_no_benchmark_error (row_get label) (rows df)
                (row_get_no_benchmark_error label)) as Hcol.
  destruct (mapM (row_get label) (rows df)) as [cs|e]; simpl;
    [|exact Hcol].
  pose proof (mapM_no_benchmark_error f cs Hf) as Hmask.
  destruct (mapM f cs) as [[|m mask]|e]; simpl;
    [reflexivity|reflexivity|exact Hmask].
Qed.

(** *** Search patterns *)

Lemma strip_prefix_some (a s r : string) :
  strip_prefix a s = Some r <-> s = (a ++ r)%string.
Proof.
  revert s. induction a as [|c a IH]; intros s; simpl.
  - split; [now intros [= ->]|now intros ->].
  - destruct s as [|d s]; [split; discriminate|].
    destruct (Ascii.eqb c d) eqn:E.
    + apply Ascii.eqb_eq in E. subst d. rewrite IH.
      split; [now intros ->|now intros [= ->]].
    + split; [discriminate|]. intros [= -> _].
      rewrite Ascii.eqb_refl in E. discriminate.
Qed.

Lemma star_class_spec (p : ascii -> bool) (k : string -> bool) (s : string) :
  star_class p k s = true
  <-> exists pre post,
        s = (pre ++ post)%string
        /\ PyStr.all_chars p pre = true /\ k post = true.
Proof.
  induction s as [|c s IH]; simpl.
  - split.
    + intros H. now exists EmptyString, EmptyString.
    + intros [pre [post [Heq [_ Hk]]]].
      destruct pre; [|discriminate]. simpl in Heq. now subst post.
  - rewrite orb_true_iff, andb_true_iff, IH. split.
    + intros [[Hc [pre [post [-> [Hpre Hk]]]]]|Hk].
      * exists (String c pre), post. simpl. rewrite Hc, Hpre. auto.
      * exists EmptyString, (String c s). auto.
    + intros [pre [post [Heq [Hpre Hk]]]]. destruct pre as [|d pre].
      * simpl in Heq. subst post. now right.
      * simpl in Heq, Hpre. injection Heq as <- ->.
        apply andb_true_iff in Hpre. destruct Hpre as [Hc Hpre].
        left. split; [exact Hc|]. now exists pre, post.
Qed.

Lemma star_class_true (p : ascii -> bool) (s : string) :
  star_class p (fun _ => true) s = true.
Proof.
  destruct s; simpl; [reflexivity|apply orb_true_r].
Qed.

(** The search pattern matches a name exactly when one of the alternatives
    occurs in it after non-space characters only. *)
Lemma re_match_search (report_bms : list string) (name : string) :
  re_match (Seq (StarClass non_space)
              (Seq (LitAlt report_bms) (StarClass non_space))) name = true
  <-> exists s, In s report_bms /\ occurs_after_non_space s name.
Proof.
  unfold re_match, occurs_after_non_space. simpl.
  rewrite star_class_spec. split.
  - intros [pre [post [-> [Hpre Hk]]]].
    apply existsb_exists in Hk. destruct Hk as [a [Ha Hm]].
    destruct (strip_prefix a post) as [rest|] eqn:E; [|discriminate].
    apply strip_prefix_some in E. subst post.
    exists a. split; [exact Ha|]. now exists pre, rest.
  - intros [a [Ha [pre [post [-> Hpre]]]]].
    exists pre, (a ++ post)%string. repeat split; auto.
    apply existsb_exists. exists a. split; [exact Ha|].
    assert (E : strip_prefix a (a ++ post) = Some post)
      by now apply strip_prefix_some.
    rewrite E. apply star_class_true.
Qed.

Lemma check_pattern_ok (report_bm : string) :
  check_pattern report_bm = Ok tt
  <-> exists c rest, report_bm = String c rest /\ allowed_char c = true.
Proof.
  unfold check_pattern, re_match. simpl. destruct report_bm as [|c rest].
  - split; [discriminate|]. intros [c [rest [H _]]]. discriminate.
  - rewrite andb_true_r. destruct (allowed_char c) eqn:E.
    + split; [|reflexivity]. intros _. now exists c, rest.
    + split; [discriminate|]. intros [c' [rest' [[= <- <-] H]]]. congruence.
Qed.

Lemma check_pattern_cases (report_bm : string) :
  check_pattern report_bm = Ok tt
  \/ check_pattern report_bm
     = Raise (BenchmarkError (InvalidBenchmarkPattern report_bm)).
Proof.
  unfold check_pattern. destruct (re_match _ _); auto.
Qed.

(** The validation loop stops at the first substring that is rejected. *)
Lemma check_patterns (report_bms : list string) :
  (exists units, mapM check_pattern report_bms = Ok units
                 /\ Forall (fun s => check_pattern s = Ok tt) report_bms)
  \/ (exists passed s rest,
        report_bms = passed ++ s :: rest
        /\ Forall (fun s => check_pattern s = Ok tt) passed
        /\ check_pattern s <> Ok tt
        /\ mapM check_pattern report_bms
           = Raise (BenchmarkError (InvalidBenchmarkPattern s))).
Proof.
  induction report_bms as [|s l IH]; simpl.
  - left. now exists [].
  - destruct (check_pattern_cases s) as [Hs|Hs].
    + rewrite Hs. simpl. destruct IH as [[units [-> Hall]]|IH].
      * left. exists (tt :: units). simpl. auto.
      * destruct IH as [passed [s' [rest [-> [Hpassed [Hbad ->]]]]]].
        right. exists (s :: passed), s', rest. simpl. auto.
    + right. exists [], s, l. rewrite Hs. simpl.
      repeat split; auto. congruence.
Qed.

(** *** The benchmark filter *)

Lemma filter_for_benchmarks_some (df : DataFrame Float) (rb : string) :
  rb <> EmptyString ->
  filter_for_benchmarks df (Some rb)
  = (_ <- mapM check_pattern (PyStr.split "," rb) ;;
     pattern <- compile_search (PyStr.split "," rb) ;;
     where_apply df "Benchmark"
       (fun x => match x with
                 | CStr name => Ok (re_match pattern name)
                 | _ => Raise TypeError
                 end)).
Proof.
  destruct rb; [contradiction|reflexivity].
Qed.

Lemma search_no_benchmark_error (df : DataFrame Float)
    (report_bms : list string) :
  is_benchmark_error
    (pattern <- compile_search report_bms ;;
     where_apply df "Benchmark"
       (fun x => match x with
                 | CStr name => Ok (re_match pattern name)
                 | _ => Raise TypeError
                 end)) = false.
Proof.
  unfold compile_search.
  destruct (forallb literal_text report_bms); simpl; [|reflexivity].
  apply where_apply_no_benchmark_error. now intros [].
Qed.

Lemma check_pattern_bad (s : string) :
  check_pattern s <> Ok tt
  <-> s = EmptyString
      \/ exists c rest, s = String c rest /\ allowed_char c = false.
Proof.
  rewrite check_pattern_ok. destruct s as [|c rest].
  - split; [auto|]. intros _ [c [rest [H _]]]. discriminate.
  - destruct (allowed_char c) eqn:E; split.
    + intros H. exfalso. apply H. now exists c, rest.
    + intros [H|[c' [rest' [[= <- <-] H]]]]; [discriminate|congruence].
    + intros _. right. now exists c, rest.
    + intros _ [c' [rest' [[= <- <-] H]]]. congruence.
Qed.

(** C6, as the program has it.  For a non-empty pattern list the filter
    fails with the message for an invalid benchmark pattern exactly when
    some substring is empty or begins with a character outside the class
    [[A-Za-z0-9_+-]]; the message names the first such substring: the
    substrings before it in the list all pass, and it is itself empty or
    begins with a character outside the class.  Only the first character
    is inspected: a substring that begins with an allowed character passes
    whatever follows it. *)
Theorem filter_for_benchmarks_validation (df : DataFrame Float)
    (rb : string) :
  rb <> EmptyString ->
  (is_benchmark_error (filter_for_benchmarks df (Some rb)) = true
   <-> exists s,
         In s (PyStr.split "," rb)
         /\ (s = EmptyString
             \/ exists c rest, s = String c rest /\ allowed_char c = false))
  /\ (is_benchmark_error (filter_for_benchmarks df (Some rb)) = true ->
      exists passed s rest,
        PyStr.split "," rb = passed ++ s :: rest
        /\ Forall (fun s => check_pattern s = Ok tt) passed
        /\ Forall (fun s =>
                     exists c rest, s = String c rest /\ allowed_char c = true)
             passed
        /\ check_pattern s <> Ok tt
        /\ (s = EmptyString
            \/ exists c rest, s = String c rest /\ allowed_char c = false)
        /\ filter_for_benchmarks df (Some rb)
           = Raise (BenchmarkError (InvalidBenchmarkPattern s)))
  /\ (forall c rest,
        allowed_char c = true -> check_pattern (String c rest) = Ok tt).
Proof.
  intros Hrb. rewrite (filter_for_benchmarks_some df rb Hrb).
  destruct (check_patterns (PyStr.split "," rb))
    as [[units [Hunits Hall]]|[passed [s [rest [Hsplit [Hpassed [Hbad Hraise]]]]]]].
  - rewrite Hunits. simpl. rewrite search_no_benchmark_error.
    repeat split; try discriminate.
    + intros [s [Hin Hs]]. apply check_pattern_bad in Hs.
      rewrite Forall_forall in Hall. exfalso. apply Hs. now apply Hall.
    + intros c rest Hc. apply check_pattern_ok. now exists c, rest.
  - rewrite Hraise. simpl. repeat split.
    + intros _. exists s. split.
      * rewrite Hsplit. apply in_or_app. right. now left.
      * now apply check_pattern_bad.
    + intros _. exists passed, s, rest.
      split; [exact Hsplit|]. split; [exact Hpassed|].
      split; [|split; [exact Hbad|split; [now apply check_pattern_bad|
                                           reflexivity]]].
      eapply Forall_impl; [|exact Hpassed].
      intros x Hx. now apply check_pattern_ok.
    + intros c rest' Hc. apply check_pattern_ok. now exists c, rest'.
Qed.

(** C3, as the program has it.  An absent or empty pattern list passes
    the batch unchanged.  For a non-empty list whose substrings pass the
    validation and are literal text, on a batch with a column of benchmark
    names, the filter keeps the rows, in their order, whose name holds one
    of the substrings with nothing but non-space characters before it: the
    match is anchored at the start of the name and walks over non-space
    characters only.  The rows are kept under the columns of the batch; of
    a batch without rows a table without columns is left ([kept_rows]). *)
Theorem filter_for_benchmarks_spec (df : DataFrame Float) :
  filter_for_benchmarks df None = Ok df
  /\ filter_for_benchmarks df (Some EmptyString) = Ok df
  /\ forall rb,
       rb <> EmptyString ->
       Forall (fun s => check_pattern s = Ok tt) (PyStr.split "," rb) ->
       forallb literal_text (PyStr.split "," rb) = true ->
       In "Benchmark" (columns df) ->
       Forall (fun row => benchmark_name row <> None) (rows df) ->
       exists keep,
         filter_for_benchmarks df (Some rb) = Ok (kept_rows df keep)
         /\ forall row name,
              benchmark_name row = Some name ->
              (keep row = true
               <-> exists s, In s (PyStr.split "," rb)
                             /\ occurs_after_non_space s name).
Proof.
  split; [reflexivity|]. split; [reflexivity|].
  intros rb Hrb Hvalid Hliteral Hcolumn Hnames.
  set (pattern := Seq (StarClass non_space)
                    (Seq (LitAlt (PyStr.split "," rb))
                       (StarClass non_space))).
  exists (fun row => match benchmark_name row with
                     | Some name => re_match pattern name
                     | None => false
                     end).
  split.
  - rewrite (filter_for_benchmarks_some df rb Hrb).
    destruct (check_patterns (PyStr.split "," rb))
      as [[units [-> _]]|[passed [s [rest [Hsplit [_ [Hbad _]]]]]]].
    + simpl. unfold compile_search. rewrite Hliteral. simpl.
      apply where_apply_filter; [exact Hcolumn|].
      intros row Hin. rewrite Forall_forall in Hnames.
      specialize (Hnames row Hin). unfold benchmark_name in *.
      destruct (row_get "Benchmark" row) as [[z|f|name|b]|e];
        try contradiction.
      now exists (CStr name).
    + exfalso. apply Hbad. rewrite Forall_forall in Hvalid.
      apply Hvalid. rewrite Hsplit. apply in_or_app. right. now left.
  - intros row name Hname. rewrite Hname. apply re_match_search.
Qed.

(** *** The range filter *)


Lemma cell_int_no_benchmark_error (x : Cell Float) :
  is_benchmark_error (cell_int x) = false.
Proof.
  destruct x as [z|f|s|b]; simpl; try reflexivity.
  - now destruct (float_to_int f).
  - now destruct (PyStr.int_of_str s).
Qed.

Lemma in_range_no_benchmark_error (low high : Z) (x : Cell Float) :
  is_benchmark_error
    (v <- cell_int x ;; Ok ((low <=? v)%Z && (v <=? high)%Z)) = false.
Proof.
  pose proof (cell_int_no_benchmark_error x) as H.
  destruct (cell_int x); [reflexivity|exact H].
Qed.


(** *** The driver *)

Lemma no_benchmark_error_no_empty_result {A} (r : Result A) :
  is_benchmark_error r = false -> raises_empty_result r = false.
Proof.
  destruct r as [a|[]]; simpl; congruence.
Qed.

Lemma bind_no_benchmark_error {A B} (r : Result A) (f : A -> Result B) :
  is_benchmark_error r = false ->
  (forall a, is_benchmark_error (f a) = false) ->
  is_benchmark_error (bind r f) = false.
Proof.
  intros Hr Hf. destruct r; simpl; auto.
Qed.

Lemma foldM_no_benchmark_error {A S} (f : S -> A -> Result S)
    (l : list A) :
  (forall s a, is_benchmark_error (f s a) = false) ->
  forall s, is_benchmark_error (foldM f l s) = false.
Proof.
  intros Hf. induction l as [|a l IH]; intros s; simpl; [reflexivity|].
  apply bind_no_benchmark_error; auto.
Qed.

Lemma library_no_benchmark_error {A} (o : option A) :
  is_benchmark_error (library o) = false.
Proof. now destruct o. Qed.

Lemma load_file_no_benchmark_error (normalized : option (DataFrame Float))
    (file : string) :
  is_benchmark_error (load_file normalized file) = false.
Proof.
  unfold load_file.
  apply bind_no_benchmark_error; [apply library_no_benchmark_error|].
  intros df. apply bind_no_benchmark_error.
  - unfold shorten_benchmarks.
    destruct (existsb _ _); [|reflexivity].
    apply bind_no_benchmark_error; [|reflexivity].
    apply mapM_no_benchmark_error. intros row. unfold shorten_benchmark.
    apply bind_no_benchmark_error; [apply row_get_no_benchmark_error|].
    now intros [].
  - intros df'. destruct normalized; [|reflexivity].
    apply bind_no_benchmark_error; [apply library_no_benchmark_error|].
    reflexivity.
Qed.

Lemma normalize_no_empty_result (path : string) :
  raises_empty_result (normalize_data_frame_from_path path) = false.
Proof.
  unfold normalize_data_frame_from_path.
  pose proof (foldM_no_benchmark_error load_file
                (if is_dir path then sorted_rglob_csv path else [path])
                load_file_no_benchmark_error None) as H.
  destruct (foldM load_file _ None) as [[df|]|e]; simpl; try reflexivity.
  now apply no_benchmark_error_no_empty_result in H.
Qed.

Lemma filter_for_benchmarks_no_empty_result (df : DataFrame Float)
    (rb : option string) :
  raises_empty_result (filter_for_benchmarks df rb) = false.
Proof.
  destruct rb as [rb|]; [|reflexivity].
  destruct (string_dec rb EmptyString) as [->|Hrb]; [reflexivity|].
  rewrite (filter_for_benchmarks_some df rb Hrb).
  destruct (check_patterns (PyStr.split "," rb))
    as [[units [-> _]]|[passed [s [rest [_ [_ [_ ->]]]]]]]; simpl.
  - apply no_benchmark_error_no_empty_result, search_no_benchmark_error.
  - reflexivity.
Qed.

Lemma filter_for_range_no_empty_result (df : DataFrame Float)
    (name select_range : string) :
  raises_empty_result (filter_for_range df name select_range) = false.
Proof.
  unfold filter_for_range.
  destruct (PyStr.split "<" select_range) as [|a [|b [|c l]]];
    try reflexivity.
  destruct (range_bounds a b) as [[low high]|]; [|reflexivity].
  destruct (negb (low <=? high)%Z); [reflexivity|].
  apply no_benchmark_error_no_empty_result.
  apply where_apply_no_benchmark_error, in_range_no_benchmark_error.
Qed.

Lemma result_of_row_no_benchmark_error (label : string) (row : Row Float) :
  is_benchmark_error (result_of_row label row) = false.
Proof.
  unfold result_of_row.
  repeat (apply bind_no_benchmark_error;
          [apply row_get_no_benchmark_error|intros ?]).
  reflexivity.
Qed.

Lemma add_row_no_benchmark_error (params : BMParams)
    (rs : ResultSets Float) (row : Row Float) :
  is_benchmark_error (add_row params rs row) = false.
Proof.
  unfold add_row.
  apply bind_no_benchmark_error.
  { apply mapM_no_benchmark_error. intros e.
    apply row_get_no_benchmark_error. }
  intros k. apply bind_no_benchmark_error;
    [apply row_get_no_benchmark_error|].
  intros b. apply bind_no_benchmark_error; [|reflexivity].
  apply foldM_no_benchmark_error. intros g e.
  apply bind_no_benchmark_error;
    [apply result_of_row_no_benchmark_error|reflexivity].
Qed.

Lemma grouping_stage_no_empty_result (stringpath name : string)
    (rb : option string) (df : DataFrame Float) :
  raises_empty_result (grouping_stage stringpath name rb df) = false.
Proof.
  unfold grouping_stage, split_params.
  destruct (Dict.get String.eqb name (extract_params df)); [|reflexivity].
  simpl. apply no_benchmark_error_no_empty_result.
  apply bind_no_benchmark_error.
  - apply foldM_no_benchmark_error, add_row_no_benchmark_error.
  - intros rs. apply library_no_benchmark_error.
Qed.

Lemma checked_ok (message : Message) (r : Result (DataFrame Float))
    (df : DataFrame Float) :
  checked message r = Ok df <-> r = Ok df /\ len df <> 0.
Proof.
  unfold checked. destruct r as [d|e]; simpl.
  - destruct (len d =? 0)%nat eqn:E.
    + apply Nat.eqb_eq in E. split; [discriminate|].
      intros [[= ->] H]. contradiction.
    + apply Nat.eqb_neq in E. split.
      * intros [= ->]. auto.
      * now intros [[= ->] _].
  - split; [discriminate|]. now intros [H _].
Qed.

Lemma checked_raises (message : Message) (r : Result (DataFrame Float)) :
  is_empty_result message = true ->
  raises_empty_result r = false ->
  (checked message r = Raise (BenchmarkError message)
   <-> exists df, r = Ok df /\ len df = 0)
  /\ (raises_empty_result (checked message r) = true
      <-> exists df, r = Ok df /\ len df = 0).
Proof.
  intros Hm Hr. unfold checked. destruct r as [d|e]; simpl.
  - destruct (len d =? 0)%nat eqn:E; simpl.
    + apply Nat.eqb_eq in E. rewrite Hm. split; split; auto;
        intros _; now exists d.
    + apply Nat.eqb_neq in E.
      split; (split; [discriminate|]); intros [df [[= ->] H]];
        contradiction.
  - simpl in Hr. split; split.
    + intros [= ->]. simpl in Hr. congruence.
    + intros [df [H _]]. discriminate.
    + destruct e; try discriminate. congruence.
    + intros [df [H _]]. discriminate.
Qed.

(** C8.  The driver is the chain of its stages: load, benchmark filter,
    range filter, each followed by the check of the number of rows, and
    then splitting, grouping and plotting.  A stage that returns hands on
    a batch with at least one row, so no later stage gets an empty batch.
    Neither the loader, nor a filter, nor a stage after the filters raises
    the error for an empty batch by itself.  Each check raises the error
    exactly when the batch it checks has no row, and the driver raises it
    exactly when one of the three checks does. *)
Theorem empty_result_checkpoints (stringpath name : string)
    (rb : option string) (sr : string) :
  process_benchmarks stringpath name rb sr
  = (d1 <- load_stage stringpath ;;
     d2 <- benchmarks_stage rb d1 ;;
     d3 <- range_stage name sr d2 ;;
     grouping_stage (pathlib.Path stringpath) name rb d3)
  /\ (forall d : DataFrame Float, load_stage stringpath = Ok d -> len d <> 0)
  /\ (forall d0 d : DataFrame Float, benchmarks_stage rb d0 = Ok d -> len d <> 0)
  /\ (forall d0 d : DataFrame Float, range_stage name sr d0 = Ok d -> len d <> 0)
  /\ raises_empty_result (normalize_data_frame_from_path (pathlib.Path stringpath)) = false
  /\ (forall d : DataFrame Float, raises_empty_result (filter_for_benchmarks d rb) = false)
  /\ (forall d : DataFrame Float, raises_empty_result (filter_for_range d name sr) = false)
  /\ (forall d : DataFrame Float, raises_empty_result (grouping_stage (pathlib.Path stringpath) name rb d)
                = false)
  /\ (load_stage stringpath
      = Raise (BenchmarkError (EmptyAfterLoad stringpath))
      <-> path_exists (pathlib.Path stringpath) = true
          /\ exists d : DataFrame Float, normalize_data_frame_from_path (pathlib.Path stringpath) = Ok d
                       /\ len d = 0)
  /\ (forall d0 : DataFrame Float,
        benchmarks_stage rb d0
        = Raise (BenchmarkError (EmptyAfterBenchmarks rb))
        <-> exists d : DataFrame Float, filter_for_benchmarks d0 rb = Ok d /\ len d = 0)
  /\ (forall d0 : DataFrame Float,
        range_stage name sr d0 = Raise (BenchmarkError (EmptyAfterRange sr))
        <-> exists d : DataFrame Float, filter_for_range d0 name sr = Ok d /\ len d = 0)
  /\ (raises_empty_result (process_benchmarks stringpath name rb sr) = true
      <-> load_stage stringpath
          = Raise (BenchmarkError (EmptyAfterLoad stringpath))
          \/ (exists d1 : DataFrame Float,
                load_stage stringpath = Ok d1
                /\ benchmarks_stage rb d1
                   = Raise (BenchmarkError (EmptyAfterBenchmarks rb)))
          \/ (exists d1 d2 : DataFrame Float,
                load_stage stringpath = Ok d1
                /\ benchmarks_stage rb d1 = Ok d2
                /\ range_stage name sr d2
                   = Raise (BenchmarkError (EmptyAfterRange sr)))).
Proof.
  assert (Hchain :
    process_benchmarks stringpath name rb sr
    = (d1 <- load_stage stringpath ;;
       d2 <- benchmarks_stage rb d1 ;;
       d3 <- range_stage name sr d2 ;;
       grouping_stage (pathlib.Path stringpath) name rb d3)).
  { unfold process_benchmarks, load_stage, benchmarks_stage, range_stage,
      checked, grouping_stage.
    destruct (negb (path_exists (pathlib.Path stringpath))); [reflexivity|].
    destruct (normalize_data_frame_from_path (pathlib.Path stringpath)) as [d0|];
      [|reflexivity]. simpl.
    destruct (len d0 =? 0)%nat; [reflexivity|]. simpl.
    destruct (filter_for_benchmarks d0 rb) as [d1|]; [|reflexivity]. simpl.
    destruct (len d1 =? 0)%nat; [reflexivity|]. simpl.
    destruct (filter_for_range d1 name sr) as [d2|]; [|reflexivity]. simpl.
    destruct (len d2 =? 0)%nat; reflexivity. }
  pose proof (normalize_no_empty_result (pathlib.Path stringpath)) as Hload.
  assert (Hstage1 :
    load_stage stringpath
    = Raise (BenchmarkError (EmptyAfterLoad stringpath))
    <-> path_exists (pathlib.Path stringpath) = true
        /\ exists d : DataFrame Float, normalize_data_frame_from_path (pathlib.Path stringpath) = Ok d
                     /\ len d = 0).
  { unfold load_stage. destruct (path_exists (pathlib.Path stringpath)); simpl.
    - rewrite (proj1 (checked_raises (EmptyAfterLoad stringpath) _
                        eq_refl Hload)). tauto.
    - split; [discriminate|]. intros [H _]. discriminate. }
  assert (Hstage2 : forall d0 : DataFrame Float,
    benchmarks_stage rb d0 = Raise (BenchmarkError (EmptyAfterBenchmarks rb))
    <-> exists d : DataFrame Float, filter_for_benchmarks d0 rb = Ok d /\ len d = 0).
  { intros d0. apply checked_raises; [reflexivity|].
    apply filter_for_benchmarks_no_empty_result. }
  assert (Hstage3 : forall d0 : DataFrame Float,
    range_stage name sr d0 = Raise (BenchmarkError (EmptyAfterRange sr))
    <-> exists d : DataFrame Float, filter_for_range d0 name sr = Ok d /\ len d = 0).
  { intros d0. apply checked_raises; [reflexivity|].
    apply filter_for_range_no_empty_result. }
  split; [exact Hchain|].
  split.
  { intros d. unfold load_stage.
    destruct (negb (path_exists (pathlib.Path stringpath))); [discriminate|].
    intros H. now apply checked_ok in H. }
  split; [intros d0 d H; now apply checked_ok in H|].
  split; [intros d0 d H; now apply checked_ok in H|].
  split; [exact Hload|].
  split; [intros d; apply filter_for_benchmarks_no_empty_result|].
  split; [intros d; apply filter_for_range_no_empty_result|].
  split; [intros d; apply grouping_stage_no_empty_result|].
  split; [exact Hstage1|]. split; [exact Hstage2|]. split; [exact Hstage3|].
  rewrite Hchain.
  assert (Hs1 : raises_empty_result (load_stage stringpath) = true
                <-> load_stage stringpath
                    = Raise (BenchmarkError (EmptyAfterLoad stringpath))).
  { rewrite Hstage1. unfold load_stage.
    destruct (path_exists (pathlib.Path stringpath)); simpl.
    - rewrite (proj2 (checked_raises (EmptyAfterLoad stringpath) _
                        eq_refl Hload)). tauto.
    - split; [discriminate|]. intros [H _]. discriminate. }
  assert (Hs2 : forall d0 : DataFrame Float,
             raises_empty_result (benchmarks_stage rb d0) = true
             <-> benchmarks_stage rb d0
                 = Raise (BenchmarkError (EmptyAfterBenchmarks rb))).
  { intros d0. rewrite Hstage2. apply checked_raises; [reflexivity|].
    apply filter_for_benchmarks_no_empty_result. }
  assert (Hs3 : forall d0 : DataFrame Float,
             raises_empty_result (range_stage name sr d0) = true
             <-> range_stage name sr d0
                 = Raise (BenchmarkError (EmptyAfterRange sr))).
  { intros d0. rewrite Hstage3. apply checked_raises; [reflexivity|].
    apply filter_for_range_no_empty_result. }
  destruct (load_stage stringpath) as [d1|e1] eqn:E1; simpl.
  - destruct (benchmarks_stage rb d1) as [d2|e2] eqn:E2; simpl.
    + destruct (range_stage name sr d2) as [d3|e3] eqn:E3; simpl.
      * rewrite grouping_stage_no_empty_result. split; [discriminate|].
        intros [H|[[x [Hx H]]|[x [y [Hx [H1 H2]]]]]]; try discriminate;
          injection Hx as <-; congruence.
      * specialize (Hs3 d2). rewrite E3 in Hs3. simpl in Hs3.
        rewrite Hs3. split.
        -- intros H. right. right. exists d1, d2. now rewrite E2, E3.
        -- intros [H|[[x [Hx H]]|[x [y [Hx [H1 H2]]]]]]; try discriminate;
             injection Hx as <-; congruence.
    + specialize (Hs2 d1). rewrite E2 in Hs2. simpl in Hs2.
      rewrite Hs2. split.
      * intros H. right. left. exists d1. now rewrite E2.
      * intros [H|[[x [Hx H]]|[x [y [Hx [H1 H2]]]]]]; try discriminate;
          injection Hx as <-; congruence.
  - simpl in Hs1. rewrite Hs1. split; [tauto|].
    intros [H|[[x [H _]]|[x [y [H _]]]]]; try discriminate. exact H.
Qed.

End Facts.

(** * Worked instances *)

Lemma decimation_keeps_every_ninth_witness :
  len Sample.scenario_file = 9
  /\ len (iloc_step 9 Sample.scenario_file) = 1
  /\ normalize_data_frame_from_path (outside := SampleValues.two_files)
       "runs"
     = Ok Sample.scenario_batch
  /\ exists dfs d ds,
       dfs = [SampleValues.two_benchmarks_file; Sample.scenario_file]
       /\ Forall2 (fun df d : DataFrame Sample.Tenths =>
                     shorten_benchmarks (iloc_step 9 df) = Ok d)
            dfs (d :: ds)
       /\ map len (d :: ds) = [2; 1]
       /\ foldM (fun normalized d =>
                   library (@pd_merge _ SampleValues.two_files normalized d))
            ds d
          = Ok Sample.scenario_batch.
Proof.
  split; [reflexivity|].
  split.
  { exact (proj1 (proj2 (proj2 (proj2
             (decimation_keeps_every_ninth Sample.scenario_file))))
             eq_refl). }
  assert (H : normalize_data_frame_from_path
                (outside := SampleValues.two_files) "runs"
              = Ok Sample.scenario_batch) by reflexivity.
  split; [exact H|].
  destruct (proj2 (proj2 (proj2 (proj2 (proj2
              (decimation_keeps_every_ninth
                 (outside := SampleValues.two_files)
                 Sample.scenario_file))))) "runs" Sample.scenario_batch H)
    as [dfs [d [ds [Hread [Hshort Hmerge]]]]].
  exists dfs, d, ds.
  inversion Hread as [|f1 df1 fs1 dfs1 H1 Hread1]; subst.
  inversion Hread1 as [|f2 df2 fs2 dfs2 H2 Hread2]; subst.
  inversion Hread2; subst.
  injection H1 as <-. injection H2 as <-.
  inversion Hshort as [|x1 y1 xs1 ys1 [S1 _] Hshort1]; subst.
  inversion Hshort1 as [|x2 y2 xs2 ys2 [S2 _] Hshort2]; subst.
  inversion Hshort2; subst.
  split; [reflexivity|].
  split; [repeat constructor; assumption|].
  split; [|exact Hmerge].
  vm_compute in S1. vm_compute in S2.
  injection S1 as <-. injection S2 as <-. reflexivity.
Defined.

Lemma split_params_spec_witness :
  In "valueSize" (Dict.keys (extract_params Sample.four_rows))
  /\ exists label after,
       split_params (extract_params Sample.four_rows) "valueSize"
       = Ok ({| primary := [("valueSize", label)]; secondary := after |},
             after)
       /\ ~ In "valueSize" (Dict.keys after).
Proof.
  assert (H : In "valueSize" (Dict.keys (extract_params Sample.four_rows)))
    by (simpl; auto).
  split; [exact H|].
  destruct (proj2 (proj2 (split_params_spec
                            (extract_params Sample.four_rows) "valueSize")) H)
    as [label [after [_ [Hsplit [Hout _]]]]].
  exists label, after. split; [exact Hsplit|exact Hout].
Defined.

Lemma extract_params_spec_witness :
  let df : DataFrame Sample.Tenths :=
    {| columns := ["Benchmark"; "Score"]; rows := [] |} in
  (forall c f, In c (columns df) -> PyStr.split ":" c <> ["Param"; f])
  /\ extract_params df = [].
Proof.
  intros df.
  assert (H : forall c f,
             In c (columns df) -> PyStr.split ":" c <> ["Param"; f]).
  { intros c f [<-|[<-|[]]]; discriminate. }
  split; [exact H|].
  exact (proj2 (proj2 (extract_params_spec df)) H).
Defined.


Lemma one_point_per_record_witness :
  split_params (extract_params Sample.four_rows) "valueSize"
  = Ok (Sample.value_params, secondary Sample.value_params)
  /\ Forall (fun row =>
               has_columns (grouping_columns Sample.value_params) row = true)
       (rows Sample.four_rows)
  /\ exists rs,
       extract_results_per_param Sample.four_rows Sample.value_params = Ok rs
       /\ total_points rs = 4.
Proof.
  assert (H1 : split_params (extract_params Sample.four_rows) "valueSize"
               = Ok (Sample.value_params, secondary Sample.value_params))
    by reflexivity.
  assert (H2 : Forall
                 (fun row =>
                    has_columns (grouping_columns Sample.value_params) row
                    = true) (rows Sample.four_rows))
    by (repeat constructor).
  split; [exact H1|]. split; [exact H2|].
  exact (proj2 (proj2 (one_point_per_record _ _ _ _ Sample.four_rows H1 H2))).
Defined.

Lemma no_secondary_one_group_witness :
  secondary Sample.value_only_params = []
  /\ rows Sample.four_rows <> []
  /\ Forall (fun row =>
               has_columns (grouping_columns Sample.value_only_params) row
               = true) (rows Sample.four_rows)
  /\ exists g,
       extract_results_per_param Sample.four_rows Sample.value_only_params
       = Ok [([], g)].
Proof.
  assert (H1 : secondary Sample.value_only_params = []) by reflexivity.
  assert (H2 : rows Sample.four_rows <> []) by discriminate.
  assert (H3 : Forall
                 (fun row =>
                    has_columns (grouping_columns Sample.value_only_params)
                      row = true) (rows Sample.four_rows))
    by (repeat constructor).
  split; [exact H1|]. split; [exact H2|]. split; [exact H3|].
  destruct (proj2 (no_secondary_one_group Sample.four_rows
                     Sample.value_only_params H1 H2 H3)) as [g [Hg _]].
  exists g. exact Hg.
Defined.

Lemma filter_for_benchmarks_validation_witness :
  "Direct,B y.t*e" <> EmptyString
  /\ check_pattern "B y.t*e" = Ok tt
  /\ (is_benchmark_error
        (filter_for_benchmarks Sample.four_rows (Some "Direct,B y.t*e"))
      = true
      <-> exists s,
            In s (PyStr.split "," "Direct,B y.t*e")
            /\ (s = EmptyString
                \/ exists c rest,
                     s = String c rest /\ allowed_char c = false)).
Proof.
  assert (H : "Direct,B y.t*e" <> EmptyString) by discriminate.
  split; [exact H|].
  destruct (filter_for_benchmarks_validation Sample.four_rows
              "Direct,B y.t*e" H) as [Hiff [_ Hfirst]].
  split; [|exact Hiff].
  exact (Hfirst "B"%char " y.t*e" eq_refl).
Defined.

Lemma filter_for_benchmarks_spec_witness :
  "Array,Byte" <> EmptyString
  /\ Forall (fun s => check_pattern s = Ok tt) (PyStr.split "," "Array,Byte")
  /\ forallb literal_text (PyStr.split "," "Array,Byte") = true
  /\ In "Benchmark" (columns Sample.four_rows)
  /\ Forall (fun row => benchmark_name row <> None) (rows Sample.four_rows)
  /\ exists keep,
       filter_for_benchmarks Sample.four_rows (Some "Array,Byte")
       = Ok {| columns := columns Sample.four_rows;
               rows := filter keep (rows Sample.four_rows) |}.
Proof.
  assert (H1 : "Array,Byte" <> EmptyString) by discriminate.
  assert (H2 : Forall (fun s => check_pattern s = Ok tt)
                 (PyStr.split "," "Array,Byte"))
    by (repeat constructor).
  assert (H3 : forallb literal_text (PyStr.split "," "Array,Byte") = true)
    by reflexivity.
  assert (H4 : In "Benchmark" (columns Sample.four_rows)) by (simpl; auto).
  assert (H5 : Forall (fun row => benchmark_name row <> None)
                 (rows Sample.four_rows))
    by (repeat constructor; discriminate).
  repeat (split; [assumption|]).
  destruct (proj2 (proj2 (filter_for_benchmarks_spec Sample.four_rows))
              "Array,Byte" H1 H2 H3 H4 H5) as [keep [Hkeep _]].
  exists keep. exact Hkeep.
Defined.


Lemma empty_result_checkpoints_witness :
  raises_empty_result
    (process_benchmarks "run/results.csv" "valueSize" (Some "Direct")
       "4096<") = true.
Proof.
  apply (proj2 (proj2 (proj2 (proj2 (proj2 (proj2 (proj2 (proj2 (proj2
           (proj2 (proj2
              (empty_result_checkpoints "run/results.csv" "valueSize"
                 (Some "Direct") "4096<")))))))))))).
  right. right.
  exists Sample.scenario_batch, Sample.scenario_batch.
  repeat split.
Defined.

(** * Where the design document and the program part *)


(** C3 as worded keeps a row whose name holds a substring anywhere.  The
    name ["Bench GetDirect"] holds ["Direct"], which passes the
    validation, and the program drops the row: the space stops the walk
    from the start of the name. *)
Lemma filter_for_benchmarks_infix_counterexample :
  check_pattern "Direct" = Ok tt
  /\ PyStr.infix "Direct" "Bench GetDirect"
  /\ filter_for_benchmarks Sample.spaced_name (Some "Direct")
     = Ok (Sample.frame []).
Proof.
  split; [reflexivity|]. split; [|reflexivity].
  now exists "Bench Get", EmptyString.
Qed.

(** C5 as worded trims the first part of a label before comparing it with
    [Param] and asks for two non-empty parts.  The program compares the
    first part as it stands, so the label [" Param: valueSize"] gives no
    entry; and it accepts an empty second part, so the label ["Param:"]
    gives an entry under the empty name. *)
Lemma extract_params_label_counterexample :
  documented_param_label " Param: valueSize" = true
  /\ extract_params (Float := Sample.Tenths)
       {| columns := ["Benchmark"; " Param: valueSize"]; rows := [] |} = []
  /\ documented_param_label "Param:" = false
  /\ extract_params (Float := Sample.Tenths)
       {| columns := ["Benchmark"; "Param:"]; rows := [] |}
     = [("", "Param:")].
Proof.
  repeat split.
Qed.

(** C6 as worded lets the filter fail only for a substring whose first
    character is outside the class.  The list ["Direct,"] has the
    substrings ["Direct"] and [""]; neither has a first character outside
    the class, and the program fails on the empty one. *)
Lemma filter_for_benchmarks_empty_substring_counterexample :
  PyStr.split "," "Direct," = ["Direct"; ""]
  /\ existsb documented_bad_pattern (PyStr.split "," "Direct,") = false
  /\ filter_for_benchmarks Sample.four_rows (Some "Direct,")
     = Raise (BenchmarkError (InvalidBenchmarkPattern "")).
Proof.
  repeat split.
Qed.

(** * The model on small inputs *)

Example int_of_str_examples :
  map PyStr.int_of_str
    ["12"; " -1_000 "; "+7"; "007"; "1__0"; "_1"; "1_"; ""; "-"; "1.5"; "0x1"]
  = [Some 12; Some (-1000); Some 7; Some 7; None; None; None; None; None;
     None; None]%Z.
Proof. reflexivity. Qed.

(** [int] takes the separators FS..US for no white space, [strip]
    does. *)
Example int_of_str_separators :
  PyStr.int_of_str (String (ascii_of_nat 28) "10") = None
  /\ PyStr.strip (String (ascii_of_nat 28) "10") = "10"
  /\ PyStr.int_of_str (String (ascii_of_nat 160) "10") = Some 10%Z.
Proof. repeat split. Qed.

Example pathlib_examples :
  map pathlib.Path
    ["./nope.csv"; "results_dir/"; ""; "//a"; "///a"; "a//b"; "a/./b";
     "a/.."; "/"]
  = ["nope.csv"; "results_dir"; "."; "//a"; "/a"; "a/b"; "a/b"; "a/..";
     "/"].
Proof. reflexivity. Qed.

(** Filtering a batch without rows leaves a table without columns. *)
Example filter_empty_batch :
  filter_for_benchmarks (Sample.frame []) (Some "Direct")
  = Ok {| columns := []; rows := [] |}
  /\ filter_for_range (Sample.frame []) "valueSize" "10<"
     = Ok {| columns := []; rows := [] |}
  /\ filter_for_benchmarks (Sample.frame []) (Some "") = Ok (Sample.frame []).
Proof. repeat split. Qed.

Example split_examples :
  PyStr.split "<" "10<4097" = ["10"; "4097"]
  /\ PyStr.split "<" "<4097" = [""; "4097"]
  /\ PyStr.split "<" "abc" = ["abc"]
  /\ PyStr.split "<" "1<2<3" = ["1"; "2"; "3"]
  /\ PyStr.split "<" "" = [""]
  /\ PyStr.last_piece "." "com.example.BenchGetDirect" = "BenchGetDirect".
Proof. repeat split. Qed.

(** The range filter on the examples of the design document. *)
Example filter_for_range_examples :
  (exists kept,
     filter_for_range Sample.four_rows "valueSize" "10<70"
     = Ok (Sample.frame kept)
     /\ map (primary_int "valueSize") kept = [Some 64; Some 64]%Z)
  /\ (exists kept,
        filter_for_range Sample.four_rows "valueSize" "<64"
        = Ok (Sample.frame kept)
        /\ map (primary_int "valueSize") kept
           = [Some 64; Some 64; Some 8]%Z)
  /\ (exists kept,
        filter_for_range Sample.four_rows "valueSize" "64<"
        = Ok (Sample.frame kept)
        /\ map (primary_int "valueSize") kept
           = [Some 64; Some 64; Some 4096]%Z)
  /\ filter_for_range Sample.four_rows "valueSize" "20<10"
     = Raise (BenchmarkError (InvalidRange ["20"; "10"])).
Proof.
  repeat split; eexists; split; reflexivity.
Qed.

(** The end-to-end scenario of the design document: one file of nine
    report lines, primary parameter [valueSize]; the grouping has one
    group, under the checksum [true], with one bucket of one point. *)
Example end_to_end_scenario :
  (dataframe <- normalize_data_frame_from_path "run/results.csv" ;;
   split <- split_params (extract_params dataframe) "valueSize" ;;
   extract_results_per_param dataframe (fst split))
  = Ok [([CBool true],
         [(CStr "BenchGetDirect",
           [{| value := CInt 64;
               score := CFloat 1205%Z;
               error := CFloat 32%Z |}])])]
  /\ process_benchmarks "run/results.csv" "valueSize" (Some "") "1<4097"
     = Ok tt.
Proof. split; reflexivity. Qed.

(** * Further properties of the two programs *)

Lemma filter_true {A} (l : list A) : filter (fun _ => true) l = l.
Proof.
  induction l as [|a l IH]; simpl; [reflexivity|now rewrite IH].
Qed.

Lemma filter_filter {A} (p q : A -> bool) (l : list A) :
  filter p (filter q l) = filter (fun a => q a && p a) l.
Proof.
  induction l as [|a l IH]; simpl; [reflexivity|].
  destruct (q a); simpl; [destruct (p a)|]; now rewrite IH.
Qed.

Lemma filter_length_le' {A} (p : A -> bool) (l : list A) :
  List.length (filter p l) <= List.length l.
Proof.
  induction l as [|a l IH]; simpl; [lia|].
  destruct (p a); simpl; lia.
Qed.

Lemma mapM_app {A B} (f : A -> Result B) (l1 l2 : list A) :
  mapM f (l1 ++ l2)
  = (b1 <- mapM f l1 ;; b2 <- mapM f l2 ;; Ok (b1 ++ b2)).
Proof.
  induction l1 as [|a l1 IH]; simpl.
  - now destruct (mapM f l2).
  - destruct (f a); simpl; [|reflexivity]. rewrite IH.
    destruct (mapM f l1); simpl; [|reflexivity].
    now destruct (mapM f l2).
Qed.

Lemma split_app (sep : ascii) (a b : string) :
  PyStr.split sep (a ++ String sep b)
  = PyStr.split sep a ++ PyStr.split sep b.
Proof.
  induction a as [|c a IH]; simpl.
  - now rewrite Ascii.eqb_refl.
  - destruct (Ascii.eqb c sep); simpl; [now rewrite IH|].
    rewrite IH. pose proof (split_length sep a) as Hl.
    destruct (PyStr.split sep a); [discriminate|reflexivity].
Qed.

Section MoreFacts.

Context {Float : Type} {float_ops : FloatOps Float} {outside : Outside Float}
  {outside_values : OutsideValues Float}.

(** *** The secondary keys *)

(** X1.  The tuple of secondary values of a row has one value for each
    secondary key, in the same positions: the value at the place of a key
    is the row's value in the column of that key. *)
Theorem secondary_values_aligned (params : BMParams) (row : Row Float)
    (values : list (Cell Float)) :
  tuple_of_secondary_values params row = Ok values ->
  List.length values = List.length (tuple_of_secondary_keys params)
  /\ forall i name label,
       nth_error (secondary params) i = Some (name, label) ->
       nth_error (tuple_of_secondary_keys params) i = Some name
       /\ exists v, nth_error values i = Some v /\ row_get label row = Ok v.
Proof.
  unfold tuple_of_secondary_values, tuple_of_secondary_keys.
  intros H. split.
  - rewrite length_map. exact (mapM_length _ _ _ H).
  - apply mapM_ok_inv in H. intros i name label Hi. split.
    + rewrite nth_error_map, Hi. reflexivity.
    + revert i Hi. induction H as [|e v l vs Hev _ IH]; intros i Hi.
      * now destruct i.
      * destruct i as [|i]; simpl in *.
        -- injection Hi as ->. exists v. auto.
        -- now apply IH.
Qed.

(** *** Filters *)

Lemma where_apply_ok (df df' : DataFrame Float) (label : string)
    (f : Cell Float -> Result bool) :
  where_apply df label f = Ok df' ->
  In label (columns df)
  /\ Forall (fun row => exists c b, row_get label row = Ok c /\ f c = Ok b)
       (rows df)
  /\ df' = kept_rows df
             (fun row =>
                match row_get label row with
                | Ok c => match f c with
                          | Ok b => b
                          | Raise _ => false
                          end
                | Raise _ => false
                end).
Proof.
  unfold where_apply, column.
  destruct (existsb (String.eqb label) (columns df)) eqn:E; [|discriminate].
  apply existsb_eqb_In in E.
  destruct (mapM (row_get label) (rows df)) as [cs|] eqn:Hcs;
    [|discriminate]. simpl.
  destruct (mapM f cs) as [mask|] eqn:Hmask; [|discriminate]. simpl.
  intros H. split; [exact E|].
  apply mapM_ok_inv in Hcs. apply mapM_ok_inv in Hmask.
  set (keep := fun row : Row Float =>
                 match row_get label row with
                 | Ok c => match f c with
                           | Ok b => b
                           | Raise _ => false
                           end
                 | Raise _ => false
                 end).
  assert (Hsel : Forall (fun row => exists c b,
                           row_get label row = Ok c /\ f c = Ok b) (rows df)
                 /\ select mask (rows df) = filter keep (rows df)
                 /\ List.length mask = List.length (rows df)).
  { clear H. revert mask Hmask. induction Hcs as [|row c l cs Hc _ IH];
      intros mask Hmask; inversion Hmask as [|c' b cs' mask' Hb Hrest]; subst.
    - repeat split; constructor.
    - destruct (IH mask' Hrest) as [Hall [Heq Hlen]]. repeat split.
      + constructor; [now exists c, b|exact Hall].
      + simpl. unfold keep at 1. rewrite Hc, Hb.
        destruct b; now rewrite Heq.
      + simpl. now rewrite Hlen. }
  destruct Hsel as [Hall [Hsel Hlen]]. split; [exact Hall|].
  unfold kept_rows, take_rows in *.
  destruct mask as [|m mask]; injection H as <-;
    destruct (rows df) as [|row l]; try discriminate Hlen;
    [reflexivity|].
  f_equal. exact Hsel.
Qed.

Lemma where_apply_again (df df' : DataFrame Float) (label : string)
    (f : Cell Float -> Result bool) :
  where_apply df label f = Ok df' ->
  rows df' <> [] ->
  where_apply df' label f = Ok df'.
Proof.
  intros H Hrows. apply where_apply_ok in H.
  destruct H as [Hlabel [Hall ->]].
  unfold kept_rows in *. destruct (rows df) as [|row0 l] eqn:Er;
    [now contradiction Hrows|].
  rewrite (where_apply_filter _ label f (fun _ => true)).
  - unfold kept_rows. cbn [rows columns] in *.
    destruct (filter _ (row0 :: l)) as [|r rs] eqn:Ef;
      [now contradiction Hrows|].
    now rewrite filter_true.
  - exact Hlabel.
  - cbn [rows]. intros row Hin. apply filter_In in Hin.
    destruct Hin as [Hin Hp].
    rewrite Forall_forall in Hall. destruct (Hall row Hin) as [c [b [Hc Hb]]].
    rewrite Hc, Hb in Hp. subst b. now exists c.
Qed.

Lemma kept_rows_rows (df : DataFrame Float) (keep : Row Float -> bool) :
  rows (kept_rows df keep) = filter keep (rows df)
  /\ (rows df <> [] -> columns (kept_rows df keep) = columns df).
Proof.
  unfold kept_rows. destruct (rows df); simpl; [|now split].
  split; [reflexivity|]. intros H. now contradiction H.
Qed.

Lemma filter_for_benchmarks_ok_rows (df df' : DataFrame Float)
    (rb : option string) :
  filter_for_benchmarks df rb = Ok df' ->
  rows df' = filter (benchmark_keep rb) (rows df)
  /\ (rows df <> [] -> columns df' = columns df).
Proof.
  intros H.
  destruct rb as [rb|]; [|simpl in *; rewrite filter_true;
                           injection H as <-; now split].
  destruct (string_dec rb EmptyString) as [->|Hrb].
  { simpl in *. rewrite filter_true. injection H as <-. now split. }
  rewrite (filter_for_benchmarks_some df rb Hrb) in H.
  destruct (mapM check_pattern (PyStr.split "," rb)); [|discriminate].
  simpl in H. unfold compile_search in H.
  destruct (forallb literal_text (PyStr.split "," rb)); [|discriminate].
  simpl in H. apply where_apply_ok in H. destruct H as [_ [_ ->]].
  destruct (kept_rows_rows df
              (fun row =>
                 match row_get "Benchmark" row with
                 | Ok c =>
                     match
                       match c with
                       | CStr name =>
                           Ok (re_match
                                 (Seq (StarClass non_space)
                                    (Seq (LitAlt (PyStr.split "," rb))
                                       (StarClass non_space))) name)
                       | _ => Raise TypeError
                       end
                     with
                     | Ok b => b
                     | Raise _ => false
                     end
                 | Raise _ => false
                 end)) as [Hr Hc].
  split; [|exact Hc]. rewrite Hr. apply filter_ext. intros row.
  destruct rb as [|c rb]; [contradiction|].
  unfold benchmark_keep, kept_by_benchmarks, benchmark_name.
  now destruct (row_get "Benchmark" row) as [[]|].
Qed.

Lemma filter_for_range_ok_rows (df df' : DataFrame Float)
    (name select_range : string) :
  filter_for_range df name select_range = Ok df' ->
  rows df' = filter (range_keep name select_range) (rows df)
  /\ (rows df <> [] -> columns df' = columns df).
Proof.
  intros H. unfold filter_for_range in H. unfold range_keep.
  destruct (PyStr.split "<" select_range) as [|a [|b [|c l]]];
    try (rewrite filter_true; injection H as <-; now split).
  destruct (range_bounds a b) as [[low high]|]; [|discriminate].
  destruct (negb (low <=? high)%Z); [discriminate|].
  apply where_apply_ok in H. destruct H as [_ [_ ->]].
  destruct (kept_rows_rows df
              (fun row =>
                 match row_get ("Param: " ++ name) row with
                 | Ok c =>
                     match (v <- cell_int c ;;
                            Ok ((low <=? v)%Z && (v <=? high)%Z)) with
                     | Ok b => b
                     | Raise _ => false
                     end
                 | Raise _ => false
                 end)) as [Hr Hc].
  split; [|exact Hc]. rewrite Hr. apply filter_ext. intros row.
  unfold kept_by_range, primary_int.
  destruct (row_get ("Param: " ++ name) row) as [x|]; [|reflexivity].
  now destruct (cell_int x).
Qed.

Lemma frame_eq (d d' : DataFrame Float) :
  columns d = columns d' -> rows d = rows d' -> d = d'.
Proof.
  destruct d, d'; simpl. now intros -> ->.
Qed.

Lemma filter_nonempty {A} (p : A -> bool) (l : list A) :
  filter p l <> [] -> l <> [].
Proof.
  now destruct l.
Qed.

(** X2.  When the benchmark filter returns for a list of literal
    substrings, its result holds exactly the rows of the batch that
    satisfy a test on the row alone, in their order: the filter never adds,
    changes or reorders a row, and the result is not longer than the
    batch.  The columns are those of the batch when the batch has a row;
    of a batch without rows the filter may leave a table without
    columns. *)
Theorem filter_for_benchmarks_sub_batch (df df' : DataFrame Float)
    (rb : option string) :
  literal_patterns rb = true ->
  filter_for_benchmarks df rb = Ok df' ->
  rows df' = filter (benchmark_keep rb) (rows df)
  /\ (rows df <> [] -> columns df' = columns df)
  /\ len df' <= len df.
Proof.
  intros _ H. apply filter_for_benchmarks_ok_rows in H.
  destruct H as [Hr Hc]. split; [exact Hr|]. split; [exact Hc|].
  unfold len. rewrite Hr. apply filter_length_le'.
Qed.

(** X3.  The same for the range filter. *)
Theorem filter_for_range_sub_batch (df df' : DataFrame Float)
    (name select_range : string) :
  filter_for_range df name select_range = Ok df' ->
  rows df' = filter (range_keep name select_range) (rows df)
  /\ (rows df <> [] -> columns df' = columns df)
  /\ len df' <= len df.
Proof.
  intros H. apply filter_for_range_ok_rows in H.
  destruct H as [Hr Hc]. split; [exact Hr|]. split; [exact Hc|].
  unfold len. rewrite Hr. apply filter_length_le'.
Qed.

(** X4.  The benchmark filter is idempotent on what it keeps: applied to
    its own result, when that has a row, with the same list of literal
    substrings, it returns that result unchanged.  (Applied to a result
    without rows it drops the columns.) *)
Theorem filter_for_benchmarks_idempotent (df df' : DataFrame Float)
    (rb : option string) :
  literal_patterns rb = true ->
  filter_for_benchmarks df rb = Ok df' ->
  rows df' <> [] ->
  filter_for_benchmarks df' rb = Ok df'.
Proof.
  intros _.
  destruct rb as [rb|]; [|now intros [= <-]].
  destruct (string_dec rb EmptyString) as [->|Hrb]; [now intros [= <-]|].
  rewrite !(filter_for_benchmarks_some _ rb Hrb).
  destruct (mapM check_pattern (PyStr.split "," rb)); [|discriminate].
  simpl. destruct (compile_search (PyStr.split "," rb)); [|discriminate].
  simpl. apply where_apply_again.
Qed.

(** X5.  The range filter is idempotent on what it keeps: applied to its
    own result, when that has a row, it returns that result unchanged. *)
Theorem filter_for_range_idempotent (df df' : DataFrame Float)
    (name select_range : string) :
  filter_for_range df name select_range = Ok df' ->
  rows df' <> [] ->
  filter_for_range df' name select_range = Ok df'.
Proof.
  unfold filter_for_range.
  destruct (PyStr.split "<" select_range) as [|a [|b [|c l]]];
    try (now intros [= <-]).
  destruct (range_bounds a b) as [[low high]|]; [|discriminate].
  destruct (negb (low <=? high)%Z); [discriminate|].
  apply where_apply_again.
Qed.

(** X6.  The two filters commute on the rows: when both orders of
    applying them return, for a list of literal substrings, they return
    the same rows, and the same batch when a row is left. *)
Theorem filters_commute (df d1 d12 d2 d21 : DataFrame Float)
    (rb : option string) (name select_range : string) :
  literal_patterns rb = true ->
  filter_for_benchmarks df rb = Ok d1 ->
  filter_for_range d1 name select_range = Ok d12 ->
  filter_for_range df name select_range = Ok d2 ->
  filter_for_benchmarks d2 rb = Ok d21 ->
  rows d12 = rows d21 /\ (rows d12 <> [] -> d12 = d21).
Proof.
  intros _ H1 H12 H2 H21.
  apply filter_for_benchmarks_ok_rows in H1, H21.
  apply filter_for_range_ok_rows in H12, H2.
  destruct H1 as [R1 C1], H21 as [R21 C21], H12 as [R12 C12], H2 as [R2 C2].
  assert (Hrows : rows d12 = rows d21).
  { rewrite R12, R1, R21, R2, !filter_filter. apply filter_ext.
    intros row. apply andb_comm. }
  split; [exact Hrows|]. intros Hne.
  assert (Hd1 : rows d1 <> []).
  { rewrite R12 in Hne. exact (filter_nonempty _ _ Hne). }
  assert (Hdf : rows df <> []).
  { rewrite R1 in Hd1. exact (filter_nonempty _ _ Hd1). }
  assert (Hd2 : rows d2 <> []).
  { rewrite Hrows, R21 in Hne. exact (filter_nonempty _ _ Hne). }
  apply frame_eq; [|exact Hrows].
  rewrite (C12 Hd1), (C1 Hdf), (C21 Hd2), (C2 Hdf). reflexivity.
Qed.

Lemma kept_by_benchmarks_app (l1 l2 : list string) (row : Row Float) :
  kept_by_benchmarks (l1 ++ l2) row
  = kept_by_benchmarks l1 row || kept_by_benchmarks l2 row.
Proof.
  unfold kept_by_benchmarks. destruct (benchmark_name row) as [name|];
    [|reflexivity].
  apply Bool.eq_iff_eq_true. rewrite orb_true_iff, !re_match_search.
  split.
  - intros [s [Hin Hs]]. apply in_app_or in Hin.
    destruct Hin; [left|right]; now exists s.
  - intros [[s [Hin Hs]]|[s [Hin Hs]]]; exists s; split; auto;
      apply in_or_app; auto.
Qed.

Lemma filter_for_benchmarks_ok_inv (df df' : DataFrame Float) (rb : string) :
  rb <> EmptyString ->
  filter_for_benchmarks df (Some rb) = Ok df' ->
  (exists units, mapM check_pattern (PyStr.split "," rb) = Ok units)
  /\ forallb literal_text (PyStr.split "," rb) = true
  /\ In "Benchmark" (columns df)
  /\ Forall (fun row => benchmark_name row <> None) (rows df).
Proof.
  intros Hrb H. rewrite (filter_for_benchmarks_some df rb Hrb) in H.
  destruct (mapM check_pattern (PyStr.split "," rb)) as [units|];
    [|discriminate].
  simpl in H. unfold compile_search in H.
  destruct (forallb literal_text (PyStr.split "," rb)); [|discriminate].
  simpl in H. apply where_apply_ok in H. destruct H as [Hcol [Hall _]].
  split; [now exists units|]. split; [reflexivity|]. split; [exact Hcol|].
  eapply Forall_impl; [|exact Hall]. intros row [c [b [Hc Hb]]].
  unfold benchmark_name. rewrite Hc. now destruct c.
Qed.

Lemma filter_for_benchmarks_ok_intro (df : DataFrame Float) (rb : string)
    (units : list unit) :
  rb <> EmptyString ->
  mapM check_pattern (PyStr.split "," rb) = Ok units ->
  forallb literal_text (PyStr.split "," rb) = true ->
  In "Benchmark" (columns df) ->
  Forall (fun row => benchmark_name row <> None) (rows df) ->
  filter_for_benchmarks df (Some rb)
  = Ok (kept_rows df (kept_by_benchmarks (PyStr.split "," rb))).
Proof.
  intros Hrb Hunits Hliteral Hcol Hnames.
  rewrite (filter_for_benchmarks_some df rb Hrb), Hunits. simpl.
  unfold compile_search. rewrite Hliteral. simpl.
  apply where_apply_filter; [exact Hcol|].
  intros row Hin. rewrite Forall_forall in Hnames.
  specialize (Hnames row Hin). unfold kept_by_benchmarks, benchmark_name in *.
  destruct (row_get "Benchmark" row) as [[z|f|name|b]|e]; try contradiction.
  now exists (CStr name).
Qed.

(** X7.  The substrings of a pattern list of literal text are
    alternatives: when the filter returns for the list [rb1] and for the
    list [rb2], neither with an operator of the pattern language in it, it
    returns for the two lists joined by a comma, and it keeps a row then
    exactly when it keeps the row for one of the two lists. *)
Theorem benchmark_patterns_are_alternatives (df d1 d2 : DataFrame Float)
    (rb1 rb2 : string) :
  rb1 <> EmptyString -> rb2 <> EmptyString ->
  literal_patterns (Some rb1) = true ->
  literal_patterns (Some rb2) = true ->
  filter_for_benchmarks df (Some rb1) = Ok d1 ->
  filter_for_benchmarks df (Some rb2) = Ok d2 ->
  exists d12,
    filter_for_benchmarks df (Some (rb1 ++ "," ++ rb2)%string) = Ok d12
    /\ literal_patterns (Some (rb1 ++ "," ++ rb2)%string) = true
    /\ rows d12
       = filter (fun row => benchmark_keep (Some rb1) row
                            || benchmark_keep (Some rb2) row) (rows df)
    /\ forall row, In row (rows d12)
                   <-> In row (rows d1) \/ In row (rows d2).
Proof.
  intros Hrb1 Hrb2 Hl1 Hl2 H1 H2. simpl in Hl1, Hl2.
  destruct (filter_for_benchmarks_ok_inv df d1 rb1 Hrb1 H1)
    as [[u1 Hu1] [_ [Hcol Hnames]]].
  destruct (filter_for_benchmarks_ok_inv df d2 rb2 Hrb2 H2)
    as [[u2 Hu2] _].
  apply filter_for_benchmarks_ok_rows in H1, H2.
  destruct H1 as [R1 _], H2 as [R2 _].
  assert (Hsplit : PyStr.split "," (rb1 ++ "," ++ rb2)
                   = PyStr.split "," rb1 ++ PyStr.split "," rb2).
  { exact (split_app "," rb1 rb2). }
  assert (Hne : (rb1 ++ "," ++ rb2)%string <> EmptyString).
  { destruct rb1; [contradiction|discriminate]. }
  assert (Hkeep : forall row : Row Float,
             kept_by_benchmarks (PyStr.split "," (rb1 ++ "," ++ rb2)) row
             = benchmark_keep (Some rb1) row || benchmark_keep (Some rb2) row).
  { intros row. rewrite Hsplit, kept_by_benchmarks_app.
    destruct rb1; [contradiction|]. destruct rb2; [contradiction|].
    reflexivity. }
  assert (Hlit : forallb literal_text (PyStr.split "," (rb1 ++ "," ++ rb2))
                 = true).
  { rewrite Hsplit, forallb_app, Hl1, Hl2. reflexivity. }
  assert (Hrows : rows (kept_rows df
                          (kept_by_benchmarks
                             (PyStr.split "," (rb1 ++ "," ++ rb2))))
                  = filter (fun row => benchmark_keep (Some rb1) row
                                       || benchmark_keep (Some rb2) row)
                      (rows df)).
  { rewrite (proj1 (kept_rows_rows df _)). apply filter_ext. exact Hkeep. }
  eexists. split; [|split; [exact Hlit|split]].
  - apply (filter_for_benchmarks_ok_intro df _ (u1 ++ u2) Hne).
    + now rewrite Hsplit, mapM_app, Hu1, Hu2.
    + exact Hlit.
    + exact Hcol.
    + exact Hnames.
  - exact Hrows.
  - intros row. rewrite Hrows, R1, R2, !filter_In, orb_true_iff. tauto.
Qed.

(** *** More on the grouping engine *)

Lemma row_get_raise (label : string) (row : Row Float) (e : Exn) :
  row_get label row = Raise e ->
  e = KeyError label /\ Dict.mem String.eqb label row = false.
Proof.
  unfold row_get, Dict.mem.
  destruct (Dict.get String.eqb label row); [discriminate|].
  now intros [= <-].
Qed.

Lemma mapM_raise {A B} (f : A -> Result B) (l : list A) (e : Exn) :
  mapM f l = Raise e -> exists a, In a l /\ f a = Raise e.
Proof.
  induction l as [|a l IH]; simpl; [discriminate|].
  destruct (f a) as [b|e'] eqn:E; simpl.
  - destruct (mapM f l); simpl; [discriminate|].
    intros [= ->]. destruct (IH eq_refl) as [x [Hx Hf]].
    exists x. auto.
  - intros [= ->]. exists a. auto.
Qed.

Lemma result_of_row_raise (label : string) (row : Row Float) (e : Exn) :
  result_of_row label row = Raise e ->
  exists l, In l [label; "Score"; "Score Error (99.9%)"]
            /\ e = KeyError l /\ Dict.mem String.eqb l row = false.
Proof.
  unfold result_of_row.
  destruct (row_get label row) eqn:E1; simpl.
  - destruct (row_get "Score" row) eqn:E2; simpl.
    + destruct (row_get "Score Error (99.9%)" row) eqn:E3; simpl;
        [discriminate|].
      intros [= ->]. apply row_get_raise in E3.
      exists "Score Error (99.9%)". simpl. tauto.
    + intros [= ->]. apply row_get_raise in E2. exists "Score". simpl. tauto.
  - intros [= ->]. apply row_get_raise in E1. exists label. simpl. tauto.
Qed.

Lemma add_row_raise (params : BMParams) (rs : ResultSets Float)
    (row : Row Float) (e : Exn) :
  add_row params rs row = Raise e ->
  exists label,
    e = KeyError label /\ In label (grouping_columns params)
    /\ Dict.mem String.eqb label row = false.
Proof.
  unfold add_row, grouping_columns.
  destruct (tuple_of_secondary_values params row) as [k|e1] eqn:E1; simpl.
  - destruct (row_get "Benchmark" row) as [b|e2] eqn:E2; simpl.
    + rewrite append_points_eq.
      destruct (mapM (fun entry => result_of_row (snd entry) row)
                  (primary params)) as [points|e3] eqn:E3; simpl;
        [discriminate|].
      intros [= ->]. apply mapM_raise in E3. destruct E3 as [x [Hx Hr]].
      apply result_of_row_raise in Hr. destruct Hr as [l [Hl [-> Hmem]]].
      exists l. repeat split; auto.
      destruct Hl as [<-|[<-|[<-|[]]]]; simpl; auto.
      right. right. right. apply in_or_app. left. now apply in_map.
    + intros [= ->]. apply row_get_raise in E2. destruct E2 as [-> Hmem].
      exists "Benchmark". simpl. auto.
  - intros [= ->]. unfold tuple_of_secondary_values in E1.
    apply mapM_raise in E1. destruct E1 as [x [Hx Hr]].
    apply row_get_raise in Hr. destruct Hr as [-> Hmem].
    exists (snd x). repeat split; auto. simpl.
    right. right. right. apply in_or_app. right. now apply in_map.
Qed.

(** X8.  The grouping engine raises nothing but [KeyError]: when it does
    not return, some row of the batch has no value under one of the
    columns the grouping reads, and the exception names that column. *)
Theorem grouping_raises_key_error_only (df : DataFrame Float)
    (params : BMParams) (e : Exn) :
  extract_results_per_param df params = Raise e ->
  exists label row,
    e = KeyError label
    /\ In label (grouping_columns params)
    /\ In row (rows df)
    /\ Dict.mem String.eqb label row = false.
Proof.
  unfold extract_results_per_param. generalize (@nil (list (Cell Float)
                                                     * ResultSet Float)).
  induction (rows df) as [|row l IH]; intros rs0; simpl; [discriminate|].
  destruct (add_row params rs0 row) as [rs1|e1] eqn:E1; simpl.
  - intros H. destruct (IH rs1 H) as [label [r [He [Hl [Hr Hm]]]]].
    exists label, r. auto.
  - intros [= ->]. apply add_row_raise in E1.
    destruct E1 as [label [He [Hl Hm]]]. exists label, row. auto.
Qed.

Lemma mem_existsb {K V} (eqb : K -> K -> bool)
    (eqb_eq : forall a b, eqb a b = true <-> a = b) (k : K)
    (d : list (K * V)) :
  Dict.mem eqb k d = existsb (eqb k) (Dict.keys d).
Proof.
  apply Bool.eq_iff_eq_true. rewrite (mem_keys eqb eqb_eq), existsb_exists.
  split.
  - intros H. exists k. split; [exact H|now apply eqb_eq].
  - intros [x [Hx E]]. apply eqb_eq in E. now subst x.
Qed.

(** Adding an element that is new to [acc], or none when it is not, and
    then the first appearances of the rest. *)
Lemma first_seen_step {A} (eqb : A -> A -> bool)
    (eqb_eq : forall a b, eqb a b = true <-> a = b)
    (acc : list A) (x : A) (rest : list A) :
  let acc' := if existsb (eqb x) acc then acc else acc ++ [x] in
  acc' ++ filter (fun y => negb (existsb (eqb y) acc')) (first_seen eqb rest)
  = acc ++ filter (fun y => negb (existsb (eqb y) acc))
             (first_seen eqb (x :: rest)).
Proof.
  simpl. destruct (existsb (eqb x) acc) eqn:E; simpl.
  - f_equal. rewrite filter_filter. apply filter_ext. intros y.
    destruct (eqb y x) eqn:Ey; simpl; [|reflexivity].
    apply eqb_eq in Ey. subst y. now rewrite E.
  - rewrite <- app_assoc. simpl. f_equal. f_equal.
    rewrite filter_filter. apply filter_ext. intros y.
    rewrite existsb_app. simpl. rewrite orb_false_r, negb_orb.
    apply andb_comm.
Qed.









Lemma in_get_NoDup {K V} (eqb : K -> K -> bool)
    (eqb_eq : forall a b, eqb a b = true <-> a = b) (k : K) (v : V)
    (d : list (K * V)) :
  NoDup (Dict.keys d) -> In (k, v) d -> Dict.get eqb k d = Some v.
Proof.
  induction d as [|[k0 v0] d IH]; simpl; intros Hnd Hin; [contradiction|].
  inversion Hnd as [|x l Hnot Hnd']; subst.
  destruct Hin as [[= -> ->]|Hin].
  - now rewrite (eqb_refl_of eqb eqb_eq).
  - destruct (eqb k k0) eqn:E; [|now apply IH].
    apply eqb_eq in E. subst k0. exfalso. apply Hnot.
    change k with (fst (k, v)). now apply in_map.
Qed.

(** X10.  With a primary parameter, as [split_params] always gives one, a
    grouping has no empty part: every group has a bucket and every bucket
    has a point. *)
Theorem grouping_has_no_empty_part (df : DataFrame Float)
    (params : BMParams) (rs : ResultSets Float) :
  primary params <> [] ->
  extract_results_per_param df params = Ok rs ->
  forall k g,
    In (k, g) rs ->
    g <> []
    /\ forall b points, In (b, points) g -> points <> [].
Proof.
  intros Hprimary H k g Hin.
  pose proof (foldM_add_row_bucket params (rows df) [] rs H) as Hbucket.
  destruct (foldM_add_row_shape params (rows df) [] rs H)
    as [Hkeys [Hbench [Hnodup _]]].
  destruct Hnodup as [Hnodup Hnodups]; [constructor|intros; constructor|].
  assert (Hg : item key_eqb k rs = g).
  { unfold item. now rewrite (in_get_NoDup key_eqb key_eqb_eq k g rs). }
  assert (Hrow : forall b, In b (Dict.keys g) -> bucket k b rs <> []).
  { intros b Hb. rewrite <- Hg in Hb. apply Hbench in Hb.
    destruct Hb as [[]|[row [Hr [Hk Hb]]]].
    assert (Hview : exists rs0 rs1, add_row params rs0 row = Ok rs1).
    { clear - H Hr. unfold extract_results_per_param in H.
      revert H. generalize (@nil (list (Cell Float) * ResultSet Float)).
      induction (rows df) as [|r l IH]; intros rs0 H; [contradiction|].
      simpl in H. destruct (add_row params rs0 r) as [rs1|] eqn:E;
        [|discriminate].
      destruct Hr as [->|Hr]; [now exists rs0, rs1|].
      exact (IH Hr rs1 H). }
    destruct Hview as [rs0 [rs1 Hadd]]. apply add_row_inv in Hadd.
    destruct Hadd as [k' [b' [points [Hk' [Hb' [Hp _]]]]]].
    rewrite Hbucket. simpl. intros Hnil.
    assert (Hin' : In row (filter (row_in_bucket params k b) (rows df))).
    { apply filter_In. split; [exact Hr|].
      rewrite (row_in_bucket_view params row k b k b Hk Hb).
      rewrite (eqb_refl_of key_eqb key_eqb_eq).
      now rewrite (eqb_refl_of cell_eqb cell_eqb_eq). }
    assert (Hpoints : points_of_row params row <> []).
    { rewrite (points_of_row_view params row points Hp).
      apply mapM_length in Hp. destruct (primary params); [contradiction|].
      destruct points; [discriminate|discriminate]. }
    destruct (points_of_row params row) as [|p ps] eqn:Ep;
      [contradiction|].
    assert (Hp' : In p (flat_map (points_of_row params)
                          (filter (row_in_bucket params k b) (rows df)))).
    { apply in_flat_map. exists row. split; [exact Hin'|].
      rewrite Ep. now left. }
    rewrite Hnil in Hp'. contradiction. }
  split.
  - assert (Hk : In k (Dict.keys rs)).
    { change k with (fst (k, g)). now apply in_map. }
    apply Hkeys in Hk. destruct Hk as [[]|[row [Hr Hk]]].
    assert (Hb : exists b, row_get "Benchmark" row = Ok b).
    { clear - H Hr. unfold extract_results_per_param in H.
      revert H. generalize (@nil (list (Cell Float) * ResultSet Float)).
      induction (rows df) as [|r l IH]; intros rs0 H; [contradiction|].
      simpl in H. destruct (add_row params rs0 r) as [rs1|] eqn:E;
        [|discriminate].
      destruct Hr as [->|Hr]; [|exact (IH Hr rs1 H)].
      apply add_row_inv in E. destruct E as [_ [b [_ [_ [Hb _]]]]].
      now exists b. }
    destruct Hb as [b Hb].
    assert (Hbk : In b (Dict.keys (item key_eqb k rs))).
    { apply Hbench. right. now exists row. }
    rewrite Hg in Hbk. intros ->. contradiction.
  - intros b points Hbp.
    assert (Hb : In b (Dict.keys g)).
    { change b with (fst (b, points)). now apply in_map. }
    specialize (Hrow b Hb). unfold bucket in Hrow. rewrite Hg in Hrow.
    unfold item in Hrow.
    rewrite (in_get_NoDup cell_eqb cell_eqb_eq b points g) in Hrow; auto.
    rewrite <- Hg. apply Hnodups.
Qed.

(** *** More on the loader *)

Lemma load_file_some (normalized : option (DataFrame Float)) (file : string)
    (r : option (DataFrame Float)) :
  load_file normalized file = Ok r -> r <> None.
Proof.
  unfold load_file. destruct (library (read_csv file)); [|discriminate].
  simpl. destruct (shorten_benchmarks _); [|discriminate]. simpl.
  destruct normalized as [n|].
  - destruct (library (pd_merge n a0)); [|discriminate]. simpl.
    now intros [= <-].
  - now intros [= <-].
Qed.

Lemma foldM_load_file_some (files : list string)
    (normalized r : option (DataFrame Float)) :
  foldM load_file files normalized = Ok r ->
  (files <> [] \/ normalized <> None) -> r <> None.
Proof.
  revert normalized. induction files as [|f files IH]; intros n H Hor.
  - simpl in H. injection H as <-. destruct Hor; [contradiction|assumption].
  - simpl in H. destruct (load_file n f) as [n'|] eqn:E; [|discriminate].
    simpl in H. apply (IH n' H). right. exact (load_file_some n f n' E).
Qed.

Lemma normalize_raises_inv (path : string) (m : Message) :
  normalize_data_frame_from_path path = Raise (BenchmarkError m) ->
  m = NoInputFiles path
  /\ is_dir path = true /\ sorted_rglob_csv path = [].
Proof.
  unfold normalize_data_frame_from_path.
  set (files := if is_dir path then sorted_rglob_csv path else [path]).
  pose proof (foldM_no_benchmark_error load_file files
                load_file_no_benchmark_error None) as Hno.
  pose proof (foldM_load_file_some files None) as Hsome.
  destruct (foldM load_file files None) as [[d|]|e]; simpl;
    [discriminate| |intros [= ->]; discriminate].
  intros [= <-]. split; [reflexivity|].
  unfold files in Hsome. destruct (is_dir path).
  - destruct (sorted_rglob_csv path); [auto|].
    exfalso. apply (Hsome None eq_refl); [left; discriminate|reflexivity].
  - exfalso. apply (Hsome None eq_refl); [left; discriminate|reflexivity].
Qed.

(** X11.  The loader raises a [BenchmarkError] exactly for a directory in
    which it finds no [.csv] file, and then with the message for missing
    input files; whatever else goes wrong while loading is an exception of
    another kind. *)
Theorem loader_no_input_files (path : string) :
  (is_benchmark_error (normalize_data_frame_from_path path) = true
   <-> is_dir path = true /\ sorted_rglob_csv path = [])
  /\ (is_benchmark_error (normalize_data_frame_from_path path) = true ->
      normalize_data_frame_from_path path
      = Raise (BenchmarkError (NoInputFiles path))).
Proof.
  unfold normalize_data_frame_from_path.
  set (files := if is_dir path then sorted_rglob_csv path else [path]).
  pose proof (foldM_no_benchmark_error load_file files
                load_file_no_benchmark_error None) as Hno.
  pose proof (foldM_load_file_some files None) as Hsome.
  destruct (foldM load_file files None) as [[d|]|e] eqn:E; simpl.
  - split; [|discriminate]. split; [discriminate|]. intros [Hdir Hnil].
    unfold files in E. rewrite Hdir, Hnil in E. discriminate.
  - split; [|reflexivity]. split; [|reflexivity]. intros _.
    unfold files in *. destruct (is_dir path).
    + destruct (sorted_rglob_csv path); [auto|].
      exfalso. apply (Hsome None eq_refl); [left; discriminate|reflexivity].
    + exfalso. apply (Hsome None eq_refl); [left; discriminate|reflexivity].
  - simpl in Hno. rewrite Hno. split; [|discriminate].
    split; [discriminate|]. intros [Hdir Hnil].
    unfold files in E. rewrite Hdir, Hnil in E. discriminate.
Qed.

Lemma split_pieces_no_sep (sep : ascii) (s : string) :
  Forall (fun piece => PyStr.count sep piece = 0) (PyStr.split sep s).
Proof.
  induction s as [|c s IH]; simpl.
  - repeat constructor.
  - destruct (Ascii.eqb c sep) eqn:E.
    + constructor; [reflexivity|exact IH].
    + destruct (PyStr.split sep s) as [|p ps]; simpl.
      * repeat constructor. simpl. now rewrite E.
      * inversion IH; subst. constructor; [|assumption].
        simpl. now rewrite E.
Qed.

Lemma last_piece_no_sep (sep : ascii) (s : string) :
  PyStr.count sep (PyStr.last_piece sep s) = 0.
Proof.
  unfold PyStr.last_piece.
  pose proof (split_pieces_no_sep sep s) as H.
  induction H as [|p l Hp Hl IH]; simpl; [reflexivity|].
  destruct l; [exact Hp|exact IH].
Qed.

Lemma split_no_sep (sep : ascii) (s : string) :
  PyStr.count sep s = 0 -> PyStr.split sep s = [s].
Proof.
  induction s as [|c s IH]; simpl; [reflexivity|].
  destruct (Ascii.eqb c sep); [discriminate|].
  simpl. intros H. now rewrite (IH H).
Qed.

Lemma stride_incl {A} (step : nat) (l : list A) :
  forall countdown a, In a (stride step countdown l) -> In a l.
Proof.
  induction l as [|x l IH]; intros countdown a; simpl; [tauto|].
  destruct countdown as [|c]; simpl.
  - intros [->|H]; [now left|right; exact (IH _ _ H)].
  - intros H. right. exact (IH _ _ H).
Qed.

Lemma shorten_benchmark_ok (row : Row Float) (name : string) :
  benchmark_name row = Some name ->
  shorten_benchmark row
  = Ok (Dict.set String.eqb "Benchmark"
          (CStr (PyStr.last_piece "." name)) row).
Proof.
  unfold benchmark_name, shorten_benchmark.
  destruct (row_get "Benchmark" row) as [[z|f|s|b]|e]; try discriminate.
  now intros [= ->].
Qed.

(** X12.  Loading one file whose [Benchmark] column holds strings: the
    batch has the columns of the file and the rows at the positions
    0, 9, 18, ...; in each of them the benchmark name is the part of the
    name after its last dot, which has no dot in it, and every other value
    is the value of the file. *)
Theorem loader_single_file (path : string) (df : DataFrame Float) :
  is_dir path = false ->
  read_csv path = Some df ->
  In "Benchmark" (columns df) ->
  Forall (fun row => benchmark_name row <> None) (rows df) ->
  exists d,
    normalize_data_frame_from_path path = Ok d
    /\ columns d = columns df
    /\ len d = (len df + 8) / 9
    /\ forall i row,
         nth_error (rows d) i = Some row ->
         exists src name,
           nth_error (rows df) (9 * i) = Some src
           /\ benchmark_name src = Some name
           /\ benchmark_name row = Some (PyStr.last_piece "." name)
           /\ PyStr.count "." (PyStr.last_piece "." name) = 0
           /\ forall label, label <> "Benchmark" ->
                Dict.get String.eqb label row = Dict.get String.eqb label src.
Proof.
  intros Hdir Hread Hcol Hnames.
  assert (Hall : forall row, In row (rows (iloc_step 9 df)) ->
                   exists b, shorten_benchmark row = Ok b).
  { intros row Hin. apply stride_incl in Hin.
    rewrite Forall_forall in Hnames. specialize (Hnames row Hin).
    destruct (benchmark_name row) as [name|] eqn:E; [|contradiction].
    rewrite (shorten_benchmark_ok row name E). eauto. }
  destruct (mapM_total shorten_benchmark _ Hall) as [rs Hrs].
  assert (Hload : normalize_data_frame_from_path path
                  = Ok {| columns := columns df; rows := rs |}).
  { unfold normalize_data_frame_from_path. rewrite Hdir. simpl.
    unfold load_file. rewrite Hread. simpl.
    unfold shorten_benchmarks. simpl columns.
    apply existsb_eqb_In in Hcol. rewrite Hcol, Hrs. reflexivity. }
  exists {| columns := columns df; rows := rs |}.
  split; [exact Hload|]. split; [reflexivity|]. split.
  - unfold len. cbn [rows]. rewrite (mapM_length _ _ _ Hrs).
    unfold iloc_step. cbn [rows].
    rewrite stride_length by lia. f_equal. lia.
  - cbn [rows]. intros i row Hi. apply mapM_ok_inv in Hrs.
    destruct (Forall2_nth_error _ _ _ Hrs i row Hi) as [src [Hsrc Hshort]].
    simpl in Hsrc. rewrite stride_nth in Hsrc by lia.
    assert (Hin : In src (rows df)) by (eapply nth_error_In; eauto).
    rewrite Forall_forall in Hnames. specialize (Hnames src Hin).
    destruct (benchmark_name src) as [name|] eqn:E; [|contradiction].
    rewrite (shorten_benchmark_ok src name E) in Hshort.
    injection Hshort as <-.
    exists src, name. split; [rewrite <- Hsrc; f_equal; lia|].
    split; [exact E|]. split; [|split].
    + unfold benchmark_name, row_get.
      rewrite (get_set String.eqb String.eqb_eq). reflexivity.
    + apply last_piece_no_sep.
    + intros label Hlabel. rewrite (get_set String.eqb String.eqb_eq).
      destruct (String.eqb label "Benchmark") eqn:El; [|reflexivity].
      apply String.eqb_eq in El. contradiction.
Qed.

(** *** More on the driver *)

Lemma filter_for_benchmarks_raises_inv (df : DataFrame Float)
    (rb : option string) (m : Message) :
  filter_for_benchmarks df rb = Raise (BenchmarkError m) ->
  exists report_benchmarks s,
    rb = Some report_benchmarks
    /\ m = InvalidBenchmarkPattern s
    /\ In s (PyStr.split "," report_benchmarks)
    /\ check_pattern s <> Ok tt.
Proof.
  destruct rb as [rb|]; [|discriminate].
  destruct (string_dec rb EmptyString) as [->|Hrb]; [discriminate|].
  rewrite (filter_for_benchmarks_some df rb Hrb). intros H.
  destruct (check_patterns (PyStr.split "," rb))
    as [[units [Hunits _]]|[passed [s [rest [Hsplit [_ [Hbad Hraise]]]]]]].
  - rewrite Hunits in H. simpl in H.
    pose proof (search_no_benchmark_error df (PyStr.split "," rb)) as Hno.
    rewrite H in Hno. discriminate.
  - rewrite Hraise in H. simpl in H. injection H as <-.
    exists rb, s. repeat split; auto.
    rewrite Hsplit. apply in_or_app. right. now left.
Qed.

Lemma filter_for_range_raises_inv (df : DataFrame Float)
    (name select_range : string) (m : Message) :
  filter_for_range df name select_range = Raise (BenchmarkError m) ->
  m = InvalidRange (PyStr.split "<" select_range)
  /\ PyStr.count "<" select_range = 1.
Proof.
  unfold filter_for_range. intros H.
  assert (Hcount : forall a b,
             PyStr.split "<" select_range = [a; b] ->
             PyStr.count "<" select_range = 1).
  { intros a b Hab. apply split_two_iff. now exists a, b. }
  destruct (PyStr.split "<" select_range) as [|a [|b [|c l]]];
    try discriminate.
  specialize (Hcount a b eq_refl).
  destruct (range_bounds a b) as [[low high]|];
    [|now injection H as <-].
  destruct (negb (low <=? high)%Z); [now injection H as <-|].
  pose proof (where_apply_no_benchmark_error df ("Param: " ++ name)
                (fun x => v <- cell_int x ;;
                          Ok ((low <=? v)%Z && (v <=? high)%Z))
                (in_range_no_benchmark_error low high)) as Hno.
  rewrite H in Hno. discriminate.
Qed.

Lemma grouping_stage_raises_inv (stringpath name : string)
    (rb : option string) (df : DataFrame Float) (m : Message) :
  grouping_stage stringpath name rb df = Raise (BenchmarkError m) ->
  m = MissingPrimaryParameter name (extract_params df)
  /\ ~ In name (Dict.keys (extract_params df)).
Proof.
  unfold grouping_stage, split_params.
  destruct (Dict.get String.eqb name (extract_params df)) eqn:E; simpl.
  - intros H.
    assert (Hno : is_benchmark_error
                    (Raise (A := unit) (BenchmarkError m)) = false).
    { rewrite <- H. apply bind_no_benchmark_error.
      - apply foldM_no_benchmark_error, add_row_no_benchmark_error.
      - intros rs. apply library_no_benchmark_error. }
    discriminate.
  - intros [= <-]. split; [reflexivity|].
    now apply (get_none_keys String.eqb String.eqb_eq).
Qed.

Lemma process_benchmarks_stages (stringpath name : string)
    (rb : option string) (sr : string) :
  process_benchmarks stringpath name rb sr
  = if negb (path_exists (pathlib.Path stringpath))
    then Raise (BenchmarkError (PathDoesNotExist (pathlib.Path stringpath)))
    else
      d0 <- normalize_data_frame_from_path (pathlib.Path stringpath) ;;
      if (len d0 =? 0)%nat
      then Raise (BenchmarkError (EmptyAfterLoad stringpath))
      else
        d1 <- filter_for_benchmarks d0 rb ;;
        if (len d1 =? 0)%nat
        then Raise (BenchmarkError (EmptyAfterBenchmarks rb))
        else
          d2 <- filter_for_range d1 name sr ;;
          if (len d2 =? 0)%nat
          then Raise (BenchmarkError (EmptyAfterRange sr))
          else grouping_stage (pathlib.Path stringpath) name rb d2.
Proof. reflexivity. Qed.

(** X13.  The errors of the driver in their order.  A [BenchmarkError] of
    the driver is one of eight, each raised only after every check before
    it has passed: the path does not exist; the directory has no file; the
    loaded batch is empty; a substring of the pattern list is rejected;
    the batch is empty after the benchmark filter; the range is not valid;
    the batch is empty after the range filter; the primary parameter is
    no parameter of the batch.  So the pattern list and the range are not
    looked at before the files are read, and a bad pattern hides a bad
    range.  The first two messages show the path as [pathlib.Path] writes
    it, the third shows the argument as it was given. *)
Theorem driver_errors_in_order (stringpath name : string)
    (rb : option string) (sr : string) (m : Message) :
  process_benchmarks stringpath name rb sr = Raise (BenchmarkError m) ->
  (m = PathDoesNotExist (pathlib.Path stringpath) /\ path_exists (pathlib.Path stringpath) = false)
  \/ (path_exists (pathlib.Path stringpath) = true
      /\ ((m = NoInputFiles (pathlib.Path stringpath)
           /\ is_dir (pathlib.Path stringpath) = true /\ sorted_rglob_csv (pathlib.Path stringpath) = [])
          \/ exists d0,
               normalize_data_frame_from_path (pathlib.Path stringpath) = Ok d0
               /\ ((m = EmptyAfterLoad stringpath /\ len d0 = 0)
                   \/ (len d0 <> 0
                       /\ ((exists report_benchmarks s,
                              rb = Some report_benchmarks
                              /\ m = InvalidBenchmarkPattern s
                              /\ In s (PyStr.split "," report_benchmarks)
                              /\ check_pattern s <> Ok tt)
                           \/ exists d1,
                                filter_for_benchmarks d0 rb = Ok d1
                                /\ ((m = EmptyAfterBenchmarks rb
                                     /\ len d1 = 0)
                                    \/ (len d1 <> 0
                                        /\ ((m = InvalidRange
                                                   (PyStr.split "<" sr)
                                             /\ PyStr.count "<" sr = 1)
                                            \/ exists d2,
                                                 filter_for_range d1 name sr
                                                 = Ok d2
                                                 /\ ((m = EmptyAfterRange sr
                                                      /\ len d2 = 0)
                                                     \/ (len d2 <> 0
                                                         /\ m = MissingPrimaryParameter
                                                                  name
                                                                  (extract_params d2)
                                                         /\ ~ In name
                                                              (Dict.keys
                                                                 (extract_params d2)))))))))))).
Proof.
  rewrite process_benchmarks_stages.
  destruct (path_exists (pathlib.Path stringpath)); simpl;
    [|intros [= <-]; left; auto].
  intros H. right. split; [reflexivity|].
  destruct (normalize_data_frame_from_path (pathlib.Path stringpath)) as [d0|e0] eqn:E0;
    simpl in H.
  2:{ injection H as ->. left. exact (normalize_raises_inv _ _ E0). }
  right. exists d0. split; [reflexivity|].
  destruct (len d0 =? 0)%nat eqn:L0;
    [apply Nat.eqb_eq in L0; injection H as <-; left; auto|].
  apply Nat.eqb_neq in L0. right. split; [exact L0|].
  destruct (filter_for_benchmarks d0 rb) as [d1|e1] eqn:E1; simpl in H.
  2:{ injection H as ->. left.
      exact (filter_for_benchmarks_raises_inv _ _ _ E1). }
  right. exists d1. split; [reflexivity|].
  destruct (len d1 =? 0)%nat eqn:L1;
    [apply Nat.eqb_eq in L1; injection H as <-; left; auto|].
  apply Nat.eqb_neq in L1. right. split; [exact L1|].
  destruct (filter_for_range d1 name sr) as [d2|e2] eqn:E2; simpl in H.
  2:{ injection H as ->. left.
      exact (filter_for_range_raises_inv _ _ _ _ E2). }
  right. exists d2. split; [reflexivity|].
  destruct (len d2 =? 0)%nat eqn:L2;
    [apply Nat.eqb_eq in L2; injection H as <-; left; auto|].
  apply Nat.eqb_neq in L2. right. split; [exact L2|].
  exact (grouping_stage_raises_inv _ _ _ _ _ H).
Qed.

Lemma keys_extract_param_grow (cols : list string) (params : Params)
    (name : string) :
  In name (Dict.keys params)
  \/ (exists column, In column cols /\ param_name column = Some name) ->
  In name (Dict.keys (fold_left extract_param cols params)).
Proof.
  revert params. induction cols as [|c cols IH]; intros params H; simpl.
  - destruct H as [H|[c [[] _]]]. exact H.
  - apply IH. rewrite extract_param_eq.
    destruct H as [H|[c' [[<-|Hin] Hc']]].
    + left. destruct (param_name c) as [n|]; [|exact H].
      rewrite keys_set. destruct (Dict.mem String.eqb n params);
        [exact H|apply in_or_app; now left].
    + left. rewrite Hc', keys_set.
      destruct (Dict.mem String.eqb name params) eqn:E.
      * now apply (mem_keys String.eqb String.eqb_eq).
      * apply in_or_app. right. now left.
    + right. now exists c'.
Qed.

Lemma param_name_of_label (name : string) :
  PyStr.count ":" name = 0 ->
  param_name ("Param: " ++ name) = Some (PyStr.strip name).
Proof.
  intros Hcount. unfold param_name.
  change ("Param: " ++ name)%string
    with ("Param" ++ String ":" (String " " name))%string.
  rewrite split_app.
  rewrite (split_no_sep ":" (String " " name)) by exact Hcount.
  reflexivity.
Qed.

(** X14.  With a range that has exactly one [<], the driver never reports
    the primary parameter as missing, unless the name has a colon in it or
    white space at an end: the range filter reads the column
    [Param: <name>] first, and where that column is absent the filter
    raises [KeyError]. *)
Theorem missing_parameter_needs_no_range (stringpath name : string)
    (rb : option string) (sr : string) (params : Params) :
  process_benchmarks stringpath name rb sr
  = Raise (BenchmarkError (MissingPrimaryParameter name params)) ->
  PyStr.count "<" sr <> 1
  \/ PyStr.count ":" name <> 0
  \/ PyStr.strip name <> name.
Proof.
  rewrite process_benchmarks_stages.
  destruct (negb (path_exists (pathlib.Path stringpath))); [discriminate|].
  destruct (normalize_data_frame_from_path (pathlib.Path stringpath)) as [d0|e0] eqn:E0;
    simpl.
  2:{ intros [= ->]. apply normalize_raises_inv in E0.
      destruct E0 as [E0 _]. discriminate. }
  destruct (len d0 =? 0)%nat; [discriminate|].
  destruct (filter_for_benchmarks d0 rb) as [d1|e1] eqn:E1; simpl.
  2:{ intros [= ->]. apply filter_for_benchmarks_raises_inv in E1.
      destruct E1 as [x [s [_ [E1 _]]]]. discriminate. }
  destruct (len d1 =? 0)%nat eqn:L1; [discriminate|].
  destruct (filter_for_range d1 name sr) as [d2|e2] eqn:E2; simpl.
  2:{ intros [= ->]. apply filter_for_range_raises_inv in E2.
      destruct E2 as [E2 _]. discriminate. }
  destruct (len d2 =? 0)%nat; [discriminate|].
  intros H. apply grouping_stage_raises_inv in H. destruct H as [_ Hnot].
  destruct (Nat.eq_dec (PyStr.count "<" sr) 1) as [Hone|]; [|auto].
  destruct (Nat.eq_dec (PyStr.count ":" name) 0) as [Hcolon|]; [|auto].
  destruct (string_dec (PyStr.strip name) name) as [Hstrip|]; [|auto].
  exfalso. apply Hnot. unfold extract_params.
  apply keys_extract_param_grow. right.
  exists ("Param: " ++ name)%string. split.
  - apply split_two_iff in Hone. destruct Hone as [a [b Hab]].
    unfold filter_for_range in E2. rewrite Hab in E2.
    destruct (range_bounds a b) as [[low high]|]; [|discriminate].
    destruct (negb (low <=? high)%Z); [discriminate|].
    apply where_apply_ok in E2. destruct E2 as [Hin [_ ->]].
    unfold kept_rows. unfold len in L1.
    destruct (rows d1); [discriminate L1|]. exact Hin.
  - rewrite (param_name_of_label name Hcolon). now rewrite Hstrip.
Qed.

Lemma foldM_add_row_points (params : BMParams) (l : list (Row Float)) :
  forall rs0 rs,
    foldM (add_row params) l rs0 = Ok rs ->
    forall row, In row l ->
      List.length (points_of_row params row) = List.length (primary params).
Proof.
  induction l as [|r l IH]; intros rs0 rs H row Hin; [contradiction|].
  simpl in H. destruct (add_row params rs0 r) as [rs1|] eqn:E;
    [|discriminate].
  destruct Hin as [->|Hin]; [|exact (IH rs1 rs H row Hin)].
  apply add_row_inv in E. destruct E as [k [b [points [_ [_ [Hp _]]]]]].
  rewrite (points_of_row_view params row points Hp).
  exact (mapM_length _ _ _ Hp).
Qed.

(** X15.  When the driver returns, the path exists, the three checks have
    passed, and the renderer has been given the split of the parameters
    of the filtered batch and the grouping of that batch; the grouping
    has a point for every row of the batch and at least one group, and
    the batch is not longer than the batch that was loaded. *)
Theorem driver_success (stringpath name : string) (rb : option string)
    (sr : string) :
  process_benchmarks stringpath name rb sr = Ok tt ->
  path_exists (pathlib.Path stringpath) = true
  /\ exists d0 d1 d2 params after rs,
       normalize_data_frame_from_path (pathlib.Path stringpath) = Ok d0
       /\ filter_for_benchmarks d0 rb = Ok d1
       /\ filter_for_range d1 name sr = Ok d2
       /\ 0 < len d2 /\ len d2 <= len d1 /\ len d1 <= len d0
       /\ split_params (extract_params d2) name = Ok (params, after)
       /\ extract_results_per_param d2 params = Ok rs
       /\ plot_all_results params rs (pathlib.Path stringpath) rb = Some tt
       /\ total_points rs = len d2
       /\ rs <> [].
Proof.
  rewrite process_benchmarks_stages.
  destruct (path_exists (pathlib.Path stringpath)); [|discriminate]. simpl.
  destruct (normalize_data_frame_from_path (pathlib.Path stringpath)) as [d0|];
    [|discriminate]. simpl.
  destruct (len d0 =? 0)%nat; [discriminate|].
  destruct (filter_for_benchmarks d0 rb) as [d1|] eqn:E1; [|discriminate].
  simpl. destruct (len d1 =? 0)%nat; [discriminate|].
  destruct (filter_for_range d1 name sr) as [d2|] eqn:E2; [|discriminate].
  simpl. destruct (len d2 =? 0)%nat eqn:L2; [discriminate|].
  apply Nat.eqb_neq in L2. unfold grouping_stage.
  destruct (split_params (extract_params d2) name) as [[params after]|]
    eqn:Es; [|discriminate]. simpl.
  destruct (extract_results_per_param d2 params) as [rs|] eqn:Er;
    [|discriminate]. simpl.
  destruct (plot_all_results params rs (pathlib.Path stringpath) rb) as [[]|] eqn:Ep;
    [|discriminate].
  intros _. split; [reflexivity|].
  exists d0, d1, d2, params, after, rs.
  assert (Hone : List.length (primary params) = 1).
  { unfold split_params in Es.
    destruct (Dict.get String.eqb name (extract_params d2)); [|discriminate].
    now injection Es as <- _. }
  assert (Htotal : total_points rs = len d2).
  { destruct (foldM_add_row_shape params (rows d2) [] rs Er)
      as [_ [_ [_ Htotal]]].
    rewrite Htotal. simpl. apply list_sum_ones. intros row Hin.
    rewrite (foldM_add_row_points params (rows d2) [] rs Er row Hin).
    exact Hone. }
  repeat split; auto.
  - lia.
  - apply filter_for_range_ok_rows in E2. destruct E2 as [E2 _].
    unfold len. rewrite E2. apply filter_length_le'.
  - apply filter_for_benchmarks_ok_rows in E1. destruct E1 as [E1 _].
    unfold len. rewrite E1. apply filter_length_le'.
  - intros ->. unfold len, total_points in *. simpl in Htotal. lia.
Qed.

Lemma keys_del {V} (name : string) (d : list (string * V)) :
  Dict.keys (Dict.del String.eqb name d)
  = filter (fun k => negb (String.eqb k name)) (Dict.keys d).
Proof.
  induction d as [|[k v] d IH]; simpl; [reflexivity|].
  rewrite String.eqb_sym.
  destruct (String.eqb k name); simpl; now rewrite IH.
Qed.

Lemma keys_extract_params_from (cols : list string) (params : Params) :
  Dict.keys (fold_left extract_param cols params)
  = Dict.keys params
      ++ filter (fun n => negb (existsb (String.eqb n) (Dict.keys params)))
           (first_seen String.eqb (param_names cols)).
Proof.
  revert params. induction cols as [|c cols IH]; intros params; simpl.
  - now rewrite app_nil_r.
  - rewrite IH, extract_param_eq. unfold param_names. simpl.
    destruct (param_name c) as [n|]; simpl app; [|reflexivity].
    rewrite keys_set, (mem_existsb String.eqb String.eqb_eq).
    exact (first_seen_step String.eqb String.eqb_eq (Dict.keys params) n _).
Qed.

(** X16.  The parameters of a batch stand in the order in which the
    columns first give their names, and the secondary keys of a split are
    these names without the primary name, in that order. *)
Theorem secondary_keys_in_column_order (df : DataFrame Float)
    (name : string) (split : BMParams) (after : Params) :
  split_params (extract_params df) name = Ok (split, after) ->
  Dict.keys (extract_params df)
  = first_seen String.eqb (param_names (columns df))
  /\ tuple_of_secondary_keys split
     = filter (fun n => negb (String.eqb n name))
         (first_seen String.eqb (param_names (columns df)))
  /\ Dict.keys (primary split) = [name].
Proof.
  intros H.
  assert (Hkeys : Dict.keys (extract_params df)
                  = first_seen String.eqb (param_names (columns df))).
  { unfold extract_params. rewrite keys_extract_params_from. simpl.
    apply filter_true. }
  split; [exact Hkeys|].
  unfold split_params in H.
  destruct (Dict.get String.eqb name (extract_params df)); [|discriminate].
  injection H as <- _. unfold tuple_of_secondary_keys. simpl.
  split; [|reflexivity].
  change (map fst (Dict.del String.eqb name (extract_params df)))
    with (Dict.keys (Dict.del String.eqb name (extract_params df))).
  now rewrite keys_del, Hkeys.
Qed.

(** *** The older program *)

Lemma first_seen_In {A} (eqb : A -> A -> bool)
    (eqb_eq : forall a b, eqb a b = true <-> a = b) (l : list A) (x : A) :
  In x (first_seen eqb l) <-> In x l.
Proof.
  induction l as [|a l IH]; simpl; [tauto|].
  rewrite filter_In, IH. split.
  - intros [H|[H _]]; auto.
  - intros [H|H]; [now left|].
    destruct (eqb x a) eqn:E.
    + apply eqb_eq in E. now left.
    + right. auto.
Qed.

Lemma first_seen_NoDup {A} (eqb : A -> A -> bool)
    (eqb_eq : forall a b, eqb a b = true <-> a = b) (l : list A) :
  NoDup (first_seen eqb l).
Proof.
  induction l as [|a l IH]; simpl; constructor.
  - rewrite filter_In. intros [_ H].
    rewrite (eqb_refl_of eqb eqb_eq) in H. discriminate.
  - now apply NoDup_filter.
Qed.

Lemma flat_map_filter_nil {A B} (f : A -> list B) (p : A -> bool)
    (l : list A) :
  (forall a, In a l -> p a = false -> f a = []) ->
  flat_map f (filter p l) = flat_map f l.
Proof.
  induction l as [|a l IH]; intros H; simpl; [reflexivity|].
  destruct (p a) eqn:E; simpl.
  - rewrite IH; [reflexivity|]. intros x Hx. apply H. now right.
  - rewrite (H a (or_introl eq_refl) E), IH; [reflexivity|].
    intros x Hx. apply H. now right.
Qed.

Lemma flat_map_all_nil {A B} (f : A -> list B) (l : list A) :
  (forall a, In a l -> f a = []) -> flat_map f l = [].
Proof.
  induction l as [|a l IH]; intros H; simpl; [reflexivity|].
  rewrite (H a (or_introl eq_refl)), IH; [reflexivity|].
  intros x Hx. apply H. now right.
Qed.

Lemma sample_of_row_value (param_name : string) (sz b : Cell Float)
    (row : Row Float) :
  row_has_value param_name sz row = false ->
  sample_of_row param_name sz b row = [].
Proof.
  unfold row_has_value, sample_of_row.
  destruct (row_get param_name row) as [v|]; [|reflexivity].
  intros ->. simpl.
  destruct (row_get "Benchmark" row); [|reflexivity].
  now destruct (row_get "Score" row).
Qed.

(** Going through the distinct values of the parameter column, and for
    each through its rows, meets the rows of a pair of value and benchmark
    in the order of the table. *)
Lemma by_unique_values (param_name : string) (sz b : Cell Float)
    (l : list (Row Float)) (sizes : list (Cell Float)) :
  NoDup sizes ->
  (forall row, In row l ->
     exists v, row_get param_name row = Ok v /\ In v sizes) ->
  flat_map (fun sz' =>
              flat_map (sample_of_row param_name sz b)
                (filter (row_has_value param_name sz') l)) sizes
  = flat_map (sample_of_row param_name sz b) l.
Proof.
  intros Hnd Hall.
  assert (Hother : forall sz', sz' <> sz ->
             flat_map (sample_of_row param_name sz b)
               (filter (row_has_value param_name sz') l) = []).
  { intros sz' Hne. apply flat_map_all_nil. intros row Hin.
    apply filter_In in Hin. destruct Hin as [_ Hv].
    apply sample_of_row_value. unfold row_has_value in *.
    destruct (row_get param_name row) as [v|]; [|reflexivity].
    apply cell_eqb_eq in Hv. subst v.
    now apply (eqb_neq_of cell_eqb cell_eqb_eq). }
  assert (Hsame : flat_map (sample_of_row param_name sz b)
                    (filter (row_has_value param_name sz) l)
                  = flat_map (sample_of_row param_name sz b) l).
  { apply flat_map_filter_nil. intros row _.
    apply sample_of_row_value. }
  destruct (in_dec Cell_eq_dec sz sizes) as [Hin|Hnot].
  - apply in_split in Hin. destruct Hin as [l1 [l2 ->]].
    apply NoDup_remove_2 in Hnd.
    rewrite flat_map_app. simpl. rewrite Hsame.
    rewrite (flat_map_all_nil _ l1), (flat_map_all_nil _ l2).
    + now rewrite app_nil_r.
    + intros sz' Hin'. apply Hother. intros ->. apply Hnd.
      apply in_or_app. now right.
    + intros sz' Hin'. apply Hother. intros ->. apply Hnd.
      apply in_or_app. now left.
  - rewrite flat_map_all_nil.
    + symmetry. apply flat_map_all_nil. intros row Hin.
      apply sample_of_row_value. unfold row_has_value.
      destruct (Hall row Hin) as [v [-> Hv]].
      apply (eqb_neq_of cell_eqb cell_eqb_eq). intros ->. contradiction.
    + intros sz' Hin'. apply Hother. intros ->. contradiction.
Qed.

Lemma sample_with_samples (sz b : Cell Float) (scores : list (Cell Float))
    (results_dict : ValueResults Float) (sz0 b0 : Cell Float) :
  item cell_eqb b0 (item cell_eqb sz0 (with_samples sz b scores results_dict))
  = item cell_eqb b0 (item cell_eqb sz0 results_dict)
      ++ (if cell_eqb sz sz0 && cell_eqb b b0 then scores else []).
Proof.
  unfold with_samples. cbv zeta. rewrite (item_set cell_eqb cell_eqb_eq).
  destruct (cell_eqb sz0 sz) eqn:Es.
  - apply cell_eqb_eq in Es. subst sz0.
    rewrite (eqb_refl_of cell_eqb cell_eqb_eq). simpl.
    rewrite (item_set cell_eqb cell_eqb_eq).
    destruct (cell_eqb b0 b) eqn:Eb.
    + apply cell_eqb_eq in Eb. subst b0.
      now rewrite (eqb_refl_of cell_eqb cell_eqb_eq).
    + destruct (cell_eqb b b0) eqn:Eb'; [|now rewrite app_nil_r].
      apply cell_eqb_eq in Eb'. subst b0.
      rewrite (eqb_refl_of cell_eqb cell_eqb_eq) in Eb. discriminate.
  - destruct (cell_eqb sz sz0) eqn:Es'; [|now rewrite app_nil_r].
    apply cell_eqb_eq in Es'. subst sz0.
    rewrite (eqb_refl_of cell_eqb cell_eqb_eq) in Es. discriminate.
Qed.

Lemma add_sample_inv (sz : Cell Float) (results_dict r : ValueResults Float)
    (row : Row Float) :
  add_sample sz results_dict row = Ok r ->
  exists b score,
    row_get "Benchmark" row = Ok b
    /\ row_get "Score" row = Ok score
    /\ r = with_samples sz b [score] results_dict.
Proof.
  unfold add_sample, with_samples.
  destruct (row_get "Benchmark" row) as [b|]; [|discriminate]. simpl.
  destruct (row_get "Score" row) as [score|]; [|discriminate]. simpl.
  intros [= <-]. exists b, score. repeat split.
  f_equal.
  pose proof (item_mem_none (X := Cell Float) cell_eqb cell_eqb_eq b b
                (item cell_eqb sz results_dict)) as Hitem.
  rewrite Hitem. apply (set_mem_none cell_eqb cell_eqb_eq).
Qed.

Lemma foldM_add_sample (param_name : string) (sz : Cell Float)
    (l : list (Row Float)) :
  Forall (fun row => row_has_value param_name sz row = true) l ->
  forall r0 r,
    foldM (add_sample sz) l r0 = Ok r ->
    (forall sz0 b0,
       item cell_eqb b0 (item cell_eqb sz0 r)
       = item cell_eqb b0 (item cell_eqb sz0 r0)
           ++ flat_map (sample_of_row param_name sz0 b0) l)
    /\ total_samples r = total_samples r0 + List.length l.
Proof.
  induction 1 as [|row l Hrow _ IH]; intros r0 r H; simpl in H.
  - injection H as <-. split; [intros; now rewrite app_nil_r|simpl; lia].
  - destruct (add_sample sz r0 row) as [r1|] eqn:E; [|discriminate].
    simpl in H. destruct (IH r1 r H) as [IHb IHt].
    apply add_sample_inv in E. destruct E as [b [score [Hb [Hs ->]]]].
    split.
    + intros sz0 b0. rewrite IHb, sample_with_samples, <- app_assoc.
      f_equal. simpl. f_equal.
      unfold sample_of_row, row_has_value in *. rewrite Hb, Hs.
      destruct (row_get param_name row) as [v|]; [|discriminate].
      apply cell_eqb_eq in Hrow. now subst v.
    + rewrite IHt. simpl List.length.
      assert (Hput : total_samples (with_samples sz b [score] r0)
                     = total_samples r0 + 1).
      { unfold with_samples, total_samples. cbv zeta.
        set (g := item cell_eqb sz r0).
        set (mu := fun d : list (Cell Float * list (Cell Float)) =>
                     list_sum (map (fun samples => List.length (snd samples))
                                 d)).
        set (g' := Dict.set cell_eqb b (item cell_eqb b g ++ [score]) g).
        assert (Hout : list_sum (map (fun e => mu (snd e))
                                   (Dict.set cell_eqb sz g' r0)) + mu g
                       = list_sum (map (fun e => mu (snd e)) r0) + mu g').
        { exact (sum_set cell_eqb mu [] sz g' r0 eq_refl). }
        assert (Hin : mu g' + List.length (item cell_eqb b g)
                      = mu g + List.length (item cell_eqb b g ++ [score])).
        { exact (sum_set cell_eqb (@List.length (Cell Float)) [] b
                   (item cell_eqb b g ++ [score]) g eq_refl). }
        rewrite length_app in Hin. simpl in Hin.
        change (fun for_sz : Cell Float * list (Cell Float * list (Cell Float))
                => list_sum (map (fun samples => List.length (snd samples))
                               (snd for_sz)))
          with (fun e : Cell Float * list (Cell Float * list (Cell Float))
                => mu (snd e)).
        lia. }
      lia.
Qed.

Lemma total_samples_ensure (sz : Cell Float)
    (results_dict : ValueResults Float) :
  total_samples (if Dict.mem cell_eqb sz results_dict then results_dict
                 else Dict.set cell_eqb sz [] results_dict)
  = total_samples results_dict.
Proof.
  unfold Dict.mem.
  destruct (Dict.get cell_eqb sz results_dict) eqn:E; [reflexivity|].
  pose proof (sum_set cell_eqb
                (fun d : list (Cell Float * list (Cell Float)) =>
                   list_sum (map (fun samples => List.length (snd samples))
                               d)) [] sz [] results_dict eq_refl) as H.
  rewrite E in H. simpl in H. unfold total_samples. lia.
Qed.

Lemma where_eq_ok (df d : DataFrame Float) (label : string)
    (v : Cell Float) :
  (forall row c, In row (rows df) -> row_get label row = Ok c ->
     py_eq c v = cell_eqb c v) ->
  where_eq df label v = Ok d ->
  rows d = filter (row_has_value label v) (rows df).
Proof.
  intros Hplain. unfold where_eq, column, take_rows.
  destruct (existsb (String.eqb label) (columns df)); [|discriminate].
  destruct (mapM (row_get label) (rows df)) as [cs|] eqn:Hcs;
    [|discriminate]. simpl. intros [= <-]. simpl.
  apply mapM_ok_inv in Hcs. revert Hplain.
  induction Hcs as [|row c l cs Hc _ IH]; intros Hplain; [reflexivity|].
  simpl. unfold row_has_value at 1.
  rewrite Hc, (Hplain row c (or_introl eq_refl) Hc), IH; [reflexivity|].
  intros r c' Hr. apply Hplain. now right.
Qed.

Lemma add_size_inv (df : DataFrame Float) (param_name : string)
    (r0 r : ValueResults Float) (sz : Cell Float) :
  (forall row c, In row (rows df) -> row_get param_name row = Ok c ->
     py_eq c sz = cell_eqb c sz) ->
  add_size df param_name r0 sz = Ok r ->
  (forall sz0 b0,
     item cell_eqb b0 (item cell_eqb sz0 r)
     = item cell_eqb b0 (item cell_eqb sz0 r0)
         ++ flat_map (sample_of_row param_name sz0 b0)
              (filter (row_has_value param_name sz) (rows df)))
  /\ total_samples r
     = total_samples r0
       + List.length (filter (row_has_value param_name sz) (rows df)).
Proof.
  intros Hplain. unfold add_size.
  destruct (where_eq df param_name sz) as [df_sz|] eqn:E; [|discriminate].
  simpl. apply (where_eq_ok _ _ _ _ Hplain) in E. rewrite E. intros H.
  apply (foldM_add_sample param_name sz) in H.
  - destruct H as [Hb Ht]. split.
    + intros sz0 b0. rewrite Hb. f_equal. f_equal.
      apply (item_mem_none cell_eqb cell_eqb_eq).
    + rewrite Ht. f_equal. apply total_samples_ensure.
  - apply Forall_forall. intros row Hin. apply filter_In in Hin. tauto.
Qed.

Lemma foldM_add_size (df : DataFrame Float) (param_name : string)
    (sizes : list (Cell Float)) :
  (forall sz row c, In sz sizes -> In row (rows df) ->
     row_get param_name row = Ok c -> py_eq c sz = cell_eqb c sz) ->
  forall r0 r,
    foldM (add_size df param_name) sizes r0 = Ok r ->
    (forall sz0 b0,
       item cell_eqb b0 (item cell_eqb sz0 r)
       = item cell_eqb b0 (item cell_eqb sz0 r0)
           ++ flat_map (fun sz =>
                          flat_map (sample_of_row param_name sz0 b0)
                            (filter (row_has_value param_name sz) (rows df)))
                sizes)
    /\ total_samples r
       = total_samples r0
         + list_sum (map (fun sz =>
                            List.length
                              (filter (row_has_value param_name sz) (rows df)))
                       sizes).
Proof.
  induction sizes as [|sz sizes IH]; intros Hplain r0 r H; simpl in H.
  - injection H as <-. split; [intros; now rewrite app_nil_r|simpl; lia].
  - destruct (add_size df param_name r0 sz) as [r1|] eqn:E; [|discriminate].
    simpl in H.
    destruct (IH (fun sz' row c Hin => Hplain sz' row c (or_intror Hin))
                r1 r H) as [IHb IHt].
    apply add_size_inv in E;
      [|intros row c; apply Hplain; now left].
    destruct E as [Hb Ht]. split.
    + intros sz0 b0. rewrite IHb, Hb, <- app_assoc. reflexivity.
    + rewrite IHt, Ht. simpl. lia.
Qed.

Lemma count_one (v : Cell Float) (sizes : list (Cell Float)) :
  NoDup sizes -> In v sizes ->
  list_sum (map (fun sz => if cell_eqb v sz then 1 else 0) sizes) = 1.
Proof.
  induction 1 as [|sz sizes Hnot Hnd IH]; intros Hin; [contradiction|].
  simpl. destruct Hin as [->|Hin].
  - rewrite (eqb_refl_of cell_eqb cell_eqb_eq).
    assert (Hz : list_sum (map (fun sz => if cell_eqb v sz then 1 else 0)
                             sizes) = 0).
    { clear IH Hnd. induction sizes as [|s l IHl]; [reflexivity|].
      simpl. rewrite (eqb_neq_of cell_eqb cell_eqb_eq v s).
      - apply IHl. intros H. apply Hnot. now right.
      - intros ->. apply Hnot. now left. }
    lia.
  - rewrite (eqb_neq_of cell_eqb cell_eqb_eq v sz); [now rewrite IH|].
    intros ->. contradiction.
Qed.

Lemma count_by_unique_values (param_name : string) (l : list (Row Float))
    (sizes : list (Cell Float)) :
  NoDup sizes ->
  (forall row, In row l ->
     exists v, row_get param_name row = Ok v /\ In v sizes) ->
  list_sum (map (fun sz =>
                   List.length (filter (row_has_value param_name sz) l)) sizes)
  = List.length l.
Proof.
  intros Hnd. induction l as [|row l IH]; intros Hall.
  - simpl. clear. induction sizes; [reflexivity|]. simpl. exact IHsizes.
  - destruct (Hall row (or_introl eq_refl)) as [v [Hv Hin]].
    assert (Hsplit :
      list_sum (map (fun sz =>
                       List.length
                         (filter (row_has_value param_name sz) (row :: l)))
                  sizes)
      = list_sum (map (fun sz => if cell_eqb v sz then 1 else 0) sizes)
        + list_sum (map (fun sz =>
                           List.length
                             (filter (row_has_value param_name sz) l)) sizes)).
    { clear - Hv. induction sizes as [|sz sizes IHs]; [reflexivity|].
      unfold list_sum in *. cbn [map fold_right]. rewrite IHs. cbn [filter].
      unfold row_has_value at 1. rewrite Hv.
      destruct (cell_eqb v sz); cbn [List.length]; lia. }
    rewrite Hsplit, (count_one v sizes Hnd Hin), IH; [reflexivity|].
    intros r Hr. apply Hall. now right.
Qed.

Lemma add_csv_inv (fp param_name : string) (r0 r : ValueResults Float) :
  (forall df d,
     read_csv fp = Some df -> shorten_benchmarks (iloc_step 9 df) = Ok d ->
     plain_cells (column_cells param_name (rows d)) = true) ->
  add_csv fp param_name r0 = Ok r ->
  exists df d,
    read_csv fp = Some df
    /\ shorten_benchmarks (iloc_step 9 df) = Ok d
    /\ (forall sz0 b0,
          item cell_eqb b0 (item cell_eqb sz0 r)
          = item cell_eqb b0 (item cell_eqb sz0 r0)
              ++ flat_map (sample_of_row param_name sz0 b0) (rows d))
    /\ total_samples r = total_samples r0 + len d.
Proof.
  intros Hplain. unfold add_csv.
  destruct (read_csv fp) as [df|] eqn:Eread; [|discriminate]. simpl.
  destruct (shorten_benchmarks (iloc_step 9 df)) as [d|] eqn:Ed;
    [|discriminate]. simpl.
  specialize (Hplain df d eq_refl Ed).
  destruct (column d param_name) as [sizes|] eqn:Ec; [|discriminate]. simpl.
  intros H. exists df, d. split; [reflexivity|]. split; [exact Ed|].
  assert (Hsizes : forall sz, In sz (first_seen cell_eqb sizes) ->
             In sz (column_cells param_name (rows d))).
  { intros sz Hsz.
    apply (proj1 (first_seen_In cell_eqb cell_eqb_eq _ _)) in Hsz.
    unfold column in Ec. destruct (existsb _ _); [|discriminate].
    apply mapM_ok_inv in Ec. apply column_cells_In.
    clear - Ec Hsz. induction Ec as [|row v l vs Hv _ IH]; [contradiction|].
    destruct Hsz as [->|Hsz].
    - exists row. split; [now left|exact Hv].
    - destruct (IH Hsz) as [r [Hr Hg]]. exists r. split; [now right|exact Hg]. }
  apply foldM_add_size in H.
  2:{ intros sz row c Hsz Hrow Hc.
      apply (proj1 (plain_cells_spec _) Hplain).
      - apply column_cells_In. now exists row.
      - now apply Hsizes. }
  destruct H as [Hb Ht].
  assert (Hall : forall row, In row (rows d) ->
             exists v, row_get param_name row = Ok v
                       /\ In v (first_seen cell_eqb sizes)).
  { unfold column in Ec. destruct (existsb _ _); [|discriminate].
    apply mapM_ok_inv in Ec. clear - Ec.
    induction Ec as [|row v l vs Hv _ IH]; intros r Hr; [contradiction|].
    destruct Hr as [->|Hr].
    - exists v. split; [exact Hv|].
      apply (first_seen_In cell_eqb cell_eqb_eq). now left.
    - destruct (IH r Hr) as [v' [Hv' Hin]]. exists v'. split; [exact Hv'|].
      apply (first_seen_In cell_eqb cell_eqb_eq).
      apply (proj1 (first_seen_In cell_eqb cell_eqb_eq _ _)) in Hin.
      now right. }
  pose proof (first_seen_NoDup cell_eqb cell_eqb_eq sizes) as Hnd.
  split.
  - intros sz0 b0. rewrite Hb. f_equal.
    now apply by_unique_values.
  - rewrite Ht. unfold len. f_equal.
    now apply count_by_unique_values.
Qed.

Lemma rows_of_entry_csv (path file : string) (df d : DataFrame Float) :
  endswith ".csv" file = true ->
  read_csv (os_path_join path file) = Some df ->
  shorten_benchmarks (iloc_step 9 df) = Ok d ->
  rows_of_entry path file = rows d.
Proof.
  intros Hcsv Hread Hd. unfold rows_of_entry.
  rewrite Hcsv, Hread. simpl. now rewrite Hd.
Qed.

Lemma for_files_ok (path param_name : string) (files : list string) :
  plain_cells
    (column_cells param_name (flat_map (rows_of_entry path) files)) = true ->
  forall r0 printed r,
    for_files path param_name files r0 = (printed, Ok r) ->
    (forall sz0 b0,
       item cell_eqb b0 (item cell_eqb sz0 r)
       = item cell_eqb b0 (item cell_eqb sz0 r0)
           ++ flat_map (sample_of_row param_name sz0 b0)
                (flat_map (rows_of_entry path) files))
    /\ total_samples r
       = total_samples r0
         + List.length (flat_map (rows_of_entry path) files).
Proof.
  induction files as [|file files IH]; intros Hplain r0 printed r H;
    simpl in H.
  - injection H as <- <-. simpl.
    split; [intros; now rewrite app_nil_r|lia].
  - simpl flat_map in *. rewrite column_cells_app in Hplain.
    apply plain_cells_app in Hplain. destruct Hplain as [Hfile Hrest].
    destruct (endswith ".csv" file) eqn:Ecsv.
    + destruct (add_csv (os_path_join path file) param_name r0) as [r1|]
        eqn:E; [|discriminate].
      destruct (for_files path param_name files r1) as [printed' r'] eqn:E'.
      injection H as <- ->.
      destruct (IH Hrest r1 printed' r E') as [IHb IHt].
      apply add_csv_inv in E.
      2:{ intros df d Hread Hd.
          now rewrite <- (rows_of_entry_csv path file df d Ecsv Hread Hd). }
      destruct E as [df [d [Hread [Hd [Hb Ht]]]]].
      rewrite (rows_of_entry_csv path file df d Ecsv Hread Hd).
      split.
      * intros sz0 b0. rewrite IHb, Hb, flat_map_app, <- app_assoc.
        reflexivity.
      * rewrite IHt, Ht, length_app. unfold len. lia.
    + destruct (IH Hrest r0 printed r H) as [IHb IHt].
      unfold rows_of_entry at 1 3. rewrite Ecsv. simpl.
      auto.
Qed.

Lemma for_files_printed_all (path param_name : string)
    (files : list string) :
  forall r0 printed r,
    for_files path param_name files r0 = (printed, Ok r) ->
    printed = map (os_path_join path) (filter (endswith ".csv") files).
Proof.
  induction files as [|file files IH]; intros r0 printed r H; simpl in H.
  - now injection H as <- _.
  - simpl filter. destruct (endswith ".csv" file).
    + destruct (add_csv (os_path_join path file) param_name r0) as [r1|];
        [|discriminate].
      destruct (for_files path param_name files r1) as [printed' r'] eqn:E'.
      injection H as <- ->. simpl. f_equal. exact (IH r1 printed' r E').
    + exact (IH r0 printed r H).
Qed.

Lemma for_files_printed (path param_name : string) (files : list string) :
  forall r0 printed r,
    for_files path param_name files r0 = (printed, r) ->
    exists rest,
      map (os_path_join path) (filter (endswith ".csv") files)
      = printed ++ rest.
Proof.
  induction files as [|file files IH]; intros r0 printed r H; simpl in H.
  - injection H as <- _. now exists [].
  - simpl filter. destruct (endswith ".csv" file).
    + destruct (add_csv (os_path_join path file) param_name r0) as [r1|].
      * destruct (for_files path param_name files r1) as [printed' r']
          eqn:E'.
        injection H as <- _. destruct (IH r1 printed' r' E') as [rest Hrest].
        exists rest. simpl. now rewrite Hrest.
      * injection H as <- _. simpl. eexists. reflexivity.
    + exact (IH r0 printed r H).
Qed.

(** X17.  On a directory where the values of the parameter column are
    plain (no value is nan and no two values of different types are equal
    as numbers, so that [==] and the lookup of a key agree): when the older
    program returns, the dictionary it has drawn holds, under the
    parameter value and the benchmark of a row it has read (a benchmark is
    a string there), the scores of exactly the rows with that value
    and that benchmark, file by file in the order of the directory listing
    and row by row within a file, although the program goes through a file
    value by value; only the entries that end in [.csv] are read, every
    ninth row of each; and the dictionary has a score for every such
    row. *)
Theorem value_results_in_file_order (path param_name title : string)
    (files printed : list string) :
  listdir path = Some files ->
  plain_cells
    (column_cells param_name (flat_map (rows_of_entry path) files)) = true ->
  process_value_results path param_name title = (printed, Ok tt) ->
  exists results_dict,
    plot_byte_array_from_native_performance_comparisons results_dict title
    = Some tt
    /\ (forall row sz b,
          In row (flat_map (rows_of_entry path) files) ->
          Dict.get String.eqb param_name row = Some sz ->
          Dict.get String.eqb "Benchmark" row = Some b ->
          item cell_eqb b (item cell_eqb sz results_dict)
          = flat_map (sample_of_row param_name sz b)
              (flat_map (rows_of_entry path) files))
    /\ total_samples results_dict
       = List.length (flat_map (rows_of_entry path) files).
Proof.
  intros Hlist Hplain. unfold process_value_results. rewrite Hlist.
  destruct (for_files path param_name files []) as [printed' r] eqn:E.
  destruct r as [results_dict|]; [|discriminate]. simpl.
  destruct (plot_byte_array_from_native_performance_comparisons
              results_dict title) as [[]|] eqn:Ep; [|discriminate].
  intros _. exists results_dict.
  destruct (for_files_ok path param_name files Hplain [] printed'
              results_dict E) as [Hb Ht].
  repeat split; auto.
Qed.

(** X18.  The older program prints the joined path of an entry that ends
    in [.csv] before it reads the file, in the order of the listing and
    nothing else: what it has printed is always a front part of the list
    of these paths, and the whole list when it returns. *)
Theorem value_results_printed (path param_name title : string)
    (files printed : list string) (r : Result unit) :
  listdir path = Some files ->
  process_value_results path param_name title = (printed, r) ->
  exists rest,
    map (os_path_join path) (filter (endswith ".csv") files)
    = printed ++ rest
    /\ (r = Ok tt -> rest = []).
Proof.
  intros Hlist. unfold process_value_results. rewrite Hlist.
  destruct (for_files path param_name files []) as [printed' r'] eqn:E.
  intros [= <- <-].
  destruct r' as [results_dict|e].
  - pose proof (for_files_printed_all path param_name files [] printed'
                  results_dict E) as Hp.
    exists []. rewrite app_nil_r. auto.
  - destruct (for_files_printed path param_name files [] printed'
                (Raise e) E) as [rest Hrest].
    exists rest. split; [exact Hrest|]. discriminate.
Qed.

End MoreFacts.

(** * Worked instances of the further properties *)

Lemma secondary_values_aligned_witness :
  tuple_of_secondary_values Sample.value_params
    SampleValues.first_row = Ok [CBool true]
  /\ List.length [@CBool Sample.Tenths true]
     = List.length (tuple_of_secondary_keys Sample.value_params).
Proof.
  assert (H : tuple_of_secondary_values Sample.value_params
                SampleValues.first_row
              = Ok [CBool true]) by reflexivity.
  split; [exact H|].
  exact (proj1 (secondary_values_aligned _ _ _ H)).
Defined.

Lemma filter_for_benchmarks_sub_batch_witness :
  literal_patterns (Some "Array") = true
  /\ filter_for_benchmarks Sample.four_rows (Some "Array")
     = Ok SampleValues.array_rows
  /\ rows SampleValues.array_rows
     = filter (benchmark_keep (Some "Array")) (rows Sample.four_rows)
  /\ len SampleValues.array_rows <= len Sample.four_rows.
Proof.
  assert (Hl : literal_patterns (Some "Array") = true) by reflexivity.
  assert (H : filter_for_benchmarks Sample.four_rows (Some "Array")
              = Ok SampleValues.array_rows) by reflexivity.
  split; [exact Hl|]. split; [exact H|].
  destruct (filter_for_benchmarks_sub_batch _ _ _ Hl H) as [Hr [_ Hlen]].
  split; [exact Hr|exact Hlen].
Defined.

Lemma filter_for_range_sub_batch_witness :
  filter_for_range Sample.four_rows "valueSize" "<10"
  = Ok SampleValues.small_rows
  /\ rows SampleValues.small_rows
     = filter (range_keep "valueSize" "<10") (rows Sample.four_rows)
  /\ len SampleValues.small_rows <= len Sample.four_rows.
Proof.
  assert (H : filter_for_range Sample.four_rows "valueSize" "<10"
              = Ok SampleValues.small_rows) by reflexivity.
  split; [exact H|].
  destruct (filter_for_range_sub_batch _ _ _ _ H) as [Hr [_ Hlen]].
  split; [exact Hr|exact Hlen].
Defined.

Lemma filter_for_benchmarks_idempotent_witness :
  literal_patterns (Some "Array") = true
  /\ filter_for_benchmarks Sample.four_rows (Some "Array")
     = Ok SampleValues.array_rows
  /\ rows SampleValues.array_rows <> []
  /\ filter_for_benchmarks SampleValues.array_rows (Some "Array")
     = Ok SampleValues.array_rows.
Proof.
  assert (Hl : literal_patterns (Some "Array") = true) by reflexivity.
  assert (H : filter_for_benchmarks Sample.four_rows (Some "Array")
              = Ok SampleValues.array_rows) by reflexivity.
  assert (Hne : rows SampleValues.array_rows <> []) by discriminate.
  split; [exact Hl|]. split; [exact H|]. split; [exact Hne|].
  exact (filter_for_benchmarks_idempotent _ _ _ Hl H Hne).
Defined.

Lemma filter_for_range_idempotent_witness :
  filter_for_range Sample.four_rows "valueSize" "<10"
  = Ok SampleValues.small_rows
  /\ rows SampleValues.small_rows <> []
  /\ filter_for_range SampleValues.small_rows "valueSize" "<10"
     = Ok SampleValues.small_rows.
Proof.
  assert (H : filter_for_range Sample.four_rows "valueSize" "<10"
              = Ok SampleValues.small_rows) by reflexivity.
  assert (Hne : rows SampleValues.small_rows <> []) by discriminate.
  split; [exact H|]. split; [exact Hne|].
  exact (filter_for_range_idempotent _ _ _ _ H Hne).
Defined.

Lemma filters_commute_witness :
  literal_patterns (Some "Direct") = true
  /\ filter_for_benchmarks Sample.four_rows (Some "Direct")
     = Ok SampleValues.direct_rows
  /\ filter_for_range SampleValues.direct_rows "valueSize" "10<"
     = Ok SampleValues.large_direct_rows
  /\ filter_for_range Sample.four_rows "valueSize" "10<"
     = Ok SampleValues.large_rows
  /\ filter_for_benchmarks SampleValues.large_rows (Some "Direct")
     = Ok SampleValues.large_direct_rows
  /\ rows SampleValues.large_direct_rows
     = rows SampleValues.large_direct_rows.
Proof.
  assert (Hl : literal_patterns (Some "Direct") = true) by reflexivity.
  assert (H1 : filter_for_benchmarks Sample.four_rows (Some "Direct")
               = Ok SampleValues.direct_rows) by reflexivity.
  assert (H12 : filter_for_range SampleValues.direct_rows "valueSize" "10<"
                = Ok SampleValues.large_direct_rows) by reflexivity.
  assert (H2 : filter_for_range Sample.four_rows "valueSize" "10<"
               = Ok SampleValues.large_rows) by reflexivity.
  assert (H21 : filter_for_benchmarks SampleValues.large_rows (Some "Direct")
                = Ok SampleValues.large_direct_rows) by reflexivity.
  split; [exact Hl|]. split; [exact H1|]. split; [exact H12|].
  split; [exact H2|]. split; [exact H21|].
  exact (proj1 (filters_commute _ _ _ _ _ _ _ _ Hl H1 H12 H2 H21)).
Defined.

Lemma benchmark_patterns_are_alternatives_witness :
  "Array" <> EmptyString /\ "8" <> EmptyString
  /\ literal_patterns (Some "Array") = true
  /\ literal_patterns (Some "8") = true
  /\ filter_for_benchmarks Sample.four_rows (Some "Array")
     = Ok SampleValues.array_rows
  /\ filter_for_benchmarks Sample.four_rows (Some "8")
     = Ok (Sample.frame [])
  /\ exists d12,
       filter_for_benchmarks Sample.four_rows (Some "Array,8") = Ok d12.
Proof.
  assert (Hn1 : "Array" <> EmptyString) by discriminate.
  assert (Hn2 : "8" <> EmptyString) by discriminate.
  assert (Hl1 : literal_patterns (Some "Array") = true) by reflexivity.
  assert (Hl2 : literal_patterns (Some "8") = true) by reflexivity.
  assert (H1 : filter_for_benchmarks Sample.four_rows (Some "Array")
               = Ok SampleValues.array_rows) by reflexivity.
  assert (H2 : filter_for_benchmarks Sample.four_rows (Some "8")
               = Ok (Sample.frame [])) by reflexivity.
  split; [exact Hn1|]. split; [exact Hn2|].
  split; [exact Hl1|]. split; [exact Hl2|].
  split; [exact H1|]. split; [exact H2|].
  destruct (benchmark_patterns_are_alternatives _ _ _ _ _
              Hn1 Hn2 Hl1 Hl2 H1 H2) as [d12 [H12 _]].
  exists d12. exact H12.
Defined.

Lemma grouping_raises_key_error_only_witness :
  extract_results_per_param SampleValues.no_score Sample.value_only_params
  = Raise (KeyError "Score")
  /\ exists label row,
       KeyError "Score" = KeyError label
       /\ In label (grouping_columns Sample.value_only_params)
       /\ In row (rows SampleValues.no_score)
       /\ Dict.mem String.eqb label row = false.
Proof.
  assert (H : extract_results_per_param SampleValues.no_score
                Sample.value_only_params = Raise (KeyError "Score"))
    by reflexivity.
  split; [exact H|].
  exact (grouping_raises_key_error_only _ _ _ H).
Defined.


Lemma grouping_has_no_empty_part_witness :
  primary Sample.value_params <> []
  /\ extract_results_per_param Sample.four_rows Sample.value_params
     = Ok SampleValues.four_rows_grouping
  /\ forall k g, In (k, g) SampleValues.four_rows_grouping -> g <> [].
Proof.
  assert (Hp : primary Sample.value_params <> []) by discriminate.
  assert (H : extract_results_per_param Sample.four_rows Sample.value_params
              = Ok SampleValues.four_rows_grouping) by reflexivity.
  split; [exact Hp|]. split; [exact H|].
  intros k g Hin.
  exact (proj1 (grouping_has_no_empty_part _ _ _ Hp H k g Hin)).
Defined.

Lemma loader_no_input_files_witness :
  normalize_data_frame_from_path (outside := SampleValues.empty_directory)
    "empty"
  = Raise (BenchmarkError (NoInputFiles "empty")).
Proof.
  apply (proj2 (loader_no_input_files
                  (outside := SampleValues.empty_directory) "empty")).
  apply (proj1 (loader_no_input_files
                  (outside := SampleValues.empty_directory) "empty")).
  split; reflexivity.
Defined.

Lemma loader_single_file_witness :
  is_dir "run/results.csv" = false
  /\ read_csv "run/results.csv" = Some Sample.scenario_file
  /\ In "Benchmark" (columns Sample.scenario_file)
  /\ Forall (fun row => benchmark_name row <> None)
       (rows Sample.scenario_file)
  /\ exists d,
       normalize_data_frame_from_path "run/results.csv" = Ok d
       /\ len d = 1.
Proof.
  assert (H1 : is_dir "run/results.csv" = false) by reflexivity.
  assert (H2 : read_csv "run/results.csv" = Some Sample.scenario_file)
    by reflexivity.
  assert (H3 : In "Benchmark" (columns Sample.scenario_file))
    by (simpl; auto).
  assert (H4 : Forall (fun row => benchmark_name row <> None)
                 (rows Sample.scenario_file))
    by (repeat constructor; discriminate).
  repeat (split; [assumption|]).
  destruct (loader_single_file _ _ H1 H2 H3 H4) as [d [Hd [_ [Hlen _]]]].
  exists d. split; [exact Hd|exact Hlen].
Defined.

Lemma driver_errors_in_order_witness :
  process_benchmarks "./run//results.csv" "valueSize" (Some "Direct,")
    "20<10"
  = Raise (BenchmarkError (InvalidBenchmarkPattern ""))
  /\ pathlib.Path "./run//results.csv" = "run/results.csv"
  /\ path_exists (pathlib.Path "./run//results.csv") = true.
Proof.
  assert (H : process_benchmarks "./run//results.csv" "valueSize"
                (Some "Direct,") "20<10"
              = Raise (BenchmarkError (InvalidBenchmarkPattern "")))
    by reflexivity.
  split; [exact H|]. split; [reflexivity|].
  destruct (driver_errors_in_order _ _ _ _ _ H) as [[Hm _]|[Hp _]];
    [discriminate Hm|exact Hp].
Defined.

Lemma missing_parameter_needs_no_range_witness :
  process_benchmarks "run/results.csv" "size" (Some "") "all"
  = Raise (BenchmarkError
             (MissingPrimaryParameter "size"
                [("valueSize", "Param: valueSize");
                 ("checksum", "Param: checksum")]))
  /\ (PyStr.count "<" "all" <> 1
      \/ PyStr.count ":" "size" <> 0
      \/ PyStr.strip "size" <> "size").
Proof.
  assert (H : process_benchmarks "run/results.csv" "size" (Some "") "all"
              = Raise (BenchmarkError
                         (MissingPrimaryParameter "size"
                            [("valueSize", "Param: valueSize");
                             ("checksum", "Param: checksum")])))
    by reflexivity.
  split; [exact H|].
  exact (missing_parameter_needs_no_range _ _ _ _ _ H).
Defined.

Lemma driver_success_witness :
  process_benchmarks "run/results.csv" "valueSize" (Some "") "1<4097"
  = Ok tt
  /\ path_exists "run/results.csv" = true.
Proof.
  assert (H : process_benchmarks "run/results.csv" "valueSize" (Some "")
                "1<4097" = Ok tt) by reflexivity.
  split; [exact H|].
  exact (proj1 (driver_success _ _ _ _ H)).
Defined.

Lemma secondary_keys_in_column_order_witness :
  split_params (extract_params Sample.four_rows) "valueSize"
  = Ok (Sample.value_params, secondary Sample.value_params)
  /\ tuple_of_secondary_keys Sample.value_params = ["checksum"].
Proof.
  assert (H : split_params (extract_params Sample.four_rows) "valueSize"
              = Ok (Sample.value_params, secondary Sample.value_params))
    by reflexivity.
  split; [exact H|].
  destruct (secondary_keys_in_column_order _ _ _ _ H) as [_ [Hs _]].
  rewrite Hs. reflexivity.
Defined.

Lemma value_results_in_file_order_witness :
  listdir "run" = Some ["notes.txt"; "results.csv"]
  /\ plain_cells
       (column_cells "Param: valueSize"
          (flat_map (rows_of_entry "run") ["notes.txt"; "results.csv"]))
     = true
  /\ process_value_results "run" "Param: valueSize" "title"
     = (["run/results.csv"], Ok tt)
  /\ exists results_dict,
       item cell_eqb (CStr "BenchGetDirect")
         (item cell_eqb (CInt 64) results_dict)
       = [@CFloat Sample.Tenths 1205%Z]
       /\ total_samples results_dict = 1.
Proof.
  assert (Hlist : listdir "run" = Some ["notes.txt"; "results.csv"])
    by reflexivity.
  assert (Hplain : plain_cells
                     (column_cells "Param: valueSize"
                        (flat_map (rows_of_entry "run")
                           ["notes.txt"; "results.csv"])) = true)
    by reflexivity.
  assert (H : process_value_results "run" "Param: valueSize" "title"
              = (["run/results.csv"], Ok tt)) by reflexivity.
  split; [exact Hlist|]. split; [exact Hplain|]. split; [exact H|].
  destruct (value_results_in_file_order _ _ _ _ _ Hlist Hplain H)
    as [results_dict [_ [Hb Ht]]].
  exists results_dict. split; [|rewrite Ht; reflexivity].
  rewrite (Hb SampleValues.first_row (CInt 64) (CStr "BenchGetDirect"));
    [reflexivity|simpl; auto|reflexivity|reflexivity].
Defined.

Lemma value_results_printed_witness :
  listdir "run" = Some ["notes.txt"; "results.csv"]
  /\ process_value_results "run" "Param: valueSize" "title"
     = (["run/results.csv"], Ok tt)
  /\ exists rest,
       map (os_path_join "run")
         (filter (endswith ".csv") ["notes.txt"; "results.csv"])
       = ["run/results.csv"] ++ rest.
Proof.
  assert (H1 : listdir "run" = Some ["notes.txt"; "results.csv"])
    by reflexivity.
  assert (H2 : process_value_results "run" "Param: valueSize" "title"
               = (["run/results.csv"], Ok tt)) by reflexivity.
  split; [exact H1|]. split; [exact H2|].
  destruct (value_results_printed _ _ _ _ _ _ H1 H2) as [rest [Hrest _]].
  exists rest. exact Hrest.
Defined.
